(** * SynthMed patient simulation engine: a shallow embedding

    The development follows the Python sources of the [synthmed] package:

    - [synthmed/config.py]            ([Config], [Config.__post_init__],
                                       [Config.get_modules_path]);
    - [synthmed/engine/module.py]     ([Module], [ModuleLoader.load_modules]);
    - [synthmed/utils/demographics.py] (default tables and samplers);
    - [synthmed/utils/providers.py]   ([ProviderFactory] and its default
                                       providers);
    - [synthmed/engine/generator.py]  ([Generator] and its private methods);
    - [synthmed/engine/engine.py]     ([Engine._generate_population], [Engine.run]).

    Conventions.

    - Python [int]s are [Z].  A Python [float] that is computed with
      (the gender ratios, which are summed, divided and accumulated, and
      the race distribution, which is accumulated) is an IEEE 754 binary64
      number, Rocq's primitive [float]; its operations are the hardware
      ones.  A float that is only compared (a draw of [random.random()],
      the probability of a module or of a Death state) is held as the
      rational it denotes ([Q]); comparing two such numbers is exact.
    - A [datetime.date] is represented by its proleptic Gregorian ordinal
      ([date.toordinal()]); comparison, subtraction and the addition of a
      [timedelta] are the corresponding operations on ordinals, with the
      [OverflowError] Python raises outside [date.min .. date.max].
    - The module-level generator of Python's [random] is a piece of global
      state.  It is threaded explicitly through every function; the
      generator itself (Mersenne Twister) is kept abstract behind the class
      [RandomSource].
    - Exceptions are values of [exn]; every effectful function lives in the
      monad [M], which threads the generator state, propagates exceptions
      and accumulates an observation trace ([event]). *)

From Stdlib Require Import ZArith QArith List String Ascii Bool Lia.
From Stdlib Require Import Permutation Sorted DecimalString DecimalNat.
From Stdlib Require Import Floats.
Import ListNotations.

(** A decimal literal of a float denotes the nearest binary64 number, as
    it does in Python. *)
Set Warnings "-inexact-float".

Open Scope string_scope.
Open Scope list_scope.
Open Scope Z_scope.

(** ** Exceptions and results

    [OSError] stands for the exception with which [os.makedirs] fails,
    whatever its subclass ([PermissionError], [NotADirectoryError],
    [FileNotFoundError], ...); [FileNotFoundError] is the one that
    [Config.get_modules_path] raises itself. *)

Inductive exn : Type :=
| ValueError
| IndexError
| OverflowError
| RecursionError
| ZeroDivisionError
| FileNotFoundError
| OSError.

Inductive result (A : Type) : Type :=
| Ok (a : A)
| Raise (e : exn).

Arguments Ok {A} a.
Arguments Raise {A} e.

Definition result_map {A B} (f : A -> B) (r : result A) : result B :=
  match r with
  | Ok a => Ok (f a)
  | Raise e => Raise e
  end.

Definition is_ok {A} (r : result A) : bool :=
  match r with Ok _ => true | Raise _ => false end.

(** ** The [random] module

    [rng_seed] is [random.seed(n)], [rng_random] is [random.random()],
    [rng_randint a b] is [random.randint(a, b)] for [a <= b] (the empty
    range is handled by [randint] below) and [rng_choice n] is the index
    picked by [random.choice] in a sequence of length [n > 0].  The three
    range laws are the documented contracts of these functions. *)

Class RandomSource : Type := {
  rng : Type;
  rng_seed : Z -> rng;
  rng_random : rng -> Q * rng;
  rng_randint : Z -> Z -> rng -> Z * rng;
  rng_choice : nat -> rng -> nat * rng;
  rng_random_range :
    forall s, (0 <= fst (rng_random s))%Q /\ (fst (rng_random s) < 1)%Q;
  rng_randint_range :
    forall a b s, a <= b -> a <= fst (rng_randint a b s) <= b;
  rng_choice_range :
    forall n s, (0 < n)%nat -> (fst (rng_choice n s) < n)%nat
}.

(** ** Observations

    The trace is instrumentation: it records what the code does (calls
    into [random], log records, module evaluations, death draws that
    succeed) and is never read back by the program. *)

Inductive log_record : Type :=
| LogWarningMissingPath (path : string)
| LogInfoProgress (done total : Z)
| LogErrorPatient (e : exn).

Inductive event : Type :=
| EvDraw                                  (* one call of random()/randint()/choice() *)
| EvLog (r : log_record)
| EvEval (d : Z) (name : string) (ran : bool)  (* a module looked at on date [d] *)
| EvDeath (d : Z) (name : string).        (* a Death draw succeeded on date [d] *)

Definition is_draw (e : event) : bool :=
  match e with EvDraw => true | _ => false end.

Definition draws (t : list event) : nat := List.length (filter is_draw t).

(** ** Strings as Python uses them here *)

Definition lower_ascii (c : ascii) : ascii :=
  let n := nat_of_ascii c in
  if ((65 <=? n) && (n <=? 90))%nat then ascii_of_nat (n + 32) else c.

Fixpoint lower (s : string) : string :=
  match s with
  | EmptyString => EmptyString
  | String c s' => String (lower_ascii c) (lower s')
  end.

(** [sub in s] *)
Fixpoint contains (sub s : string) : bool :=
  if String.prefix sub s then true
  else match s with
       | EmptyString => false
       | String _ s' => contains sub s'
       end.

Definition str_of_nat (n : nat) : string :=
  NilZero.string_of_uint (Nat.to_uint n).

Fixpoint zeros (n : nat) : string :=
  match n with
  | O => EmptyString
  | S k => String "0" (zeros k)
  end.

(** [f"{n:06d}"] for a non-negative [n] *)
Definition format_06d (n : nat) : string :=
  let s := str_of_nat n in
  (zeros (6 - String.length s) ++ s)%string.

(** [f"{n:03d}"] for a non-negative [n] *)
Definition format_03d (n : nat) : string :=
  let s := str_of_nat n in
  (zeros (3 - String.length s) ++ s)%string.

Definition str_of_Z (z : Z) : string :=
  NilZero.string_of_int (Z.to_int z).

(** [s.endswith("/")] *)
Fixpoint ends_with_slash (s : string) : bool :=
  match s with
  | EmptyString => false
  | String c r =>
      match r with
      | EmptyString => Ascii.eqb c "/"
      | String _ _ => ends_with_slash r
      end
  end.

(** [os.path.join(a, b)] on POSIX *)
Definition os_path_join (a b : string) : string :=
  if String.prefix "/" b then b
  else if String.eqb a "" || ends_with_slash a then (a ++ b)%string
  else (a ++ "/" ++ b)%string.

(** [s.split(sep)] for a separator of one character *)
Fixpoint split_on (sep : ascii) (s : string) : list string :=
  match s with
  | EmptyString => [EmptyString]
  | String c r =>
      if Ascii.eqb c sep then EmptyString :: split_on sep r
      else match split_on sep r with
           | h :: t => String c h :: t
           | [] => [String c EmptyString]
           end
  end.

(** ** Floating-point numbers *)

Definition Qltb (x y : Q) : bool := negb (Qle_bool y x).

(** The rational a finite, non-zero float denotes: [(-1)^s * m * 2^e]. *)
Definition finite_value (s : bool) (m : positive) (e : Z) : Q :=
  let n := if s then Z.neg m else Z.pos m in
  match e with
  | Z0 => n # 1
  | Z.pos k => (n * Z.pos (Pos.pow 2 k)) # 1
  | Z.neg k => n # (Pos.pow 2 k)
  end.

(** [rnd < x], where [rnd] is a float held as the rational it denotes and
    [x] is any float: a comparison with NaN is false. *)
Definition Qlt_float (rnd : Q) (x : float) : bool :=
  match Prim2SF x with
  | S754_zero _ => Qltb rnd 0
  | S754_infinity s => negb s
  | S754_nan => false
  | S754_finite s m e => Qltb rnd (finite_value s m e)
  end.

(** [sum(xs)] for a sequence of floats, as CPython up to 3.11 computes
    it: the additions are made from left to right, starting from the
    integer 0. *)
Definition sum_plain (xs : list float) : float :=
  fold_left PrimFloat.add xs 0%float.

(** [sum(xs)] from CPython 3.12 on: the same running sum [f], with the
    rounding errors of the additions collected in [c] (Neumaier's
    variant of compensated summation) and added at the end, unless that
    would turn an overflowed sum into NaN. *)
Fixpoint sum_neumaier (xs : list float) (f c : float) : float :=
  match xs with
  | [] =>
      if negb (PrimFloat.eqb c 0) && PrimFloat.is_finite c
      then (f + c)%float else f
  | x :: r =>
      let t := (f + x)%float in
      let c' := if PrimFloat.leb (PrimFloat.abs x) (PrimFloat.abs f)
                then (c + ((f - t) + x))%float
                else (c + ((x - t) + f))%float in
      sum_neumaier r t c'
  end.

Definition sum_compensated (xs : list float) : float :=
  match xs with
  | [] => 0%float
  | x :: r => sum_neumaier r (0 + x)%float 0%float
  end.

(** The builtin [sum] on floats; [compensated] tells which of the two
    the interpreter implements. *)
Definition py_sum (compensated : bool) (xs : list float) : float :=
  if compensated then sum_compensated xs else sum_plain xs.

(** ** Dates *)

Definition date := Z.

Definition date_min : date := 1.
Definition date_max : date := 3652059.   (* date(9999, 12, 31).toordinal() *)

Definition is_leap (y : Z) : bool :=
  (y mod 4 =? 0) && (negb (y mod 100 =? 0) || (y mod 400 =? 0)).

Definition days_before_year (y : Z) : Z :=
  let y1 := y - 1 in
  y1 * 365 + y1 / 4 - y1 / 100 + y1 / 400.

Definition days_in_month (y m : Z) : Z :=
  if m =? 2 then (if is_leap y then 29 else 28)
  else if (m =? 4) || (m =? 6) || (m =? 9) || (m =? 11) then 30
  else 31.

Definition days_before_month (y m : Z) : Z :=
  nth (Z.to_nat m) [0; 0; 31; 59; 90; 120; 151; 181; 212; 243; 273; 304; 334] 0
  + (if (2 <? m) && is_leap y then 1 else 0).

Definition ymd2ord (y m d : Z) : date :=
  days_before_year y + days_before_month y m + d.

(** [date(y, m, d)] *)
Definition mk_date (y m d : Z) : result date :=
  if (1 <=? y) && (y <=? 9999) && (1 <=? m) && (m <=? 12)
     && (1 <=? d) && (d <=? days_in_month y m)
  then Ok (ymd2ord y m d)
  else Raise ValueError.

(** [d + timedelta(days=n)] *)
Definition date_add (d : date) (n : Z) : result date :=
  let o := d + n in
  if (date_min <=? o) && (o <=? date_max) then Ok o else Raise OverflowError.

(** ** The monad of the engine *)

Section Engine.

Context {RS : RandomSource}.

Definition M (A : Type) : Type := rng -> result A * rng * list event.

Definition ret {A} (a : A) : M A := fun s => (Ok a, s, []).

Definition raise {A} (e : exn) : M A := fun s => (Raise e, s, []).

Definition bind {A B} (m : M A) (f : A -> M B) : M B :=
  fun s =>
    match m s with
    | (Ok a, s1, t1) =>
        match f a s1 with
        | (r, s2, t2) => (r, s2, t1 ++ t2)
        end
    | (Raise e, s1, t1) => (Raise e, s1, t1)
    end.

Definition lift {A} (r : result A) : M A := fun s => (r, s, []).

Definition emit (e : event) : M unit := fun s => (Ok tt, s, [e]).

Definition value_of {A} (x : result A * rng * list event) : result A := fst (fst x).
Definition state_of {A} (x : result A * rng * list event) : rng := snd (fst x).
Definition trace_of {A} (x : result A * rng * list event) : list event := snd x.

End Engine.

Declare Scope monad_scope.
Delimit Scope monad_scope with monad.
Notation "x <- m ;; k" := (bind m (fun x => k))
  (at level 61, m at next level, right associativity) : monad_scope.
Notation "m ;;; k" := (bind m (fun _ => k))
  (at level 61, right associativity) : monad_scope.
Open Scope monad_scope.

Section Random.

Context {RS : RandomSource}.

(** [random.seed(n)] *)
Definition random_seed (n : Z) : M unit := fun _ => (Ok tt, rng_seed n, []).

(** [numpy.random.seed(n)]: the legacy seeding function accepts only
    [0 <= n < 2**32] and raises [ValueError] otherwise.  Its generator is
    never drawn from by the engine, so only the check is kept. *)
Definition np_random_seed (n : Z) : M unit :=
  if (0 <=? n) && (n <? 2 ^ 32) then ret tt else raise ValueError.

(** [random.random()] *)
Definition random : M Q :=
  fun s => let (x, s') := rng_random s in (Ok x, s', [EvDraw]).

(** [random.randint(a, b)]; the empty range raises [ValueError] *)
Definition randint (a b : Z) : M Z :=
  if a <=? b
  then fun s => let (x, s') := rng_randint a b s in (Ok x, s', [EvDraw])
  else raise ValueError.

(** [random.choice(seq)]; the empty sequence raises [IndexError] *)
Definition choice {A} (l : list A) : M A :=
  match l with
  | [] => raise IndexError
  | a :: _ =>
      fun s => let (i, s') := rng_choice (List.length l) s in
               (Ok (nth i l a), s', [EvDraw])
  end.

End Random.

(** ** Data model *)

(** [synthmed.config.Config]: the fields the engine reads.  A
    [gender_ratio] dict is kept as the list of its items in insertion
    order (the order [dict.items()] iterates in); its keys are distinct. *)
Record Config : Type := {
  population_size : Z;
  min_age : Z;
  max_age : Z;
  seed : option Z;
  modules_dir : string;
  output_dir : string;
  output_format : string;
  gender_ratio : list (string * float);
  max_workers : Z;
  generate_only_living_patients : bool
}.

Definition default_gender_ratio : list (string * float) :=
  [("M", 0.49%float); ("F", 0.51%float)].

Definition with_gender_ratio (c : Config) (g : list (string * float))
  : Config :=
  {| population_size := population_size c; min_age := min_age c;
     max_age := max_age c; seed := seed c; modules_dir := modules_dir c;
     output_dir := output_dir c; output_format := output_format c;
     gender_ratio := g; max_workers := max_workers c;
     generate_only_living_patients := generate_only_living_patients c |}.

Definition with_paths (c : Config) (m o : string) : Config :=
  {| population_size := population_size c; min_age := min_age c;
     max_age := max_age c; seed := seed c; modules_dir := m;
     output_dir := o; output_format := output_format c;
     gender_ratio := gender_ratio c; max_workers := max_workers c;
     generate_only_living_patients := generate_only_living_patients c |}.

(** A state of a module, as [Generator._process_module] reads it:
    [state.get("type", "")] and
    [state.get("direct_transition_probability", 0.01)].  The field
    [distributed_transition] (weight, target) is part of the module format
    and is carried along. *)
Record StateDef : Type := {
  s_type : option string;
  s_direct_transition_probability : option Q;
  s_distributed_transition : list (Q * string)
}.

(** A module definition, as [Generator] reads it (a dict; a key that is
    absent is [None]).  [m_states] is the list [module["states"]]
    iterated by [_process_module]. *)
Record ModuleDef : Type := {
  m_name : option string;
  m_priority : option Z;
  m_remarks : option string;
  m_probability : option Q;
  m_required_states : option (list string);
  m_states : option (list StateDef)
}.

Definition module_name (m : ModuleDef) : string :=
  match m_name m with Some n => n | None => "" end.

Definition module_priority (m : ModuleDef) : Z :=
  match m_priority m with Some p => p | None => 0 end.

Definition state_type (s : StateDef) : string :=
  match s_type s with Some t => t | None => "" end.

Definition death_prob (s : StateDef) : Q :=
  match s_direct_transition_probability s with
  | Some q => q
  | None => (1 # 100)%Q
  end.

Inductive Gender : Type := MALE | FEMALE.

Inductive Race : Type := WHITE | BLACK | ASIAN | NATIVE | HISPANIC | OTHER.

Definition Gender_eqb (a b : Gender) : bool :=
  match a, b with
  | MALE, MALE | FEMALE, FEMALE => true
  | _, _ => false
  end.

(** [synthmed.models.patient.Patient] (with the two fields of
    [SynthmedBaseModel]).  Fields that generation never assigns keep their
    defaults and are left out; the five record lists are kept because the
    simulation is what would append to them. *)
Record Patient : Type := {
  id : string;
  created_at : Z;              (* datetime.now() at construction *)
  first_name : string;
  last_name : string;
  gender : Gender;
  race : Race;
  ethnicity : option string;
  birth_date : date;
  death_date : option date;
  income : option Z;
  address : option string;
  city : option string;
  state : option string;
  zip_code : option string;
  conditions : list string;
  encounters : list string;
  medications : list string;
  procedures : list string;
  observations : list string;
  is_alive : bool
}.

Definition set_location (p : Patient) (st ci zi ad : string) : Patient :=
  {| id := id p; created_at := created_at p; first_name := first_name p;
     last_name := last_name p; gender := gender p; race := race p;
     ethnicity := ethnicity p; birth_date := birth_date p;
     death_date := death_date p; income := income p;
     address := Some ad; city := Some ci; state := Some st; zip_code := Some zi;
     conditions := conditions p; encounters := encounters p;
     medications := medications p; procedures := procedures p;
     observations := observations p; is_alive := is_alive p |}.

(** [patient.is_alive = False; patient.death_date = d] *)
Definition set_dead (p : Patient) (d : date) : Patient :=
  {| id := id p; created_at := created_at p; first_name := first_name p;
     last_name := last_name p; gender := gender p; race := race p;
     ethnicity := ethnicity p; birth_date := birth_date p;
     death_date := Some d; income := income p;
     address := address p; city := city p; state := state p;
     zip_code := zip_code p;
     conditions := conditions p; encounters := encounters p;
     medications := medications p; procedures := procedures p;
     observations := observations p; is_alive := false |}.

(** [patient.death_date = d] *)
Definition set_death_date (p : Patient) (d : date) : Patient :=
  {| id := id p; created_at := created_at p; first_name := first_name p;
     last_name := last_name p; gender := gender p; race := race p;
     ethnicity := ethnicity p; birth_date := birth_date p;
     death_date := Some d; income := income p;
     address := address p; city := city p; state := state p;
     zip_code := zip_code p;
     conditions := conditions p; encounters := encounters p;
     medications := medications p; procedures := procedures p;
     observations := observations p; is_alive := is_alive p |}.

Definition set_created_at (t : Z) (p : Patient) : Patient :=
  {| id := id p; created_at := t; first_name := first_name p;
     last_name := last_name p; gender := gender p; race := race p;
     ethnicity := ethnicity p; birth_date := birth_date p;
     death_date := death_date p; income := income p;
     address := address p; city := city p; state := state p;
     zip_code := zip_code p;
     conditions := conditions p; encounters := encounters p;
     medications := medications p; procedures := procedures p;
     observations := observations p; is_alive := is_alive p |}.

(** The clinical record of a patient: the five append-only lists. *)
Definition record_entries (p : Patient) : list (list string) :=
  [conditions p; encounters p; medications p; procedures p; observations p].

(** What a run reads from its surroundings: the calendar day returned by
    [date.today()] (year, month, day), the instant returned by
    [datetime.now()], the interpreter's recursion limit, the working
    directory, which paths exist ([os.path.exists]), for which paths
    [os.makedirs(path, exist_ok=True)] succeeds, and whether the
    interpreter's [sum] is the compensated one (CPython 3.12 and later).
    One value of [Env] stands for the surroundings of one call: the
    calendar day is taken not to change while [generate_patient] works
    on one patient; it may change from one patient to the next. *)
Record Env : Type := {
  env_today : Z * Z * Z;
  env_now : Z;
  env_recursion_limit : nat;
  env_cwd : string;
  env_exists : string -> bool;
  env_makedirs : string -> bool;
  env_sum_compensated : bool
}.

Definition today_year (e : Env) : Z := fst (fst (env_today e)).
Definition today_month (e : Env) : Z := snd (fst (env_today e)).
Definition today_day (e : Env) : Z := snd (env_today e).
Definition today (e : Env) : date :=
  ymd2ord (today_year e) (today_month e) (today_day e).

Definition with_now (e : Env) (t : Z) : Env :=
  {| env_today := env_today e; env_now := t;
     env_recursion_limit := env_recursion_limit e;
     env_cwd := env_cwd e; env_exists := env_exists e;
     env_makedirs := env_makedirs e;
     env_sum_compensated := env_sum_compensated e |}.

Definition with_recursion_limit (e : Env) (n : nat) : Env :=
  {| env_today := env_today e; env_now := env_now e;
     env_recursion_limit := n;
     env_cwd := env_cwd e; env_exists := env_exists e;
     env_makedirs := env_makedirs e;
     env_sum_compensated := env_sum_compensated e |}.

Definition with_today (e : Env) (t : Z * Z * Z) : Env :=
  {| env_today := t; env_now := env_now e;
     env_recursion_limit := env_recursion_limit e;
     env_cwd := env_cwd e; env_exists := env_exists e;
     env_makedirs := env_makedirs e;
     env_sum_compensated := env_sum_compensated e |}.

(** The surroundings once [os.makedirs(p, exist_ok=True)] has succeeded:
    [p] and the directories above it exist. *)
Definition after_makedirs (e : Env) (p : string) : Env :=
  {| env_today := env_today e; env_now := env_now e;
     env_recursion_limit := env_recursion_limit e;
     env_cwd := env_cwd e;
     env_exists := fun q =>
       env_exists e q || String.eqb q p || String.eqb q "/"
       || String.prefix (q ++ "/") p;
     env_makedirs := env_makedirs e;
     env_sum_compensated := env_sum_compensated e |}.

(** ** [synthmed/utils/demographics.py]: the default tables

    [Generator.__init__] builds [Demographics()] without a data
    directory, so every table is the default one. *)

Definition DEFAULT_RACE_DISTRIBUTION : list (string * float) :=
  [("white", 0.60%float); ("black", 0.13%float); ("asian", 0.06%float);
   ("native", 0.02%float); ("hispanic", 0.18%float); ("other", 0.01%float)].

Definition DEFAULT_FIRST_NAMES_MALE : list string :=
  ["James"; "John"; "Robert"; "Michael"; "William"; "David"; "Richard";
   "Joseph"; "Thomas"; "Charles"; "Christopher"; "Daniel"; "Matthew";
   "Anthony"; "Mark"; "Donald"; "Steven"; "Paul"; "Andrew"; "Joshua"].

Definition DEFAULT_FIRST_NAMES_FEMALE : list string :=
  ["Mary"; "Patricia"; "Jennifer"; "Linda"; "Elizabeth"; "Barbara"; "Susan";
   "Jessica"; "Sarah"; "Karen"; "Nancy"; "Lisa"; "Margaret"; "Betty";
   "Sandra"; "Ashley"; "Dorothy"; "Kimberly"; "Emily"; "Donna"].

Definition DEFAULT_LAST_NAMES : list string :=
  ["Smith"; "Johnson"; "Williams"; "Brown"; "Jones"; "Miller"; "Davis";
   "Garcia"; "Rodriguez"; "Wilson"; "Martinez"; "Anderson"; "Taylor";
   "Thomas"; "Hernandez"; "Moore"; "Martin"; "Jackson"; "Thompson"; "White"].

Definition DEFAULT_LOCATIONS : list (string * string * string) :=
  [("Massachusetts", "Boston", "02108");
   ("New York", "New York", "10001");
   ("California", "Los Angeles", "90001");
   ("Texas", "Houston", "77001");
   ("Florida", "Miami", "33101")].

Definition get_ethnicity (r : Race) : string :=
  match r with
  | HISPANIC => "hispanic"
  | _ => "non-hispanic"
  end.

Definition race_of_name (n : string) : Race :=
  let l := lower n in
  if String.eqb l "white" then WHITE
  else if String.eqb l "black" then BLACK
  else if String.eqb l "asian" then ASIAN
  else if String.eqb l "native" then NATIVE
  else if String.eqb l "hispanic" then HISPANIC
  else OTHER.

(** ** [synthmed/utils/providers.py]: data *)

Record Provider : Type := {
  prov_id : string;
  prov_name : string;
  prov_resource_type : string;
  prov_specialty : option string;
  prov_address : option string;
  prov_city : option string;
  prov_state : option string;
  prov_zip_code : option string;
  prov_phone : option string
}.

Record Organization : Type := {
  org_id : string;
  org_name : string;
  org_address : option string;
  org_city : option string;
  org_state : option string;
  org_zip_code : option string;
  org_phone : option string
}.

Definition DEFAULT_SPECIALTIES : list string :=
  ["Family Practice"; "Internal Medicine"; "Cardiology"; "Dermatology";
   "Neurology"; "Orthopedic Surgery"; "Pediatrics"; "Psychiatry";
   "Oncology"; "Radiology"].

Definition DEFAULT_ORGANIZATION_TYPES : list string :=
  ["Hospital"; "Clinic"; "Nursing Home"; "Urgent Care Center";
   "Emergency Department"].

(** class [ProviderFactory] *)
Record ProviderFactory : Type := {
  pf_specialties : list string;
  pf_organizations : list Organization;
  pf_providers : list Provider
}.

(** ** Arithmetic on ratios *)

(** [sum(d.values())] *)
Definition ratio_total (compensated : bool) (items : list (string * float))
  : float :=
  py_sum compensated (map snd items).

(** The loop shared by [_randomly_select_gender] and
    [_randomly_select_race]: [cumulative += ratio] for each item in turn,
    and the first key whose running total exceeds the draw. *)
Fixpoint select_cumulative {K} (items : list (K * float)) (rnd : Q)
    (cumulative : float) : option K :=
  match items with
  | [] => None
  | (k, ratio) :: rest =>
      let cumulative' := (cumulative + ratio)%float in
      if Qlt_float rnd cumulative' then Some k
      else select_cumulative rest rnd cumulative'
  end.

(** ** [synthmed/engine/module.py] *)

(** A module definition file's content once parsed: the dict handed to
    [Module.__init__]. *)
Record RawModule : Type := {
  raw_name : option string;
  raw_remarks : option string;
  raw_states : option (list (string * StateDef));
  raw_initial : option string;
  raw_gmf_version : option Q
}.

(** class [Module] *)
Record Module : Type := {
  name : string;
  remarks : string;
  states : list (string * StateDef);
  initial_state : option string;
  gmf_version : Q
}.

(** [Module.__init__] *)
Definition Module_init (d : RawModule) : Module :=
  {| name := match raw_name d with Some n => n | None => "Unnamed Module" end;
     remarks := match raw_remarks d with Some r => r | None => "" end;
     states := match raw_states d with Some s => s | None => [] end;
     initial_state := raw_initial d;
     gmf_version := match raw_gmf_version d with Some v => v | None => 1%Q end |}.

(** [Module.state_names] *)
Definition state_names (m : Module) : list string := map fst (states m).

(** [Module.get_state] *)
Fixpoint lookup_state (l : list (string * StateDef)) (n : string)
  : option StateDef :=
  match l with
  | [] => None
  | (k, s) :: r => if String.eqb k n then Some s else lookup_state r n
  end.

Definition get_state (m : Module) (n : string) : option StateDef :=
  lookup_state (states m) n.

(** The content of a module directory: file names with their parsed
    definitions. *)
Definition Directory : Type := list (string * RawModule).

Section Program.

Context {RS : RandomSource}.

(** [ModuleLoader.load_modules].  [dir] is what the directory at
    [module_path] holds; the function never looks at it. *)
Definition load_modules (env : Env) (module_path : string) (dir : Directory)
  : M (list ModuleDef) :=
  if negb (env_exists env module_path) then
    emit (EvLog (LogWarningMissingPath module_path)) ;;;
    ret []
  else
    ret [].

(** ** [synthmed/config.py] *)

(** A POSIX path as [pathlib] parses it: the root is ["//"] for exactly
    two leading slashes, ["/"] for one or for three and more, and empty
    for a relative path; the parts are the components between slashes,
    without the empty ones and without ["."] ([".."] is kept). *)
Definition path_root (p : string) : string :=
  if String.prefix "/" p then
    if String.prefix "//" p && negb (String.prefix "///" p) then "//" else "/"
  else "".

Definition path_parts (p : string) : list string :=
  filter (fun x => negb (String.eqb x "" || String.eqb x "."))
    (split_on "/" p).

(** [str(path)] *)
Definition path_str (root : string) (parts : list string) : string :=
  let s := (root ++ String.concat "/" parts)%string in
  if String.eqb s "" then "." else s.

(** [str(Path(p).absolute())]: an absolute path is kept, a relative one
    is joined to the working directory; either way the path comes back
    in the normal form of [pathlib]. *)
Definition absolute (env : Env) (p : string) : string :=
  if String.eqb (path_root p) "" then
    path_str (path_root (env_cwd env))
      (path_parts (env_cwd env) ++ path_parts p)
  else path_str (path_root p) (path_parts p).

(** [os.makedirs(p, exist_ok=True)]: it fails with an [OSError] (of some
    subclass) where the directory cannot be made. *)
Definition makedirs (env : Env) (p : string) : M unit :=
  if env_makedirs env p then ret tt else raise OSError.

(** [abs(total - 1.0) > 0.001] *)
Definition needs_normalizing (total : float) : bool :=
  (0.001 <? PrimFloat.abs (total - 1))%float.

(** The normalisation loop of [__post_init__]:
    [for key in self.gender_ratio: self.gender_ratio[key] /= total].
    Dividing a float by zero raises [ZeroDivisionError]. *)
Fixpoint normalize_ratio (items : list (string * float)) (total : float)
  : result (list (string * float)) :=
  match items with
  | [] => Ok []
  | (k, v) :: rest =>
      if (total =? 0)%float then Raise ZeroDivisionError
      else match normalize_ratio rest total with
           | Ok rest' => Ok ((k, (v / total)%float) :: rest')
           | Raise e => Raise e
           end
  end.

Definition supported_format (f : string) : bool :=
  existsb (String.eqb (lower f)) ["fhir"; "json"; "csv"].

(** [Config.__post_init__] *)
Definition Config_post_init (env : Env) (c : Config) : M Config :=
  let c := with_paths c
             (if String.eqb (modules_dir c) "" then ""
              else absolute env (modules_dir c))
             (absolute env (output_dir c)) in
  makedirs env (output_dir c) ;;;
  (match seed c with
   | Some s => random_seed s
   | None => ret tt
   end) ;;;
  if negb (supported_format (output_format c))
  then raise ValueError
  else
    let total := ratio_total (env_sum_compensated env) (gender_ratio c) in
    if needs_normalizing total
    then g <- lift (normalize_ratio (gender_ratio c) total) ;;
         ret (with_gender_ratio c g)
    else ret c.

(** The two default locations of [Config.get_modules_path], in the
    order in which they are tried. *)
Definition paths_to_check (env : Env) : list string :=
  [fold_left os_path_join ["synthea"; "src"; "main"; "resources"; "modules"]
     (env_cwd env);
   os_path_join (env_cwd env) "modules"].

(** [Config.get_modules_path] *)
Definition get_modules_path (env : Env) (c : Config) : M string :=
  if negb (String.eqb (modules_dir c) "") then ret (modules_dir c)
  else
    match find (env_exists env) (paths_to_check env) with
    | Some path => ret path
    | None => raise FileNotFoundError
    end.

(** ** [synthmed/utils/providers.py] *)

(** The first loop of [ProviderFactory._generate_default_providers]:
    [n] organizations numbered from [i].  The list [providers] of an
    organization, to which the second loop appends, is left out: nothing
    reads it. *)
Fixpoint generate_organizations (n i : nat) : M (list Organization) :=
  match n with
  | O => ret []
  | S k =>
      org_type <- choice DEFAULT_ORGANIZATION_TYPES ;;
      house <- randint 100 9999 ;;
      area <- randint 100 999 ;;
      line <- randint 1000 9999 ;;
      let org :=
        {| org_id := ("org" ++ format_03d i)%string;
           org_name := (org_type ++ " " ++ str_of_nat (i + 1))%string;
           org_address := Some (str_of_Z house ++ " Main St")%string;
           org_city := Some "Boston"; org_state := Some "MA";
           org_zip_code := Some "02108";
           org_phone := Some ("555-" ++ str_of_Z area ++ "-"
                              ++ str_of_Z line)%string |} in
      rest <- generate_organizations k (S i) ;;
      ret (org :: rest)
  end.

(** The second loop: [n] providers numbered from [i], each attached to
    an organization drawn from [organizations] when there is one. *)
Fixpoint generate_providers (specialties : list string)
    (organizations : list Organization) (n i : nat) : M (list Provider) :=
  match n with
  | O => ret []
  | S k =>
      specialty <- choice specialties ;;
      org <- match organizations with
             | [] => ret None
             | _ :: _ => o <- choice organizations ;; ret (Some o)
             end ;;
      addr <- match org with
              | Some o => ret (org_address o)
              | None => house <- randint 100 9999 ;;
                        ret (Some (str_of_Z house ++ " Main St")%string)
              end ;;
      phone <- match org with
               | Some o => ret (org_phone o)
               | None => area <- randint 100 999 ;;
                         line <- randint 1000 9999 ;;
                         ret (Some ("555-" ++ str_of_Z area ++ "-"
                                    ++ str_of_Z line)%string)
               end ;;
      let provider :=
        {| prov_id := ("prov" ++ format_03d i)%string;
           prov_name := ("Dr. Provider " ++ str_of_nat (i + 1))%string;
           prov_resource_type := "Practitioner";
           prov_specialty := Some specialty;
           prov_address := addr;
           prov_city := match org with Some o => org_city o
                                     | None => Some "Boston" end;
           prov_state := match org with Some o => org_state o
                                      | None => Some "MA" end;
           prov_zip_code := match org with Some o => org_zip_code o
                                         | None => Some "02108" end;
           prov_phone := phone |} in
      rest <- generate_providers specialties organizations k (S i) ;;
      ret (provider :: rest)
  end.

(** [ProviderFactory._generate_default_providers]: five organizations,
    then twenty providers. *)
Definition generate_default_providers (specialties : list string)
  : M (list Organization * list Provider) :=
  organizations <- generate_organizations 5 0 ;;
  providers <- generate_providers specialties organizations 20 0 ;;
  ret (organizations, providers).

(** [ProviderFactory.__init__] without a data directory: the default
    specialties, no organization and no provider are loaded, so the
    default ones are generated. *)
Definition ProviderFactory_init : M ProviderFactory :=
  let specialties := DEFAULT_SPECIALTIES in
  generated <- generate_default_providers specialties ;;
  ret {| pf_specialties := specialties;
         pf_organizations := fst generated;
         pf_providers := snd generated |}.

(** ** [synthmed/engine/generator.py] *)

(** [Generator.__init__].  [Demographics()] without a data directory
    takes the default tables and touches nothing; [ProviderFactory()]
    generates its default providers with the module-level generator of
    [random].  The configuration and the module list of the generator
    are passed to each method below. *)
Definition Generator_init : M ProviderFactory := ProviderFactory_init.

(** [Generator._randomly_select_gender] *)
Definition randomly_select_gender (c : Config) : M string :=
  rnd <- random ;;
  match select_cumulative (gender_ratio c) rnd 0 with
  | Some g => ret g
  | None => ret "F"
  end.

(** [Generator._randomly_select_race] *)
Definition randomly_select_race : M Race :=
  rnd <- random ;;
  match select_cumulative DEFAULT_RACE_DISTRIBUTION rnd 0 with
  | Some n => ret (race_of_name n)
  | None => ret OTHER
  end.

(** [Demographics.get_first_name] *)
Definition get_first_name (g : string) : M string :=
  if String.eqb g "M" then choice DEFAULT_FIRST_NAMES_MALE
  else choice DEFAULT_FIRST_NAMES_FEMALE.

(** [Demographics.get_last_name] *)
Definition get_last_name (r : Race) : M string := choice DEFAULT_LAST_NAMES.

(** [Demographics.get_location] *)
Definition get_location : M (string * string * string) :=
  choice DEFAULT_LOCATIONS.

(** [Generator._generate_demographics] *)
Definition generate_demographics (env : Env) (c : Config) (patient_id : nat)
  : M Patient :=
  g <- randomly_select_gender c ;;
  r <- randomly_select_race ;;
  let eth := get_ethnicity r in
  let min_birth_year := today_year env - max_age c in
  let max_birth_year := today_year env - min_age c in
  birth_year <- randint min_birth_year max_birth_year ;;
  md <- (if birth_year =? today_year env then
           birth_month <- randint 1 (today_month env) ;;
           let max_day :=
             if birth_month =? today_month env then today_day env else 28 in
           birth_day <- randint 1 max_day ;;
           ret (birth_month, birth_day)
         else
           birth_month <- randint 1 12 ;;
           birth_day <- randint 1 28 ;;
           ret (birth_month, birth_day)) ;;
  bd <- lift (mk_date birth_year (fst md) (snd md)) ;;
  fn <- get_first_name g ;;
  ln <- get_last_name r ;;
  income_level <- randint 0 100000 ;;
  let patient :=
    {| id := ("p" ++ format_06d patient_id)%string;
       created_at := env_now env;
       first_name := fn; last_name := ln;
       gender := if String.eqb g "M" then MALE else FEMALE;
       race := r; ethnicity := Some eth;
       birth_date := bd; death_date := None;
       income := Some income_level;
       address := None; city := None; state := None; zip_code := None;
       conditions := []; encounters := []; medications := [];
       procedures := []; observations := [];
       is_alive := true |} in
  loc <- get_location ;;
  n <- randint 100 9999 ;;
  ret (set_location patient (fst (fst loc)) (snd (fst loc)) (snd loc)
         (str_of_Z n ++ " Main St")%string).

(** [Generator._should_run_module].  [active_conditions] is the dict of
    the caller; only its keys are read. *)
Definition should_run_module (m : ModuleDef) (p : Patient)
    (active_conditions : list string) : M bool :=
  let blocked_by_remarks :=
    match m_remarks m with
    | Some r =>
        (contains "female only" (lower r) && negb (Gender_eqb (gender p) FEMALE))
        || (contains "male only" (lower r) && negb (Gender_eqb (gender p) MALE))
    | None => false
    end in
  if blocked_by_remarks then ret false
  else
    blocked_by_probability <-
      match m_probability m with
      | Some pr => rnd <- random ;; ret (Qltb pr rnd)
      | None => ret false
      end ;;
    if blocked_by_probability then ret false
    else
      match m_required_states m with
      | Some required =>
          ret (forallb (fun s => existsb (String.eqb s) active_conditions)
                 required)
      | None => ret true
      end.

(** The loop over [module["states"]] in [_process_module]: only a state
    of type [Death] does anything; a successful draw leaves the loop. *)
Fixpoint process_states (mname : string) (sts : list StateDef) (p : Patient)
    (current_date : date) : M Patient :=
  match sts with
  | [] => ret p
  | st :: rest =>
      if String.eqb (state_type st) "Death" then
        rnd <- random ;;
        if Qltb rnd (death_prob st) then
          emit (EvDeath current_date mname) ;;;
          ret (set_dead p current_date)
        else process_states mname rest p current_date
      else process_states mname rest p current_date
  end.

(** [Generator._process_module] *)
Definition process_module (m : ModuleDef) (p : Patient) (current_date : date)
  : M Patient :=
  match m_states m with
  | Some sts => process_states (module_name m) sts p current_date
  | None => ret p
  end.

(** [sorted(self.modules, key=lambda m: m.get("priority", 0))]: Python's
    sort is stable. *)
Fixpoint insert_by_priority (m : ModuleDef) (l : list ModuleDef)
  : list ModuleDef :=
  match l with
  | [] => [m]
  | x :: r =>
      if module_priority m <=? module_priority x then m :: l
      else x :: insert_by_priority m r
  end.

Fixpoint sorted_by_priority (l : list ModuleDef) : list ModuleDef :=
  match l with
  | [] => []
  | m :: r => insert_by_priority m (sorted_by_priority r)
  end.

(** The [for module in modules] loop of one time step. *)
Fixpoint eval_modules (mods : list ModuleDef) (p : Patient)
    (active_conditions : list string) (current_date : date) : M Patient :=
  match mods with
  | [] => ret p
  | m :: rest =>
      run <- should_run_module m p active_conditions ;;
      emit (EvEval current_date (module_name m) run) ;;;
      p' <- (if run then process_module m p current_date else ret p) ;;
      eval_modules rest p' active_conditions current_date
  end.

Definition time_step_days : Z := 7.

(** The [while current_date <= end_date and patient.is_alive] loop.  The
    first argument bounds the number of iterations so that the recursion
    is structural; [run_modules] passes a bound the loop never reaches
    (lemma [while_loop_exit]). *)
Fixpoint while_loop (fuel : nat) (mods : list ModuleDef) (end_date : date)
    (current_date : date) (p : Patient) : M (date * Patient) :=
  match fuel with
  | O => ret (current_date, p)
  | S k =>
      if (current_date <=? end_date) && is_alive p then
        let age_days := current_date - birth_date p in
        if age_days <? 0 then
          d <- lift (date_add current_date time_step_days) ;;
          while_loop k mods end_date d p
        else
          p' <- eval_modules mods p [] current_date ;;
          d <- lift (date_add current_date time_step_days) ;;
          while_loop k mods end_date d p'
      else ret (current_date, p)
  end.

Definition loop_bound (birth end_date : date) : nat :=
  Z.to_nat (end_date - birth + 1).

(** [Generator._run_modules] *)
Definition run_modules (env : Env) (mods : list ModuleDef) (p : Patient)
  : M Patient :=
  let modules := sorted_by_priority mods in
  let end_date := today env in
  cp <- while_loop (loop_bound (birth_date p) end_date) modules end_date
          (birth_date p) p ;;
  let current_date := fst cp in
  let p := snd cp in
  if negb (is_alive p) then
    match death_date p with
    | None =>
        k <- randint 0 time_step_days ;;
        d <- lift (date_add current_date (- k)) ;;
        ret (set_death_date p d)
    | Some _ => ret p
    end
  else ret p.

(** One pass of [Generator.generate_patient], up to the test that
    decides whether to start over. *)
Definition generate_attempt (env : Env) (c : Config) (mods : list ModuleDef)
    (patient_id : nat) : M Patient :=
  (match seed c with
   | Some s =>
       random_seed (s + Z.of_nat patient_id) ;;;
       np_random_seed (s + Z.of_nat patient_id)
   | None => ret tt
   end) ;;;
  patient <- generate_demographics env c patient_id ;;
  run_modules env mods patient.

(** [Generator.generate_patient].  [depth] is the number of nested calls
    the interpreter still allows; when it is used up Python raises
    [RecursionError]. *)
Fixpoint generate_patient_rec (depth : nat) (env : Env) (c : Config)
    (mods : list ModuleDef) (patient_id : nat) : M Patient :=
  match depth with
  | O => raise RecursionError
  | S d =>
      patient <- generate_attempt env c mods patient_id ;;
      if generate_only_living_patients c && negb (is_alive patient)
      then generate_patient_rec d env c mods patient_id
      else ret patient
  end.

Definition generate_patient (env : Env) (c : Config) (mods : list ModuleDef)
    (patient_id : nat) : M Patient :=
  generate_patient_rec (env_recursion_limit env) env c mods patient_id.

(** ** [synthmed/engine/engine.py] *)

(** What the process pool decides and the program does not: the order in
    which the futures complete (a permutation of the submitted ordinals),
    the state of the [random] generator of the worker process when it
    starts the task of an ordinal, and the surroundings of that task.
    A worker is another process: nothing it does to its generator
    reaches the caller's. *)
Record Schedule : Type := {
  completion_order : list nat;
  worker_rng : nat -> rng;
  worker_env : nat -> Env
}.

(** [future.result()] on a task run in a worker process: the outcome is
    handed over as a value, the exception (if any) is re-raised by the
    caller of [result()]. *)
Definition in_worker {A} (task : M A) (ws : rng) : M (result A) :=
  fun s => match task ws with (r, _, t) => (Ok r, s, t) end.

(** [[generator.generate_patient(i) for i in range(n)]] *)
Fixpoint generate_sequential (envs : nat -> Env) (c : Config)
    (mods : list ModuleDef) (ordinals : list nat) : M (list Patient) :=
  match ordinals with
  | [] => ret []
  | i :: rest =>
      p <- generate_patient (envs i) c mods i ;;
      ps <- generate_sequential envs c mods rest ;;
      ret (p :: ps)
  end.

(** The [for i, future in enumerate(as_completed(futures))] loop. *)
Fixpoint collect_completed (sched : Schedule) (c : Config)
    (mods : list ModuleDef) (order : list nat) (i : nat)
    (patients : list Patient) : M (list Patient) :=
  match order with
  | [] => ret patients
  | k :: rest =>
      r <- in_worker (generate_patient (worker_env sched k) c mods k)
             (worker_rng sched k) ;;
      match r with
      | Ok patient =>
          let done := Z.of_nat i + 1 in
          (if done mod Z.max 1 (population_size c / 10) =? 0
           then emit (EvLog (LogInfoProgress done (population_size c)))
           else ret tt) ;;;
          collect_completed sched c mods rest (S i) (patients ++ [patient])
      | Raise e =>
          emit (EvLog (LogErrorPatient e)) ;;;
          collect_completed sched c mods rest (S i) patients
      end
  end.

(** [Engine._generate_population].  [envs i] is the surroundings of the
    in-process call for ordinal [i]. *)
Definition generate_population (envs : nat -> Env) (sched : Schedule)
    (c : Config) (mods : list ModuleDef) : M (list Patient) :=
  Generator_init ;;;
  if (population_size c <=? 10) || (max_workers c =? 1) then
    generate_sequential envs c mods (seq 0 (Z.to_nat (population_size c)))
  else if max_workers c <=? 0 then
    raise ValueError        (* ProcessPoolExecutor(max_workers <= 0) *)
  else
    collect_completed sched c mods (completion_order sched) 0 [].

(** [Engine.__init__] followed by [Engine.run], up to the list of
    patients handed to the exporter. *)
Definition Engine_run (env : Env) (envs : nat -> Env) (sched : Schedule)
    (dir : Directory) (c : Config) : M (list Patient) :=
  path <- get_modules_path env c ;;
  modules <- load_modules env path dir ;;
  generate_population envs sched c modules.

(** The [simulate] command of [synthmed/cli.py]: build the [Config],
    then create and run the engine.  The engine finds the output
    directory that the construction of the [Config] has made. *)
Definition simulate (env : Env) (envs : nat -> Env) (sched : Schedule)
    (dir : Directory) (c : Config) : M (list Patient) :=
  config <- Config_post_init env c ;;
  Engine_run (after_makedirs env (output_dir config)) envs sched dir config.

End Program.

(** ** A concrete random source

    A linear congruential generator, used to run the model on concrete
    inputs.  Every general theorem below holds for any [RandomSource]. *)

Definition lcg_modulus : Z := 2147483648.

Definition lcg_next (s : Z) : Z := (1103515245 * s + 12345) mod lcg_modulus.

Definition lcg_random (s : Z) : Q * Z :=
  let s' := lcg_next s in (s' # 2147483648, s').

Definition lcg_randint (a b s : Z) : Z * Z :=
  let s' := lcg_next s in (a + s' mod (b - a + 1), s').

Definition lcg_choice (n : nat) (s : Z) : nat * Z :=
  let s' := lcg_next s in (Z.to_nat (s' mod Z.of_nat n), s').

Lemma lcg_next_range (s : Z) : 0 <= lcg_next s < lcg_modulus.
Proof. unfold lcg_next, lcg_modulus. apply Z.mod_pos_bound. lia. Qed.

Lemma lcg_random_range (s : Z) :
  (0 <= fst (lcg_random s))%Q /\ (fst (lcg_random s) < 1)%Q.
Proof.
  pose proof (lcg_next_range s) as H. unfold lcg_modulus in H.
  unfold lcg_random, Qle, Qlt. simpl. lia.
Qed.

Lemma lcg_randint_range (a b s : Z) :
  a <= b -> a <= fst (lcg_randint a b s) <= b.
Proof.
  intros H. unfold lcg_randint. simpl.
  pose proof (Z.mod_pos_bound (lcg_next s) (b - a + 1)). lia.
Qed.

Lemma lcg_choice_range (n : nat) (s : Z) :
  (0 < n)%nat -> (fst (lcg_choice n s) < n)%nat.
Proof.
  intros H. unfold lcg_choice. simpl.
  pose proof (Z.mod_pos_bound (lcg_next s) (Z.of_nat n)). lia.
Qed.

#[export] Instance lcg : RandomSource := {|
  rng := Z;
  rng_seed := fun n => n mod lcg_modulus;
  rng_random := lcg_random;
  rng_randint := lcg_randint;
  rng_choice := lcg_choice;
  rng_random_range := lcg_random_range;
  rng_randint_range := lcg_randint_range;
  rng_choice_range := lcg_choice_range
|}.

(** ** Concrete inputs *)

Definition default_config : Config :=
  {| population_size := 100; min_age := 0; max_age := 100; seed := None;
     modules_dir := "/data/modules"; output_dir := "/data/output";
     output_format := "fhir"; gender_ratio := default_gender_ratio;
     max_workers := 4; generate_only_living_patients := false |}.

Definition example_env : Env :=
  {| env_today := (2026, 11, 4); env_now := 0;
     env_recursion_limit := 1000; env_cwd := "/data";
     env_exists := fun p => String.eqb p "/data/modules";
     env_makedirs := fun p => String.prefix "/data/" p;
     env_sum_compensated := false |}.

Definition example_patient : Patient :=
  {| id := "p000000"; created_at := 0;
     first_name := "Mary"; last_name := "Smith";
     gender := FEMALE; race := WHITE; ethnicity := Some "non-hispanic";
     birth_date := ymd2ord 2026 11 4; death_date := None;
     income := Some 50000;
     address := Some "100 Main St"; city := Some "Boston";
     state := Some "Massachusetts"; zip_code := Some "02108";
     conditions := []; encounters := []; medications := [];
     procedures := []; observations := [];
     is_alive := true |}.

(** A patient born five weeks before the day of [example_env]. *)
Definition born_last_month : Patient :=
  {| id := "p000003"; created_at := 0;
     first_name := "Paul"; last_name := "Moore";
     gender := MALE; race := WHITE; ethnicity := Some "non-hispanic";
     birth_date := ymd2ord 2026 10 1; death_date := None;
     income := Some 0;
     address := Some "400 Main St"; city := Some "Boston";
     state := Some "Massachusetts"; zip_code := Some "02108";
     conditions := []; encounters := []; medications := [];
     procedures := []; observations := [];
     is_alive := true |}.

Definition plain_module (n : string) (prio : option Z) : ModuleDef :=
  {| m_name := Some n; m_priority := prio; m_remarks := None;
     m_probability := None; m_required_states := None; m_states := None |}.

Definition module_with_states (n : string) (sts : list StateDef) : ModuleDef :=
  {| m_name := Some n; m_priority := None; m_remarks := None;
     m_probability := None; m_required_states := None; m_states := Some sts |}.

Definition death_state (pr : Q) : StateDef :=
  {| s_type := Some "Death"; s_direct_transition_probability := Some pr;
     s_distributed_transition := [] |}.

(** A state with three weighted transitions, weights [2, 1, 1]. *)
Definition weighted_state : StateDef :=
  {| s_type := Some "Simple"; s_direct_transition_probability := None;
     s_distributed_transition := [(2%Q, "A"); (1%Q, "B"); (1%Q, "C")] |}.

(** * Properties *)

(** ** Library functions on concrete inputs

    What [pathlib], [os.path.join] and [sum] give on a few inputs, for
    comparison with an interpreter. *)

Lemma absolute_examples :
  map (absolute example_env)
    ["out"; "a/./b/"; "//x/y"; "///x//y/."; ""; "."; "a/../b";
     "/data/output/"]
  = ["/data/out"; "/data/a/b"; "//x/y"; "/x/y"; "/data"; "/data";
     "/data/a/../b"; "/data/output"].
Proof. vm_compute. reflexivity. Qed.

Lemma os_path_join_examples :
  os_path_join "/" "synthea" = "/synthea"
  /\ os_path_join "/data" "modules" = "/data/modules"
  /\ os_path_join "/data/" "modules" = "/data/modules"
  /\ os_path_join "/data" "/modules" = "/modules"
  /\ os_path_join "" "modules" = "modules".
Proof. vm_compute. repeat split. Qed.

Lemma py_sum_examples :
  py_sum false [0.49; 0.51]%float = 1%float
  /\ py_sum true [0.49; 0.51]%float = 1%float
  /\ py_sum false [1e16; 1; -1e16; -1]%float = (-1)%float
  /\ py_sum true [1e16; 1; -1e16; -1]%float = 0%float
  /\ py_sum false [0.1; 1e100; -1e100; 0.2]%float = 0.2%float
  /\ py_sum true [0.1; 1e100; -1e100; 0.2]%float
     = 0.30000000000000004%float
  /\ py_sum false [1e308; 1e308; -1e308]%float = infinity
  /\ py_sum true [1e308; 1e308; -1e308]%float = infinity
  /\ py_sum false [] = 0%float
  /\ py_sum true [] = 0%float.
Proof. vm_compute. repeat split. Qed.

Lemma Qlt_float_examples :
  Qlt_float (1 # 2) infinity = true
  /\ Qlt_float (1 # 2) neg_infinity = false
  /\ Qlt_float (1 # 2) nan = false
  /\ Qlt_float 0 0%float = false
  /\ Qlt_float 0 (-0)%float = false
  /\ Qlt_float 0 0x1p-1074%float = true
  /\ Qlt_float (1 # 2) 0.5%float = false
  /\ Qlt_float (1 # 2) 0.5000000000000001%float = true
  /\ Qlt_float (999 # 1000) 1e300%float = true
  /\ Qlt_float (1 # 2) (-3)%float = false.
Proof. vm_compute. repeat split. Qed.

(** A draw is compared with the running total as the float it is: the
    float [0.49] is a little below 49/100. *)
Lemma select_cumulative_examples :
  map (fun rnd => select_cumulative default_gender_ratio rnd 0)
    [0; 48 # 100; 49 # 100; 999 # 1000]%Q
  = [Some "M"; Some "M"; Some "F"; Some "F"]
  /\ map (fun rnd => select_cumulative DEFAULT_RACE_DISTRIBUTION rnd 0)
       [59 # 100; 6 # 10; 73 # 100; 79 # 100; 81 # 100; 985 # 1000;
        995 # 1000]%Q
     = [Some "white"; Some "black"; Some "asian"; Some "asian";
        Some "native"; Some "hispanic"; Some "other"].
Proof. vm_compute. repeat split. Qed.

(** ** Reasoning in the monad *)

Section MonadFacts.

Context {RS : RandomSource}.

Lemma bind_ok {A B} (m : M A) (f : A -> M B) s a s1 t1 :
  m s = (Ok a, s1, t1) ->
  bind m f s = (value_of (f a s1), state_of (f a s1), t1 ++ trace_of (f a s1)).
Proof.
  intros H. unfold bind. rewrite H.
  destruct (f a s1) as [[r s2] t2]. reflexivity.
Qed.

Lemma bind_raise {A B} (m : M A) (f : A -> M B) s e s1 t1 :
  m s = (Raise e, s1, t1) -> bind m f s = (Raise e, s1, t1).
Proof. intros H. unfold bind. rewrite H. reflexivity. Qed.

Lemma bind_ret {A B} (a : A) (f : A -> M B) s : bind (ret a) f s = f a s.
Proof.
  unfold bind, ret. destruct (f a s) as [[r s2] t2]. reflexivity.
Qed.

Lemma bind_emit {B} (e : event) (f : unit -> M B) s :
  bind (emit e) f s =
  (value_of (f tt s), state_of (f tt s), e :: trace_of (f tt s)).
Proof.
  unfold bind, emit. destruct (f tt s) as [[r s2] t2]. reflexivity.
Qed.

Lemma bind_lift_ok {A B} (a : A) (f : A -> M B) s :
  bind (lift (Ok a)) f s = f a s.
Proof.
  unfold bind, lift. destruct (f a s) as [[r s2] t2]. reflexivity.
Qed.

Lemma bind_lift_raise {A B} (e : exn) (f : A -> M B) s :
  bind (lift (Raise e)) f s = (Raise e, s, []).
Proof. reflexivity. Qed.

Lemma bind_assoc {A B C} (m : M A) (f : A -> M B) (g : B -> M C) s :
  bind (bind m f) g s = bind m (fun a => bind (f a) g) s.
Proof.
  unfold bind. destruct (m s) as [[[a|e] s1] t1]; [|reflexivity].
  destruct (f a s1) as [[[b|e] s2] t2]; [|reflexivity].
  destruct (g b s2) as [[r s3] t3]. rewrite app_assoc. reflexivity.
Qed.

Lemma surj_triple {A} (x : result A * rng * list event) :
  x = (value_of x, state_of x, trace_of x).
Proof. destruct x as [[r s] t]. reflexivity. Qed.

(** A draw of [random()] is one event and a number in [[0, 1)]. *)
Lemma random_spec s :
  exists x s', random s = (Ok x, s', [EvDraw]) /\ (0 <= x)%Q /\ (x < 1)%Q.
Proof.
  unfold random. pose proof (rng_random_range s) as H.
  destruct (rng_random s) as [x s']. simpl in H.
  exists x, s'. tauto.
Qed.

Lemma randint_spec a b s :
  a <= b ->
  exists x s', randint a b s = (Ok x, s', [EvDraw]) /\ a <= x <= b.
Proof.
  intros H. unfold randint.
  destruct (Z.leb_spec a b); [|lia].
  pose proof (rng_randint_range a b s H) as R.
  destruct (rng_randint a b s) as [x s']. simpl in R.
  exists x, s'. tauto.
Qed.

Lemma randint_empty a b s :
  b < a -> randint a b s = (Raise ValueError, s, []).
Proof.
  intros H. unfold randint. destruct (Z.leb_spec a b); [lia|reflexivity].
Qed.

Lemma choice_spec {A} (l : list A) s :
  l <> [] ->
  exists x s', choice l s = (Ok x, s', [EvDraw]) /\ In x l.
Proof.
  intros H. destruct l as [|a l]; [congruence|].
  unfold choice.
  pose proof (rng_choice_range (List.length (a :: l)) s) as R.
  destruct (rng_choice (List.length (a :: l)) s) as [i s'].
  exists (nth i (a :: l) a), s'. split; [reflexivity|].
  apply nth_In. apply R. simpl. lia.
Qed.

End MonadFacts.

(** ** Ratios *)

Lemma Qltb_false x y : Qltb x y = false -> (y <= x)%Q.
Proof.
  unfold Qltb. intros H. apply negb_false_iff in H.
  apply Qle_bool_iff. exact H.
Qed.

Lemma Qltb_lt x y : (x < y)%Q -> Qltb x y = true.
Proof.
  intros H. destruct (Qltb x y) eqn:E; [reflexivity|].
  apply Qltb_false in E. exfalso. exact (Qlt_not_le _ _ H E).
Qed.

Lemma Qltb_true_lt x y : Qltb x y = true -> (x < y)%Q.
Proof.
  unfold Qltb. intros H. apply negb_true_iff in H.
  destruct (Qlt_le_dec x y) as [L|L]; [exact L|].
  apply Qle_bool_iff in L. congruence.
Qed.



Lemma normalize_ratio_zero items total :
  (total =? 0)%float = true -> items <> [] ->
  normalize_ratio items total = Raise ZeroDivisionError.
Proof.
  intros Z N. destruct items as [|[k v] r]; [contradiction|].
  simpl. rewrite Z. reflexivity.
Qed.



(** A float that equals zero is one of the two zeros. *)
Lemma float_eqb_zero (t : float) :
  (t =? 0)%float = true -> t = 0%float \/ t = (-0)%float.
Proof.
  intros H. rewrite eqb_spec in H.
  unfold SFeqb, SFcompare in H.
  destruct (Prim2SF t) as [sg|sg| |sg m e] eqn:E; cbn in H; try discriminate.
  - destruct sg.
    + right. rewrite <- (SF2Prim_Prim2SF t), E. reflexivity.
    + left. rewrite <- (SF2Prim_Prim2SF t), E. reflexivity.
  - destruct sg; discriminate.
  - destruct sg; discriminate.
Qed.

Lemma zero_needs_normalizing (t : float) :
  (t =? 0)%float = true -> needs_normalizing t = true.
Proof.
  intros H. destruct (float_eqb_zero t H) as [-> | ->]; reflexivity.
Qed.

Section ConfigFacts.

Context {RS : RandomSource}.

(** The configuration with its two paths made absolute. *)
Definition absolute_paths (env : Env) (c : Config) : Config :=
  with_paths c
    (if String.eqb (modules_dir c) "" then ""
     else absolute env (modules_dir c))
    (absolute env (output_dir c)).

(** [__post_init__] as a function of its input: the steps in the order
    in which they can fail. *)
Lemma Config_post_init_value env c s :
  value_of (Config_post_init env c s)
  = if negb (env_makedirs env (absolute env (output_dir c)))
    then Raise OSError
    else if negb (supported_format (output_format c)) then Raise ValueError
    else
      let total := ratio_total (env_sum_compensated env) (gender_ratio c) in
      if needs_normalizing total
      then result_map (with_gender_ratio (absolute_paths env c))
             (normalize_ratio (gender_ratio c) total)
      else Ok (absolute_paths env c).
Proof.
  unfold Config_post_init. fold (absolute_paths env c).
  change (seed (absolute_paths env c)) with (seed c).
  change (output_format (absolute_paths env c)) with (output_format c).
  change (gender_ratio (absolute_paths env c)) with (gender_ratio c).
  change (output_dir (absolute_paths env c)) with (absolute env (output_dir c)).
  unfold makedirs.
  destruct (env_makedirs env (absolute env (output_dir c))); [|reflexivity].
  rewrite bind_ret. cbn [negb].
  assert (P : exists s1,
             match seed c with Some s0 => random_seed s0 | None => ret tt end s
             = (Ok tt, s1, [])).
  { destruct (seed c); eexists; reflexivity. }
  destruct P as [s1 P]. rewrite (bind_ok _ _ _ _ _ _ P).
  destruct (negb (supported_format (output_format c))); [reflexivity|].
  cbv zeta.
  destruct (needs_normalizing _); [|reflexivity].
  destruct (normalize_ratio _ _) as [g|e].
  - rewrite bind_lift_ok. reflexivity.
  - reflexivity.
Qed.

(** [__post_init__] logs nothing and makes no draw. *)
Lemma Config_post_init_trace env c s :
  trace_of (Config_post_init env c s) = [].
Proof.
  unfold Config_post_init. set (c0 := with_paths c _ _).
  unfold makedirs.
  destruct (env_makedirs env (output_dir c0)); [|reflexivity].
  rewrite bind_ret.
  assert (P : exists s1,
             match seed c0 with Some s0 => random_seed s0 | None => ret tt end s
             = (Ok tt, s1, [])).
  { destruct (seed c0); eexists; reflexivity. }
  destruct P as [s1 P]. rewrite (bind_ok _ _ _ _ _ _ P).
  destruct (negb (supported_format (output_format c0))); [reflexivity|].
  cbv zeta.
  destruct (needs_normalizing _); [|reflexivity].
  destruct (normalize_ratio _ _) as [g|e].
  - rewrite bind_lift_ok. reflexivity.
  - reflexivity.
Qed.


End ConfigFacts.

(** ** One time step *)

(** Events that carry a date carry the date [d]. *)
Definition event_on (d : Z) (e : event) : Prop :=
  match e with
  | EvEval d' _ _ => d' = d
  | EvDeath d' _ => d' = d
  | _ => True
  end.

Definition no_death (t : list event) : Prop :=
  forall D n, ~ In (EvDeath D n) t.

(** What a time step on date [d] can do to a patient: nothing, or record
    the death on [d]. *)
Definition step_outcome (p : Patient) (d : date) (p' : Patient)
    (t : list event) : Prop :=
  (p' = p /\ no_death t) \/ p' = set_dead p d.

(** The names of the modules evaluated on date [d], in order. *)
Fixpoint evals_on (d : Z) (t : list event) : list string :=
  match t with
  | [] => []
  | EvEval d' n _ :: r => if d' =? d then n :: evals_on d r else evals_on d r
  | _ :: r => evals_on d r
  end.

Definition is_death_state (st : StateDef) : bool :=
  String.eqb (state_type st) "Death".

Definition only_death_states (m : ModuleDef) : ModuleDef :=
  {| m_name := m_name m; m_priority := m_priority m; m_remarks := m_remarks m;
     m_probability := m_probability m;
     m_required_states := m_required_states m;
     m_states := option_map (filter is_death_state) (m_states m) |}.

Definition count_death_states (m : ModuleDef) : nat :=
  match m_states m with
  | Some sts => List.length (filter is_death_state sts)
  | None => 0%nat
  end.

(** The states of type [Death] of a module, in the order of the list. *)
Definition death_states (m : ModuleDef) : list StateDef :=
  match m_states m with
  | Some sts => filter is_death_state sts
  | None => []
  end.

Lemma evals_on_app d t1 t2 :
  evals_on d (t1 ++ t2) = evals_on d t1 ++ evals_on d t2.
Proof.
  induction t1 as [|e t1 IH]; simpl; [reflexivity|].
  destruct e; try exact IH.
  destruct (d0 =? d); simpl; [f_equal|]; exact IH.
Qed.

Lemma evals_on_other d d' t :
  Forall (event_on d') t -> d <> d' -> evals_on d t = [].
Proof.
  induction 1 as [|e t He Ht IH]; intros Hd; simpl; [reflexivity|].
  destruct e; auto.
  simpl in He. subst. destruct (Z.eqb_spec d' d); [congruence|auto].
Qed.

Lemma no_death_nil : no_death [].
Proof. intros D n H. inversion H. Qed.

Lemma no_death_app t1 t2 : no_death t1 -> no_death t2 -> no_death (t1 ++ t2).
Proof.
  intros H1 H2 D n H. apply in_app_or in H. destruct H as [H|H].
  - exact (H1 D n H).
  - exact (H2 D n H).
Qed.

Lemma no_death_draw : no_death [EvDraw].
Proof. intros D n [H|[]]. discriminate H. Qed.

Lemma draws_app t1 t2 : draws (t1 ++ t2) = (draws t1 + draws t2)%nat.
Proof. unfold draws. rewrite filter_app, length_app. reflexivity. Qed.

Section StepFacts.

Context {RS : RandomSource}.

Lemma should_run_module_spec m p ac s :
  exists b s' t,
    should_run_module m p ac s = (Ok b, s', t) /\ (t = [] \/ t = [EvDraw]).
Proof.
  unfold should_run_module.
  destruct (match m_remarks m with Some _ => _ | None => false end).
  - do 3 eexists. split; [reflexivity|]. left. reflexivity.
  - destruct (m_probability m) as [pr|].
    + destruct (random_spec s) as (x & s' & E & _).
      rewrite bind_assoc, (bind_ok _ _ _ _ _ _ E), bind_ret.
      destruct (Qltb pr x).
      * do 3 eexists. split; [reflexivity|]. right. reflexivity.
      * destruct (m_required_states m); do 3 eexists;
          (split; [reflexivity|]); right; reflexivity.
    + rewrite bind_ret.
      destruct (m_required_states m); do 3 eexists;
        (split; [reflexivity|]); left; reflexivity.
Qed.

Lemma process_states_spec n sts p d s :
  exists p' s' t,
    process_states n sts p d s = (Ok p', s', t)
    /\ step_outcome p d p' t
    /\ Forall (event_on d) t
    /\ evals_on d t = []
    /\ (draws t <= List.length (filter is_death_state sts))%nat.
Proof.
  revert s. induction sts as [|st rest IH]; intros s; simpl.
  - exists p, s, []. repeat split; auto using no_death_nil.
    left. split; [reflexivity|apply no_death_nil].
  - change (String.eqb (state_type st) "Death") with (is_death_state st).
    destruct (is_death_state st).
    + destruct (random_spec s) as (x & s1 & E & _).
      rewrite (bind_ok _ _ _ _ _ _ E).
      destruct (Qltb x (death_prob st)).
      * rewrite bind_emit. unfold ret. simpl.
        do 3 eexists. split; [reflexivity|].
        split; [right; reflexivity|].
        split; [repeat constructor|].
        split; [reflexivity|]. unfold draws. simpl. lia.
      * destruct (IH s1) as (p' & s' & t & E' & O & F & V & D).
        rewrite E'. simpl.
        do 3 eexists. split; [reflexivity|].
        split.
        { destruct O as [[-> N] | ->]; [left|right; reflexivity].
          split; [reflexivity|].
          apply (no_death_app [EvDraw] t); [apply no_death_draw|exact N]. }
        split; [constructor; [exact I|exact F]|].
        split; [exact V|].
        change (EvDraw :: t) with ([EvDraw] ++ t). rewrite draws_app.
        unfold draws at 1. simpl. lia.
    + destruct (IH s) as (p' & s' & t & E' & O & F & V & D).
      exists p', s', t. repeat split; auto.
Qed.

Lemma process_module_spec m p d s :
  exists p' s' t,
    process_module m p d s = (Ok p', s', t)
    /\ step_outcome p d p' t
    /\ Forall (event_on d) t
    /\ evals_on d t = []
    /\ (draws t <= count_death_states m)%nat.
Proof.
  unfold process_module, count_death_states.
  destruct (m_states m) as [sts|].
  - apply process_states_spec.
  - exists p, s, []. repeat split; auto.
    left. split; [reflexivity|apply no_death_nil].
Qed.

(** States whose type is not [Death] are skipped without any effect. *)
Lemma process_states_filter n sts p d s :
  process_states n sts p d s
  = process_states n (filter is_death_state sts) p d s.
Proof.
  revert s. induction sts as [|st rest IH]; intros s; simpl; [reflexivity|].
  unfold is_death_state at 1.
  destruct (String.eqb (state_type st) "Death") eqn:E.
  - simpl. rewrite E. unfold bind.
    destruct (random s) as [[[x|e] s1] t1]; [|reflexivity].
    destruct (Qltb x (death_prob st)); [reflexivity|].
    rewrite IH. reflexivity.
  - apply IH.
Qed.

Lemma set_dead_idem p d : set_dead (set_dead p d) d = set_dead p d.
Proof. reflexivity. Qed.

Lemma step_outcome_trans p d p1 t1 p2 t2 :
  step_outcome p d p1 t1 -> step_outcome p1 d p2 t2 ->
  step_outcome p d p2 (t1 ++ t2).
Proof.
  intros [[-> N1] | ->] [[-> N2] | ->].
  - left. split; [reflexivity|apply no_death_app; assumption].
  - right. reflexivity.
  - right. reflexivity.
  - right. apply set_dead_idem.
Qed.

Lemma eval_modules_spec mods p ac d s :
  exists p' s' t,
    eval_modules mods p ac d s = (Ok p', s', t)
    /\ step_outcome p d p' t
    /\ Forall (event_on d) t
    /\ evals_on d t = map module_name mods.
Proof.
  revert p s. induction mods as [|m rest IH]; intros p s; simpl.
  - exists p, s, []. repeat split; auto.
    left. split; [reflexivity|apply no_death_nil].
  - destruct (should_run_module_spec m p ac s) as (b & s1 & t1 & E1 & T1).
    rewrite (bind_ok _ _ _ _ _ _ E1), bind_emit.
    assert (P : exists p1 s2 t2,
               (if b then process_module m p d else ret p) s1 = (Ok p1, s2, t2)
               /\ step_outcome p d p1 t2 /\ Forall (event_on d) t2
               /\ evals_on d t2 = []).
    { destruct b.
      - destruct (process_module_spec m p d s1) as (p1 & s2 & t2 & E & O & F & V & _).
        exists p1, s2, t2. auto.
      - exists p, s1, []. repeat split; auto.
        left. split; [reflexivity|apply no_death_nil]. }
    destruct P as (p1 & s2 & t2 & E2 & O2 & F2 & V2).
    rewrite (bind_ok _ _ _ _ _ _ E2).
    destruct (IH p1 s2) as (p' & s' & t & E3 & O3 & F3 & V3).
    rewrite E3. simpl.
    do 3 eexists. split; [reflexivity|].
    assert (N1 : no_death t1).
    { destruct T1 as [-> | ->]; [apply no_death_nil|apply no_death_draw]. }
    assert (F1 : Forall (event_on d) t1).
    { destruct T1 as [-> | ->]; repeat constructor. }
    assert (V1 : evals_on d t1 = []).
    { destruct T1 as [-> | ->]; reflexivity. }
    split.
    { assert (O0 : step_outcome p d p
                     (t1 ++ [EvEval d (module_name m) b])).
      { left. split; [reflexivity|].
        apply no_death_app; [exact N1|].
        intros D n0 [H|[]]. discriminate H. }
      pose proof (step_outcome_trans _ _ _ _ _ _ O0
                    (step_outcome_trans _ _ _ _ _ _ O2 O3)) as O.
      rewrite <- app_assoc in O. exact O. }
    split.
    { apply Forall_app. split; [exact F1|].
      constructor; [reflexivity|]. apply Forall_app. split; assumption. }
    rewrite evals_on_app, V1. simpl. rewrite Z.eqb_refl.
    rewrite evals_on_app, V2, V3. reflexivity.
Qed.

End StepFacts.

(** ** The simulation loop *)

(** Events that carry a date carry one in [[lo, hi]]. *)
Definition event_within (lo hi : Z) (e : event) : Prop :=
  match e with
  | EvEval d _ _ => lo <= d <= hi
  | EvDeath d _ => lo <= d <= hi
  | _ => True
  end.

Lemma event_within_weaken lo hi lo' hi' t :
  Forall (event_within lo hi) t -> lo' <= lo -> hi <= hi' ->
  Forall (event_within lo' hi') t.
Proof.
  intros H L U. eapply Forall_impl; [|exact H].
  intros e. destruct e; simpl; lia.
Qed.

Lemma event_on_within d lo hi t :
  Forall (event_on d) t -> lo <= d <= hi -> Forall (event_within lo hi) t.
Proof.
  intros H R. eapply Forall_impl; [|exact H].
  intros e. destruct e; simpl; lia.
Qed.

Lemma evals_on_outside d lo hi t :
  Forall (event_within lo hi) t -> d < lo \/ hi < d -> evals_on d t = [].
Proof.
  induction 1 as [|e t He Ht IH]; intros Hd; simpl; [reflexivity|].
  destruct e; auto.
  simpl in He. destruct (Z.eqb_spec d0 d); [lia|auto].
Qed.

Lemma date_add_ok d n d' : date_add d n = Ok d' -> d' = d + n.
Proof.
  unfold date_add. destruct (_ && _); intros H; inversion H. reflexivity.
Qed.

Lemma step_outcome_birth p d p' t :
  step_outcome p d p' t -> birth_date p' = birth_date p.
Proof. intros [[-> _] | ->]; reflexivity. Qed.

Section LoopFacts.

Context {RS : RandomSource}.

(** A patient who is not alive stops the loop at once. *)
Lemma while_loop_dead fuel mods end_date cur p s :
  is_alive p = false ->
  while_loop fuel mods end_date cur p s = (Ok (cur, p), s, []).
Proof.
  intros H. destruct fuel; simpl; [reflexivity|].
  rewrite H, andb_false_r. reflexivity.
Qed.

Lemma while_loop_past fuel mods end_date cur p s :
  end_date < cur ->
  while_loop fuel mods end_date cur p s = (Ok (cur, p), s, []).
Proof.
  intros H. destruct fuel; simpl; [reflexivity|].
  destruct (Z.leb_spec cur end_date); [lia|reflexivity].
Qed.

(** One iteration of the loop before the patient's birth. *)
Lemma while_loop_skip k mods end_date cur p s :
  cur <= end_date -> is_alive p = true -> cur < birth_date p ->
  while_loop (S k) mods end_date cur p s =
  match date_add cur time_step_days with
  | Ok d => while_loop k mods end_date d p s
  | Raise e => (Raise e, s, [])
  end.
Proof.
  intros H1 H2 H3. simpl.
  destruct (Z.leb_spec cur end_date); [|lia]. rewrite H2. simpl.
  destruct (Z.ltb_spec (cur - birth_date p) 0); [|lia].
  destruct (date_add cur time_step_days) as [d|e].
  - rewrite bind_lift_ok. reflexivity.
  - reflexivity.
Qed.

(** One iteration of the loop on or after the patient's birth. *)
Lemma while_loop_step k mods end_date cur p s :
  cur <= end_date -> is_alive p = true -> birth_date p <= cur ->
  exists p1 s1 t1,
    eval_modules mods p [] cur s = (Ok p1, s1, t1)
    /\ step_outcome p cur p1 t1
    /\ Forall (event_on cur) t1
    /\ evals_on cur t1 = map module_name mods
    /\ while_loop (S k) mods end_date cur p s =
       match date_add cur time_step_days with
       | Ok d =>
           (value_of (while_loop k mods end_date d p1 s1),
            state_of (while_loop k mods end_date d p1 s1),
            t1 ++ trace_of (while_loop k mods end_date d p1 s1))
       | Raise e => (Raise e, s1, t1)
       end.
Proof.
  intros H1 H2 H3.
  destruct (eval_modules_spec mods p [] cur s) as (p1 & s1 & t1 & E & O & F & V).
  exists p1, s1, t1. repeat (split; [assumption|]).
  simpl.
  destruct (Z.leb_spec cur end_date); [|lia]. rewrite H2. simpl.
  destruct (Z.ltb_spec (cur - birth_date p) 0); [lia|].
  rewrite (bind_ok _ _ _ _ _ _ E).
  destruct (date_add cur time_step_days) as [d|e].
  - rewrite bind_lift_ok. reflexivity.
  - rewrite bind_lift_raise. simpl. rewrite app_nil_r. reflexivity.
Qed.

(** The three ways an iteration can go. *)
Inductive loop_case (k : nat) (mods : list ModuleDef) (end_date cur : date)
    (p : Patient) (s : rng) : Prop :=
| loop_stop :
    while_loop (S k) mods end_date cur p s = (Ok (cur, p), s, []) ->
    (end_date < cur \/ is_alive p = false) ->
    loop_case k mods end_date cur p s
| loop_abort e s1 t1 :
    while_loop (S k) mods end_date cur p s = (Raise e, s1, t1) ->
    cur <= end_date -> is_alive p = true ->
    Forall (event_on cur) t1 -> (t1 <> [] -> birth_date p <= cur) ->
    (evals_on cur t1 = [] \/ evals_on cur t1 = map module_name mods) ->
    loop_case k mods end_date cur p s
| loop_next p1 s1 t1 :
    while_loop (S k) mods end_date cur p s =
      (value_of (while_loop k mods end_date (cur + time_step_days) p1 s1),
       state_of (while_loop k mods end_date (cur + time_step_days) p1 s1),
       t1 ++ trace_of (while_loop k mods end_date (cur + time_step_days) p1 s1)) ->
    cur <= end_date -> is_alive p = true ->
    step_outcome p cur p1 t1 ->
    Forall (event_on cur) t1 -> (t1 <> [] -> birth_date p <= cur) ->
    (evals_on cur t1 = [] \/ evals_on cur t1 = map module_name mods) ->
    loop_case k mods end_date cur p s.

Lemma while_loop_cases k mods end_date cur p s :
  loop_case k mods end_date cur p s.
Proof.
  destruct (Z.leb_spec cur end_date) as [L|L].
  2:{ apply loop_stop; [apply while_loop_past; exact L|left; exact L]. }
  destruct (is_alive p) eqn:A.
  2:{ apply loop_stop; [apply while_loop_dead; exact A|right; exact A]. }
  destruct (Z.ltb_spec cur (birth_date p)) as [B|B].
  - pose proof (while_loop_skip k mods end_date cur p s L A B) as E.
    destruct (date_add cur time_step_days) as [d|e] eqn:D.
    + apply date_add_ok in D. subst d.
      apply (loop_next _ _ _ _ _ _ p s []); auto.
      * rewrite E. apply surj_triple.
      * left. split; [reflexivity|apply no_death_nil].
      * congruence.
    + apply (loop_abort _ _ _ _ _ _ e s []); auto. congruence.
  - destruct (while_loop_step k mods end_date cur p s L A B)
      as (p1 & s1 & t1 & _ & O & F & V & E).
    destruct (date_add cur time_step_days) as [d|e] eqn:D.
    + apply date_add_ok in D. subst d.
      apply (loop_next _ _ _ _ _ _ p1 s1 t1); auto.
    + apply (loop_abort _ _ _ _ _ _ e s1 t1); auto.
Qed.

End LoopFacts.

Section LoopInvariants.

Context {RS : RandomSource}.

(** Every dated event of the loop lies between the later of the current
    date and the birth date, and the end date. *)
Lemma while_loop_within fuel mods end_date cur p s :
  Forall (event_within (Z.max cur (birth_date p)) end_date)
    (trace_of (while_loop fuel mods end_date cur p s)).
Proof.
  revert cur p s. induction fuel as [|k IH]; intros cur p s.
  - constructor.
  - destruct (while_loop_cases k mods end_date cur p s)
      as [E _ | e s1 t1 E L A F B _ | p1 s1 t1 E L A O F B _];
      rewrite E; simpl.
    + constructor.
    + destruct t1 as [|ev t1]; [constructor|].
      apply (event_on_within cur); [exact F|].
      assert (birth_date p <= cur) by (apply B; discriminate). lia.
    + apply Forall_app. split.
      * destruct t1 as [|ev t1]; [constructor|].
        apply (event_on_within cur); [exact F|].
        assert (birth_date p <= cur) by (apply B; discriminate). lia.
      * eapply event_within_weaken; [apply IH| |lia].
        rewrite (step_outcome_birth _ _ _ _ O). unfold time_step_days. lia.
Qed.

(** On every date the loop evaluates either nothing or the whole list of
    modules, in the order of the list. *)
Lemma while_loop_evals fuel mods end_date cur p s d :
  let t := trace_of (while_loop fuel mods end_date cur p s) in
  evals_on d t = [] \/ evals_on d t = map module_name mods.
Proof.
  revert cur p s. induction fuel as [|k IH]; intros cur p s.
  - left. reflexivity.
  - cbv zeta.
    destruct (while_loop_cases k mods end_date cur p s)
      as [E _ | e s1 t1 E L A F B V | p1 s1 t1 E L A O F B V];
      rewrite E; simpl.
    + left. reflexivity.
    + destruct (Z.eq_dec d cur) as [-> |N]; [exact V|].
      left. apply (evals_on_other d cur); assumption.
    + rewrite evals_on_app.
      destruct (Z.eq_dec d cur) as [-> |N].
      * rewrite (evals_on_outside cur _ _ _
                   (while_loop_within k mods end_date (cur + time_step_days) p1 s1)).
        -- rewrite app_nil_r. exact V.
        -- left. unfold time_step_days. lia.
      * rewrite (evals_on_other d cur t1 F N). apply IH.
Qed.

(** Once a death draw succeeds on date [D], nothing dated later than [D]
    happens in the loop, and the patient the loop hands back is the
    initial one with the death on [D] recorded. *)
Lemma while_loop_death fuel mods end_date cur p s D n :
  In (EvDeath D n) (trace_of (while_loop fuel mods end_date cur p s)) ->
  Forall (event_within cur D) (trace_of (while_loop fuel mods end_date cur p s))
  /\ forall c' p',
       value_of (while_loop fuel mods end_date cur p s) = Ok (c', p') ->
       p' = set_dead p D.
Proof.
  revert cur p s. induction fuel as [|k IH]; intros cur p s.
  - intros [].
  - destruct (while_loop_cases k mods end_date cur p s)
      as [E _ | e s1 t1 E L A F B _ | p1 s1 t1 E L A O F B _];
      rewrite E; simpl.
    + intros [].
    + intros H.
      assert (D = cur) as ->.
      { rewrite Forall_forall in F. apply F in H. simpl in H. auto. }
      split; [apply (event_on_within cur); [exact F|lia]|].
      unfold value_of. simpl. discriminate.
    + intros H. destruct O as [[-> N] | ->].
      * apply in_app_or in H. destruct H as [H|H]; [destruct (N _ _ H)|].
        destruct (IH _ _ _ H) as [W R].
        assert (cur + time_step_days <= D).
        { rewrite Forall_forall in W. apply W in H. simpl in H. lia. }
        split.
        -- apply Forall_app. split.
           ++ apply (event_on_within cur); [exact F|unfold time_step_days in *; lia].
           ++ eapply event_within_weaken; [exact W|unfold time_step_days; lia|lia].
        -- exact R.
      * rewrite while_loop_dead in * by reflexivity. simpl in *.
        rewrite app_nil_r in *.
        assert (D = cur) as ->.
        { rewrite Forall_forall in F. apply F in H. simpl in H. auto. }
        split; [apply (event_on_within cur); [exact F|lia]|].
        unfold value_of. simpl. intros c' p' Q. inversion Q. reflexivity.
Qed.

(** The bound passed by [run_modules] is never what ends the loop: with
    at least that much fuel the loop ends because its own condition
    fails, after [k] iterations with [7 * k <= end_date - cur + 7]. *)
Lemma while_loop_exit fuel mods end_date cur p s c' p' :
  (Z.to_nat (end_date - cur + 1) <= fuel)%nat ->
  value_of (while_loop fuel mods end_date cur p s) = Ok (c', p') ->
  (c' <=? end_date) && is_alive p' = false
  /\ exists k, 0 <= k /\ c' = cur + time_step_days * k
               /\ (cur <= end_date ->
                   time_step_days * k <= end_date - cur + time_step_days)
               /\ (end_date < cur -> k = 0).
Proof.
  revert cur p s. induction fuel as [|f IH]; intros cur p s Hf.
  - unfold value_of. cbn [while_loop ret fst]. intros Q. inversion Q; subst.
    assert (end_date < c') by lia.
    split.
    + destruct (Z.leb_spec c' end_date); [lia|reflexivity].
    + exists 0. unfold time_step_days. lia.
  - destruct (while_loop_cases f mods end_date cur p s)
      as [E X | e s1 t1 E L A F B _ | p1 s1 t1 E L A O F B _];
      rewrite E; unfold value_of; cbn [fst].
    + intros Q. inversion Q; subst. split.
      * destruct X as [X|X].
        -- destruct (Z.leb_spec c' end_date); [lia|reflexivity].
        -- rewrite X. apply andb_false_r.
      * exists 0. unfold time_step_days. lia.
    + discriminate.
    + intros Q.
      destruct (IH (cur + time_step_days) p1 s1) as [X (k & K0 & K1 & K2 & K3)].
      * unfold time_step_days. lia.
      * exact Q.
      * split; [exact X|].
        exists (k + 1). unfold time_step_days in *.
        destruct (Z_le_gt_dec (cur + 7) end_date); lia.
Qed.

(** How [run_modules] extends the loop: by at most one draw, made only
    for a patient who is dead without a death date. *)
Lemma run_modules_decompose env mods p s :
  let loop := while_loop (loop_bound (birth_date p) (today env))
                (sorted_by_priority mods) (today env) (birth_date p) p s in
  let x := run_modules env mods p s in
  exists tail,
    trace_of x = trace_of loop ++ tail
    /\ (tail = [] \/ tail = [EvDraw])
    /\ forall p',
         value_of x = Ok p' ->
         exists c pl,
           value_of loop = Ok (c, pl)
           /\ (p' = pl
               \/ (is_alive pl = false /\ death_date pl = None
                   /\ exists d, p' = set_death_date pl d)).
Proof.
  cbv zeta. unfold run_modules.
  destruct (while_loop _ _ _ _ _ s) as [[[[c pl]|e] s1] t1] eqn:E.
  - rewrite (bind_ok _ _ _ _ _ _ E). simpl.
    destruct (is_alive pl) eqn:A; simpl.
    + exists []. split; [reflexivity|]. split; [left; reflexivity|].
      intros p' Q. inversion Q; subst. exists c, p'. auto.
    + destruct (death_date pl) eqn:DD.
      * exists []. split; [reflexivity|]. split; [left; reflexivity|].
        intros p' Q. inversion Q; subst. exists c, p'. auto.
      * destruct (randint_spec 0 time_step_days s1) as (k & s2 & R & _).
        { unfold time_step_days. lia. }
        rewrite (bind_ok _ _ _ _ _ _ R).
        destruct (date_add c (- k)) as [d|e'].
        -- rewrite bind_lift_ok. simpl.
           exists [EvDraw]. split; [reflexivity|]. split; [right; reflexivity|].
           intros p' Q. inversion Q; subst. exists c, pl.
           split; [reflexivity|]. right. eauto.
        -- rewrite bind_lift_raise. simpl.
           exists [EvDraw]. split; [reflexivity|]. split; [right; reflexivity|].
           unfold value_of. simpl. discriminate.
  - rewrite (bind_raise _ _ _ _ _ _ E). simpl.
    exists []. split; [symmetry; apply app_nil_r|]. split; [left; reflexivity|].
    unfold value_of. simpl. discriminate.
Qed.

(** The loop of [run_modules] ends because its condition fails: the date
    has passed today or the patient is dead.  It has then run [k] times
    with [7 * k <= today - birth_date + 7], that is at most
    [(today - birth_date) / 7 + 1] times. *)
Lemma run_modules_loop_exit env mods p s c' p' :
  value_of (while_loop (loop_bound (birth_date p) (today env))
              (sorted_by_priority mods) (today env) (birth_date p) p s)
  = Ok (c', p') ->
  (c' <=? today env) && is_alive p' = false
  /\ exists k, 0 <= k /\ c' = birth_date p + time_step_days * k
               /\ (birth_date p <= today env ->
                   k <= (today env - birth_date p) / time_step_days + 1)
               /\ (today env < birth_date p -> k = 0).
Proof.
  intros H.
  destruct (while_loop_exit _ _ _ _ _ _ _ _ (Nat.le_refl _) H)
    as [X (k & K0 & K1 & K2 & K3)].
  split; [exact X|]. exists k. repeat split; try assumption.
  intros B. specialize (K2 B). unfold time_step_days in *.
  assert (7 * (k - 1) <= today env - birth_date p) by lia.
  assert (k - 1 <= (today env - birth_date p) / 7)
    by (apply Z.div_le_lower_bound; lia).
  lia.
Qed.

End LoopInvariants.

(** ** The order of the modules *)

Definition priority_le (a b : ModuleDef) : Prop :=
  module_priority a <= module_priority b.

Definition has_priority (k : Z) (m : ModuleDef) : bool :=
  module_priority m =? k.

Lemma insert_by_priority_perm m l :
  Permutation (m :: l) (insert_by_priority m l).
Proof.
  induction l as [|x r IH]; simpl; [apply Permutation_refl|].
  destruct (module_priority m <=? module_priority x).
  - apply Permutation_refl.
  - eapply perm_trans; [apply perm_swap|]. apply perm_skip. exact IH.
Qed.

Lemma sorted_by_priority_perm l : Permutation l (sorted_by_priority l).
Proof.
  induction l as [|m r IH]; simpl; [constructor|].
  eapply perm_trans; [apply perm_skip; exact IH|].
  apply insert_by_priority_perm.
Qed.

Lemma insert_by_priority_hd m x l :
  priority_le x m -> HdRel priority_le x l ->
  HdRel priority_le x (insert_by_priority m l).
Proof.
  intros Hxm H. destruct l as [|y r]; simpl.
  - constructor. exact Hxm.
  - inversion H; subst.
    destruct (module_priority m <=? module_priority y); constructor; assumption.
Qed.

Lemma insert_by_priority_sorted m l :
  Sorted priority_le l -> Sorted priority_le (insert_by_priority m l).
Proof.
  induction 1 as [|x r Hr IH Hd]; simpl.
  - repeat constructor.
  - destruct (Z.leb_spec (module_priority m) (module_priority x)) as [L|L].
    + constructor; [constructor; assumption|]. constructor. exact L.
    + constructor; [exact IH|].
      apply insert_by_priority_hd; [unfold priority_le; lia|exact Hd].
Qed.

Lemma sorted_by_priority_sorted l :
  StronglySorted priority_le (sorted_by_priority l).
Proof.
  apply Sorted_StronglySorted.
  - intros a b c. unfold priority_le. lia.
  - induction l as [|m r IH]; simpl; [constructor|].
    apply insert_by_priority_sorted. exact IH.
Qed.

Lemma insert_by_priority_filter k m l :
  filter (has_priority k) (insert_by_priority m l)
  = filter (has_priority k) (m :: l).
Proof.
  induction l as [|x r IH]; [reflexivity|].
  cbn [insert_by_priority].
  destruct (Z.leb_spec (module_priority m) (module_priority x)) as [L|L];
    [reflexivity|].
  cbn [filter] in *. rewrite IH.
  unfold has_priority.
  destruct (Z.eqb_spec (module_priority m) k);
    destruct (Z.eqb_spec (module_priority x) k); try reflexivity; lia.
Qed.

(** The sort is stable: modules of one priority keep the order they have
    in the list given to the generator. *)
Lemma sorted_by_priority_stable k l :
  filter (has_priority k) (sorted_by_priority l) = filter (has_priority k) l.
Proof.
  induction l as [|m r IH]; [reflexivity|].
  cbn [sorted_by_priority]. rewrite insert_by_priority_filter.
  cbn [filter]. rewrite IH. reflexivity.
Qed.

Section Timeline.

Context {RS : RandomSource}.

Lemma run_modules_in_loop env mods p s e :
  e <> EvDraw ->
  In e (trace_of (run_modules env mods p s)) ->
  In e (trace_of (while_loop (loop_bound (birth_date p) (today env))
                    (sorted_by_priority mods) (today env) (birth_date p) p s)).
Proof.
  intros N H.
  destruct (run_modules_decompose env mods p s) as (tail & T & Tl & _).
  rewrite T in H. apply in_app_or in H. destruct H as [H|H]; [exact H|].
  destruct Tl as [-> | ->]; simpl in H; intuition congruence.
Qed.

Lemma run_modules_evals_on env mods p s d :
  evals_on d (trace_of (run_modules env mods p s))
  = evals_on d (trace_of (while_loop (loop_bound (birth_date p) (today env))
                            (sorted_by_priority mods) (today env)
                            (birth_date p) p s)).
Proof.
  destruct (run_modules_decompose env mods p s) as (tail & T & Tl & _).
  rewrite T, evals_on_app.
  destruct Tl as [-> | ->]; simpl; apply app_nil_r.
Qed.

(** C5 (as amended).  On every simulated date, [_run_modules] evaluates
    either no module or all of them, in the order of
    [sorted(modules, key=priority)]: ascending priority, and modules of
    equal priority in the order of the list the generator was given
    (the sort is stable; names play no part). *)
Theorem modules_evaluated_in_stable_priority_order env mods p s d :
  let t := trace_of (run_modules env mods p s) in
  (evals_on d t = [] \/
   evals_on d t = map module_name (sorted_by_priority mods))
  /\ Permutation mods (sorted_by_priority mods)
  /\ StronglySorted priority_le (sorted_by_priority mods)
  /\ forall k, filter (has_priority k) (sorted_by_priority mods)
               = filter (has_priority k) mods.
Proof.
  cbv zeta. split.
  - rewrite run_modules_evals_on. apply while_loop_evals.
  - split; [apply sorted_by_priority_perm|].
    split; [apply sorted_by_priority_sorted|].
    intros k. apply sorted_by_priority_stable.
Qed.

(** C7 (as amended).  Every module evaluation of [_run_modules] happens
    on a simulated date between the patient's birth date and today, both
    included, where today is the day that this call of [_run_modules]
    reads from [date.today()]. *)
Theorem evaluations_between_birth_and_today env mods p s d n r :
  In (EvEval d n r) (trace_of (run_modules env mods p s)) ->
  birth_date p <= d <= today env.
Proof.
  intros H. apply run_modules_in_loop in H; [|discriminate].
  pose proof (while_loop_within (loop_bound (birth_date p) (today env))
                (sorted_by_priority mods) (today env) (birth_date p) p s) as W.
  rewrite Forall_forall in W. apply W in H. simpl in H. lia.
Qed.

(** C6.  If a Death draw succeeds on simulated date [D] during
    [_run_modules], then no module is evaluated on a date later than [D],
    no death is recorded on another date, and the patient handed back is
    not alive, has death date [D] and has the clinical record it started
    with. *)
Theorem death_is_final env mods p s D n :
  In (EvDeath D n) (trace_of (run_modules env mods p s)) ->
  (forall d m r,
     In (EvEval d m r) (trace_of (run_modules env mods p s)) -> d <= D)
  /\ (forall D' n',
        In (EvDeath D' n') (trace_of (run_modules env mods p s)) -> D' = D)
  /\ (forall p',
        value_of (run_modules env mods p s) = Ok p' ->
        is_alive p' = false /\ death_date p' = Some D
        /\ record_entries p' = record_entries p).
Proof.
  intros H.
  apply run_modules_in_loop in H; [|discriminate].
  destruct (while_loop_death _ _ _ _ _ _ _ _ H) as [W R].
  rewrite Forall_forall in W.
  split; [|split].
  - intros d m r Hd. apply run_modules_in_loop in Hd; [|discriminate].
    apply W in Hd. simpl in Hd. lia.
  - intros D' n' Hd. apply run_modules_in_loop in Hd; [|discriminate].
    destruct (while_loop_death _ _ _ _ _ _ _ _ Hd) as [W' _].
    rewrite Forall_forall in W'.
    apply W in Hd. apply W' in H. simpl in *. lia.
  - intros p' Q.
    destruct (run_modules_decompose env mods p s) as (tail & _ & _ & V).
    destruct (V p' Q) as (c & pl & E & C).
    apply R in E. subst pl.
    destruct C as [-> | (_ & X & _)]; [|discriminate X].
    repeat split.
Qed.

End Timeline.

(** Finds an event in the trace of a concrete run. *)
Ltac find_event :=
  vm_compute; repeat (first [left; reflexivity | right]).

Definition module_b : ModuleDef := plain_module "b" None.
Definition module_a : ModuleDef := plain_module "a" None.

(** Two modules of equal priority are evaluated in the order of the list,
    here ["b"] before ["a"], not in the order of their names. *)
Lemma equal_priorities_not_ordered_by_name :
  module_priority module_b = module_priority module_a
  /\ String.ltb (module_name module_a) (module_name module_b) = true
  /\ evals_on (birth_date example_patient)
       (trace_of (run_modules example_env [module_b; module_a]
                    example_patient (rng_seed 0)))
     = ["b"; "a"].
Proof. vm_compute. auto. Qed.

Lemma evaluations_between_birth_and_today_witness :
  birth_date born_last_month = ymd2ord 2026 10 1
  /\ today example_env = ymd2ord 2026 11 4
  /\ In (EvEval (ymd2ord 2026 10 15) "a" true)
       (trace_of (run_modules example_env [module_a] born_last_month
                    (rng_seed 0)))
  /\ birth_date born_last_month <= ymd2ord 2026 10 15 <= today example_env.
Proof.
  assert (H : In (EvEval (ymd2ord 2026 10 15) "a" true)
                (trace_of (run_modules example_env [module_a] born_last_month
                             (rng_seed 0)))).
  { find_event. }
  split; [reflexivity|]. split; [reflexivity|]. split; [exact H|].
  exact (evaluations_between_birth_and_today example_env [module_a]
           born_last_month (rng_seed 0) _ _ _ H).
Defined.

Definition always_die : ModuleDef :=
  module_with_states "mortality" [death_state 1].

(** Two newborns, generated one after the other. *)
Definition newborns_config : Config :=
  {| population_size := 2; min_age := 0; max_age := 0; seed := Some 10;
     modules_dir := "/data/modules"; output_dir := "/data/output";
     output_format := "fhir"; gender_ratio := default_gender_ratio;
     max_workers := 4; generate_only_living_patients := false |}.

(** The surroundings of the call for each ordinal in a run that starts
    on 4 November and passes midnight before the second patient. *)
Definition past_midnight (i : nat) : Env :=
  match i with
  | O => example_env
  | S _ => with_today example_env (2026, 11, 5)
  end.

(** In that run the second patient is simulated up to 5 November, and a
    module is evaluated on that day, which is later than the day on
    which generation was invoked. *)
Lemma run_past_midnight_evaluates_tomorrow :
  today (past_midnight 0) = ymd2ord 2026 11 4
  /\ today (past_midnight 1) = ymd2ord 2026 11 5
  /\ ymd2ord 2026 11 4 < ymd2ord 2026 11 5
  /\ In (EvEval (ymd2ord 2026 11 5) "a" true)
       (trace_of (generate_population past_midnight
                    {| completion_order := [];
                       worker_rng := fun _ => rng_seed 0;
                       worker_env := fun _ => example_env |}
                    newborns_config [module_a] (rng_seed 0))).
Proof.
  split; [reflexivity|]. split; [reflexivity|].
  split; [vm_compute; reflexivity|]. find_event.
Qed.

(** A module whose Death state succeeds one time in four. *)
Definition risky_module : ModuleDef :=
  module_with_states "mortality" [death_state (1 # 4)].

(** The patient born on 1 October is evaluated on 1, 8, 15 and 22
    October and dies on the 22nd; 29 October, the following time step,
    is not later than today. *)
Lemma death_is_final_witness :
  birth_date born_last_month < ymd2ord 2026 10 22
  /\ ymd2ord 2026 10 22 + time_step_days <= today example_env
  /\ In (EvEval (ymd2ord 2026 10 15) "mortality" true)
       (trace_of (run_modules example_env [risky_module] born_last_month
                    (rng_seed 11)))
  /\ In (EvDeath (ymd2ord 2026 10 22) "mortality")
       (trace_of (run_modules example_env [risky_module] born_last_month
                    (rng_seed 11)))
  /\ (forall d m r,
        In (EvEval d m r)
          (trace_of (run_modules example_env [risky_module] born_last_month
                       (rng_seed 11))) ->
        d <= ymd2ord 2026 10 22)
  /\ (forall D' n',
        In (EvDeath D' n')
          (trace_of (run_modules example_env [risky_module] born_last_month
                       (rng_seed 11))) ->
        D' = ymd2ord 2026 10 22)
  /\ (forall p',
        value_of (run_modules example_env [risky_module] born_last_month
                    (rng_seed 11)) = Ok p' ->
        is_alive p' = false /\ death_date p' = Some (ymd2ord 2026 10 22)
        /\ record_entries p' = record_entries born_last_month).
Proof.
  assert (H : In (EvDeath (ymd2ord 2026 10 22) "mortality")
                (trace_of (run_modules example_env [risky_module]
                             born_last_month (rng_seed 11)))).
  { find_event. }
  split; [vm_compute; reflexivity|].
  split; [vm_compute; discriminate|].
  split; [find_event|].
  split; [exact H|].
  exact (death_is_final example_env [risky_module] born_last_month
           (rng_seed 11) _ _ H).
Defined.

(** ** Module processing and module loading *)

Section ModuleFacts.

Context {RS : RandomSource}.

(** C8 (as amended).  [_process_module] has no probabilistic transitions:
    it looks only at the states of type [Death], whatever weights the
    other states declare, makes at most one uniform draw per [Death]
    state and never fails.  A module without a [Death] state leaves the
    patient and the random stream untouched.  Otherwise one draw is made
    for the first [Death] state and compared with its
    [direct_transition_probability], 0.01 when the state has none: a
    draw below it records the death and ends the evaluation, any other
    draw passes on to the next [Death] state. *)
Theorem process_module_reads_only_death_states m p d s :
  process_module m p d s = process_module (only_death_states m) p d s
  /\ (draws (trace_of (process_module m p d s)) <= count_death_states m)%nat
  /\ (exists p', value_of (process_module m p d s) = Ok p')
  /\ (death_states m = [] -> process_module m p d s = (Ok p, s, []))
  /\ (forall st rest,
        death_states m = st :: rest ->
        let draw := fst (rng_random s) in
        let s1 := snd (rng_random s) in
        let probability :=
          match s_direct_transition_probability st with
          | Some q => q
          | None => (1 # 100)%Q
          end in
        process_module m p d s
        = if Qltb draw probability
          then (Ok (set_dead p d), s1, [EvDraw; EvDeath d (module_name m)])
          else
            let others := process_states (module_name m) rest p d s1 in
            (value_of others, state_of others, EvDraw :: trace_of others)).
Proof.
  split; [|split; [|split; [|split]]].
  - unfold process_module, only_death_states. simpl.
    destruct (m_states m) as [sts|]; simpl; [|reflexivity].
    apply process_states_filter.
  - destruct (process_module_spec m p d s) as (p' & s' & t & E & _ & _ & _ & D).
    rewrite E. exact D.
  - destruct (process_module_spec m p d s) as (p' & s' & t & E & _).
    rewrite E. exists p'. reflexivity.
  - unfold process_module, death_states.
    destruct (m_states m) as [sts|]; [|reflexivity].
    intros E. rewrite process_states_filter, E. reflexivity.
  - unfold process_module, death_states.
    destruct (m_states m) as [sts|]; [|discriminate].
    intros st rest E. cbv zeta.
    assert (Dst : is_death_state st = true).
    { assert (I : In st (filter is_death_state sts))
        by (rewrite E; left; reflexivity).
      apply filter_In in I as [_ I]. exact I. }
    rewrite process_states_filter, E. cbn [process_states].
    change (String.eqb (state_type st) "Death") with (is_death_state st).
    rewrite Dst.
    destruct (random_spec s) as (x & s1 & R & _).
    assert (X : rng_random s = (x, s1)).
    { unfold random in R. destruct (rng_random s) as [x0 s0].
      injection R as -> ->. reflexivity. }
    rewrite (bind_ok _ _ _ _ _ _ R), X. cbn [fst snd].
    change (match s_direct_transition_probability st with
            | Some q => q
            | None => 1 # 100
            end) with (death_prob st).
    destruct (Qltb x (death_prob st)).
    + rewrite bind_emit. reflexivity.
    + reflexivity.
Qed.

(** C4 (as amended).  [load_modules] never fails and always returns the
    empty list of modules, whatever the directory holds; a missing
    directory is reported by one warning. *)
Theorem load_modules_always_empty env module_path dir s :
  load_modules env module_path dir s
  = (Ok [], s,
     if env_exists env module_path then []
     else [EvLog (LogWarningMissingPath module_path)]).
Proof.
  unfold load_modules. destruct (env_exists env module_path); reflexivity.
Qed.

End ModuleFacts.

Definition weighted_module : ModuleDef :=
  module_with_states "branching" [weighted_state].

(** Evaluating a module whose state declares the weights [2, 1, 1] makes
    no draw at all and leaves the patient as it was. *)
Lemma weighted_state_makes_no_draw :
  map fst (s_distributed_transition weighted_state) = [2%Q; 1%Q; 1%Q]
  /\ draws (trace_of (process_module weighted_module example_patient
                        (birth_date example_patient) (rng_seed 0))) = 0%nat
  /\ process_module weighted_module example_patient
       (birth_date example_patient) (rng_seed 0)
     = (Ok example_patient, rng_seed 0, []).
Proof. vm_compute. auto. Qed.

(** A module definition without an initial state, whose only state points
    nowhere. *)
Definition broken_module : RawModule :=
  {| raw_name := Some "broken"; raw_remarks := None;
     raw_states := Some [("Start", weighted_state)];
     raw_initial := None; raw_gmf_version := None |}.

(** Loading a directory that holds a module without an initial state
    succeeds, silently, with an empty catalog. *)
Lemma load_modules_accepts_broken_module :
  initial_state (Module_init broken_module) = None
  /\ get_state (Module_init broken_module) "A" = None
  /\ load_modules example_env "/data/modules"
       [("broken.json", broken_module)] (rng_seed 0)
     = (Ok [], rng_seed 0, []).
Proof. vm_compute. auto. Qed.

(** ** The calendar *)

Lemma days_before_year_nested y :
  days_before_year y
  = (y - 1) * 365 + (y - 1) / 4 - (y - 1) / 4 / 25 + (y - 1) / 4 / 25 / 4.
Proof.
  unfold days_before_year. cbv zeta.
  rewrite !Z.div_div by lia. reflexivity.
Qed.

Lemma div_gap a A k :
  0 < k -> a <= A -> a / k <= A / k /\ A / k - a / k <= A - a.
Proof.
  intros Hk H. split.
  - apply Z.div_le_mono; lia.
  - pose proof (Z.mod_pos_bound a k Hk). pose proof (Z.mod_pos_bound A k Hk).
    pose proof (Z.div_mod a k ltac:(lia)). pose proof (Z.div_mod A k ltac:(lia)).
    assert (a / k <= A / k) by (apply Z.div_le_mono; lia).
    nia.
Qed.

(** The number of leap years up to a year grows with the year. *)
Lemma leap_count_mono a A :
  a <= A ->
  a / 4 - a / 4 / 25 + a / 4 / 25 / 4 <= A / 4 - A / 4 / 25 + A / 4 / 25 / 4.
Proof.
  intros H.
  destruct (div_gap a A 4 ltac:(lia) H) as [H1 _].
  destruct (div_gap (a / 4) (A / 4) 25 ltac:(lia) H1) as [H2 G2].
  destruct (div_gap (a / 4 / 25) (A / 4 / 25) 4 ltac:(lia) H2) as [H3 _].
  lia.
Qed.

Lemma days_before_year_step y Y :
  y <= Y -> days_before_year y + 365 * (Y - y) <= days_before_year Y.
Proof.
  intros H. rewrite !days_before_year_nested.
  pose proof (leap_count_mono (y - 1) (Y - 1) ltac:(lia)). lia.
Qed.

Lemma days_before_year_nonneg y : 1 <= y -> 0 <= days_before_year y.
Proof.
  intros H. rewrite days_before_year_nested.
  pose proof (leap_count_mono 0 (y - 1) ltac:(lia)) as L.
  change (0 / 4 - 0 / 4 / 25 + 0 / 4 / 25 / 4) with 0 in L. lia.
Qed.

Lemma month_cases m :
  1 <= m <= 12 ->
  m = 1 \/ m = 2 \/ m = 3 \/ m = 4 \/ m = 5 \/ m = 6 \/ m = 7 \/ m = 8
  \/ m = 9 \/ m = 10 \/ m = 11 \/ m = 12.
Proof. lia. Qed.

Lemma days_before_month_range y m :
  1 <= m <= 12 -> 0 <= days_before_month y m <= 335.
Proof.
  intros H. unfold days_before_month.
  destruct (month_cases m H) as [->|[->|[->|[->|[->|[->|[->|[->|[->|[->|[->| ->]]]]]]]]]]];
    destruct (is_leap y); simpl; lia.
Qed.

Lemma days_before_month_next y m M :
  1 <= m -> m < M -> M <= 12 ->
  days_before_month y m + 28 <= days_before_month y M.
Proof.
  intros H1 H2 H3. unfold days_before_month.
  assert (Hm : 1 <= m <= 12) by lia. assert (HM : 1 <= M <= 12) by lia.
  destruct (month_cases m Hm) as [->|[->|[->|[->|[->|[->|[->|[->|[->|[->|[->| ->]]]]]]]]]]];
    destruct (month_cases M HM) as [->|[->|[->|[->|[->|[->|[->|[->|[->|[->|[->| ->]]]]]]]]]]];
    try lia; destruct (is_leap y); simpl; lia.
Qed.

(** A date built from an earlier year, or from the same year and an
    earlier month, or from the same month and a day that is not later,
    does not come after. *)
Lemma ymd2ord_le y m d Y M D :
  1 <= m <= 12 -> 1 <= M <= 12 -> 1 <= D ->
  (y < Y /\ d <= 28) \/ (y = Y /\ m < M /\ d <= 28) \/ (y = Y /\ m = M /\ d <= D) ->
  ymd2ord y m d <= ymd2ord Y M D.
Proof.
  intros Hm HM HD H. unfold ymd2ord.
  destruct H as [[Hy Hd]|[(-> & Hlt & Hd)|(-> & -> & Hd)]].
  - pose proof (days_before_year_step y Y ltac:(lia)).
    pose proof (days_before_month_range y m Hm).
    pose proof (days_before_month_range Y M HM). lia.
  - pose proof (days_before_month_next Y m M ltac:(lia) Hlt ltac:(lia)). lia.
  - lia.
Qed.

Lemma ymd2ord_pos y m d :
  1 <= y -> 1 <= m <= 12 -> 1 <= d -> date_min <= ymd2ord y m d.
Proof.
  intros Hy Hm Hd. unfold ymd2ord, date_min.
  pose proof (days_before_year_nonneg y Hy).
  pose proof (days_before_month_range y m Hm). lia.
Qed.

Lemma days_in_month_min y m : 28 <= days_in_month y m.
Proof.
  unfold days_in_month.
  destruct (m =? 2); [destruct (is_leap y); lia|].
  destruct (_ || _); lia.
Qed.

(** The surroundings give a real calendar day, and the age bounds leave
    room for a birth year. *)
Definition valid_today (env : Env) : Prop :=
  1 <= today_year env <= 9999
  /\ 1 <= today_month env <= 12
  /\ 1 <= today_day env <= days_in_month (today_year env) (today_month env).

Definition valid_ages (env : Env) (c : Config) : Prop :=
  0 <= min_age c <= max_age c /\ max_age c < today_year env.

(** ** Demographics *)

Section DemographicsFacts.

Context {RS : RandomSource}.

Lemma bind_run {A B} (m : M A) (f : A -> M B) s a s1 t1 r s2 t2 :
  m s = (Ok a, s1, t1) -> f a s1 = (r, s2, t2) ->
  bind m f s = (r, s2, t1 ++ t2).
Proof.
  intros H1 H2. rewrite (bind_ok _ _ _ _ _ _ H1), H2. reflexivity.
Qed.

Lemma randomly_select_gender_spec c s :
  exists g s', randomly_select_gender c s = (Ok g, s', [EvDraw]).
Proof.
  unfold randomly_select_gender.
  destruct (random_spec s) as (x & s' & E & _).
  rewrite (bind_ok _ _ _ _ _ _ E).
  destruct (select_cumulative (gender_ratio c) x 0); do 2 eexists; reflexivity.
Qed.

Lemma randomly_select_race_spec s :
  exists r s', randomly_select_race s = (Ok r, s', [EvDraw]).
Proof.
  unfold randomly_select_race.
  destruct (random_spec s) as (x & s' & E & _).
  rewrite (bind_ok _ _ _ _ _ _ E).
  destruct (select_cumulative DEFAULT_RACE_DISTRIBUTION x 0);
    do 2 eexists; reflexivity.
Qed.

Lemma get_first_name_spec g s :
  exists n s', get_first_name g s = (Ok n, s', [EvDraw]).
Proof.
  unfold get_first_name.
  destruct (String.eqb g "M").
  - destruct (choice_spec DEFAULT_FIRST_NAMES_MALE s) as (n & s' & E & _);
      [discriminate|eauto].
  - destruct (choice_spec DEFAULT_FIRST_NAMES_FEMALE s) as (n & s' & E & _);
      [discriminate|eauto].
Qed.

(** With [min_age > max_age] the range of birth years is empty: the
    generation of every patient fails with [ValueError], after the draws
    for gender and race. *)
Lemma generate_demographics_inverted env c i s :
  max_age c < min_age c ->
  exists s',
    generate_demographics env c i s = (Raise ValueError, s', [EvDraw; EvDraw]).
Proof.
  intros H. unfold generate_demographics.
  destruct (randomly_select_gender_spec c s) as (g & s1 & E1).
  destruct (randomly_select_race_spec s1) as (r & s2 & E2).
  exists s2.
  rewrite (bind_ok _ _ _ _ _ _ E1), (bind_ok _ _ _ _ _ _ E2). cbv zeta.
  rewrite (bind_raise _ _ _ _ _ _
             (randint_empty (today_year env - max_age c)
                (today_year env - min_age c) s2 ltac:(lia))).
  reflexivity.
Qed.

(** The month and day block of [_generate_demographics]. *)
Definition month_and_day (env : Env) (birth_year : Z) : M (Z * Z) :=
  if birth_year =? today_year env then
    birth_month <- randint 1 (today_month env) ;;
    let max_day :=
      if birth_month =? today_month env then today_day env else 28 in
    birth_day <- randint 1 max_day ;;
    ret (birth_month, birth_day)
  else
    birth_month <- randint 1 12 ;;
    birth_day <- randint 1 28 ;;
    ret (birth_month, birth_day).

Lemma month_and_day_spec env y s :
  valid_today env -> 1 <= y <= today_year env ->
  exists m d s' t,
    month_and_day env y s = (Ok (m, d), s', t)
    /\ mk_date y m d = Ok (ymd2ord y m d)
    /\ date_min <= ymd2ord y m d <= today env.
Proof.
  intros (Vy & Vm & Vd) Hy. unfold month_and_day.
  pose proof (days_in_month_min (today_year env) (today_month env)) as Dm.
  destruct (Z.eqb_spec y (today_year env)) as [->|N].
  - destruct (randint_spec 1 (today_month env) s ltac:(lia)) as (m & s1 & E1 & R1).
    set (max_day := if m =? today_month env then today_day env else 28).
    assert (Hmax : 1 <= max_day).
    { unfold max_day. destruct (m =? today_month env); lia. }
    destruct (randint_spec 1 max_day s1 Hmax) as (d & s2 & E2 & R2).
    exists m, d, s2, ([EvDraw] ++ [EvDraw] ++ []).
    split; [|split; [|split]].
    + eapply bind_run; [exact E1|]. fold max_day.
      eapply bind_run; [exact E2|]. reflexivity.
    + unfold mk_date.
      assert (d <= days_in_month (today_year env) m).
      { unfold max_day in R2.
        destruct (Z.eqb_spec m (today_month env)) as [->|_]; [lia|].
        pose proof (days_in_month_min (today_year env) m). lia. }
      repeat match goal with
             | |- context [?a <=? ?b] =>
                 destruct (Z.leb_spec a b); [|lia]
             end.
      reflexivity.
    + apply ymd2ord_pos; lia.
    + unfold today, max_day in *. apply ymd2ord_le; try lia.
      destruct (Z.eqb_spec m (today_month env)); lia.
  - destruct (randint_spec 1 12 s ltac:(lia)) as (m & s1 & E1 & R1).
    destruct (randint_spec 1 28 s1 ltac:(lia)) as (d & s2 & E2 & R2).
    exists m, d, s2, ([EvDraw] ++ [EvDraw] ++ []).
    split; [|split; [|split]].
    + eapply bind_run; [exact E1|].
      eapply bind_run; [exact E2|]. reflexivity.
    + unfold mk_date.
      pose proof (days_in_month_min y m).
      repeat match goal with
             | |- context [?a <=? ?b] =>
                 destruct (Z.leb_spec a b); [|lia]
             end.
      reflexivity.
    + apply ymd2ord_pos; lia.
    + unfold today. apply ymd2ord_le; lia.
Qed.

(** With a real calendar day and age bounds in order, demographics never
    fail: the patient is alive, has no death date and is born on a valid
    date that is not after today. *)
Lemma generate_demographics_ok env c i s :
  valid_today env -> valid_ages env c ->
  exists p s' t,
    generate_demographics env c i s = (Ok p, s', t)
    /\ is_alive p = true /\ death_date p = None
    /\ date_min <= birth_date p <= today env.
Proof.
  intros V (A1 & A2). unfold generate_demographics.
  destruct (randomly_select_gender_spec c s) as (g & s1 & E1).
  destruct (randomly_select_race_spec s1) as (r & s2 & E2).
  destruct (randint_spec (today_year env - max_age c) (today_year env - min_age c)
              s2 ltac:(lia)) as (y & s3 & E3 & R3).
  destruct (month_and_day_spec env y s3 V ltac:(lia))
    as (m & d & s4 & t4 & E4 & K & B).
  destruct (get_first_name_spec g s4) as (fn & s5 & E5).
  destruct (choice_spec DEFAULT_LAST_NAMES s5 ltac:(discriminate))
    as (ln & s6 & E6 & _).
  destruct (randint_spec 0 100000 s6 ltac:(lia)) as (inc & s7 & E7 & _).
  destruct (choice_spec DEFAULT_LOCATIONS s7 ltac:(discriminate))
    as (loc & s8 & E8 & _).
  destruct (randint_spec 100 9999 s8 ltac:(lia)) as (n & s9 & E9 & _).
  do 3 eexists. split.
  - eapply bind_run; [exact E1|].
    eapply bind_run; [exact E2|]. cbv zeta.
    eapply bind_run; [exact E3|].
    eapply bind_run; [exact E4|]. cbn [fst snd]. rewrite K.
    rewrite bind_lift_ok.
    eapply bind_run; [exact E5|].
    eapply bind_run; [exact E6|].
    eapply bind_run; [exact E7|].
    eapply bind_run; [exact E8|].
    eapply bind_run; [exact E9|]. reflexivity.
  - simpl. auto.
Qed.

End DemographicsFacts.

(** ** Regeneration in only-living mode *)

Section Regeneration.

Context {RS : RandomSource}.

(** With a seed, an attempt starts by overwriting the generator state:
    what the state was before plays no part. *)
Lemma seeded_attempt_ignores_state env c mods i sd s1 s2 :
  seed c = Some sd ->
  generate_attempt env c mods i s1 = generate_attempt env c mods i s2.
Proof.
  intros H. unfold generate_attempt. rewrite H.
  unfold bind at 1 3. unfold bind at 2 4. unfold random_seed.
  reflexivity.
Qed.

(** With a seed, a patient who dies in the first attempt dies in every
    attempt: the retry of only-living mode ends only when the interpreter
    gives up. *)
Lemma seeded_retry_never_succeeds env c mods i sd s0 p depth s :
  seed c = Some sd ->
  generate_only_living_patients c = true ->
  value_of (generate_attempt env c mods i s0) = Ok p ->
  is_alive p = false ->
  value_of (generate_patient_rec depth env c mods i s) = Raise RecursionError.
Proof.
  intros Hs Hl Ha Hd. revert s. induction depth as [|d IH]; intros s.
  - reflexivity.
  - cbn [generate_patient_rec]. unfold bind at 1.
    rewrite (seeded_attempt_ignores_state env c mods i sd s s0 Hs).
    destruct (generate_attempt env c mods i s0) as [[r s1] t1] eqn:E.
    unfold value_of in Ha. simpl in Ha. subst r.
    rewrite Hl, Hd. cbn [andb negb].
    specialize (IH s1).
    destruct (generate_patient_rec d env c mods i s1) as [[r2 s2] t2].
    exact IH.
Qed.

Lemma eval_always_die p d s :
  exists s',
    eval_modules [always_die] p [] d s
    = (Ok (set_dead p d), s', [EvEval d "mortality" true; EvDraw; EvDeath d "mortality"]).
Proof.
  destruct (random_spec s) as (x & s' & E & _ & Hx).
  exists s'. cbn [eval_modules].
  assert (R : should_run_module always_die p [] s = (Ok true, s, []))
    by reflexivity.
  rewrite (bind_ok _ _ _ _ _ _ R), bind_emit.
  assert (P : process_module always_die p d s
              = (Ok (set_dead p d), s', [EvDraw; EvDeath d "mortality"])).
  { unfold process_module. cbn [always_die module_with_states m_states
      module_name m_name process_states death_state state_type s_type].
    cbn [String.eqb Ascii.eqb Bool.eqb andb].
    rewrite (bind_ok _ _ _ _ _ _ E).
    change (death_prob (death_state 1)) with 1%Q.
    rewrite (Qltb_lt x 1 Hx), bind_emit. reflexivity. }
  rewrite (bind_ok _ _ _ _ _ _ P). reflexivity.
Qed.

(** A module whose Death state has probability 1 kills every living
    patient on the first step of the simulation. *)
Lemma run_modules_always_die env p s :
  is_alive p = true ->
  date_min <= birth_date p <= today env ->
  today env + time_step_days <= date_max ->
  exists p' s' t,
    run_modules env [always_die] p s = (Ok p', s', t) /\ is_alive p' = false.
Proof.
  intros A B T. unfold run_modules.
  change (sorted_by_priority [always_die]) with [always_die].
  assert (F : exists k, loop_bound (birth_date p) (today env) = S k).
  { unfold loop_bound. exists (Z.to_nat (today env - birth_date p)). lia. }
  destruct F as [k ->].
  destruct (while_loop_step k [always_die] (today env) (birth_date p) p s
              ltac:(lia) A ltac:(lia)) as (p1 & s1 & t1 & E & _ & _ & _ & W).
  destruct (eval_always_die p (birth_date p) s) as (s1' & E').
  rewrite E' in E. inversion E; subst p1 s1 t1. clear E.
  assert (D : date_add (birth_date p) time_step_days
              = Ok (birth_date p + time_step_days)).
  { unfold date_add, date_min, date_max, time_step_days in *.
    destruct (Z.leb_spec 1 (birth_date p + 7)); [|lia].
    destruct (Z.leb_spec (birth_date p + 7) 3652059); [|lia]. reflexivity. }
  rewrite D in W.
  rewrite (while_loop_dead k [always_die] (today env)
             (birth_date p + time_step_days) (set_dead p (birth_date p)) s1'
             eq_refl) in W.
  cbn [value_of state_of trace_of fst snd] in W.
  rewrite (bind_ok _ _ _ _ _ _ W). cbn [fst snd].
  do 3 eexists. split; reflexivity.
Qed.

End Regeneration.

Definition only_living_config : Config :=
  {| population_size := 3; min_age := 0; max_age := 100; seed := Some 42;
     modules_dir := "/data/modules"; output_dir := "/data/output";
     output_format := "fhir"; gender_ratio := default_gender_ratio;
     max_workers := 4; generate_only_living_patients := true |}.

Definition inverted_ages_config : Config :=
  {| population_size := 3; min_age := 50; max_age := 10; seed := None;
     modules_dir := "/data/modules"; output_dir := "/data/output";
     output_format := "fhir"; gender_ratio := default_gender_ratio;
     max_workers := 4; generate_only_living_patients := false |}.

Definition unsupported_format_config : Config :=
  {| population_size := 3; min_age := 0; max_age := 100; seed := None;
     modules_dir := "/data/modules"; output_dir := "/data/output";
     output_format := "xml"; gender_ratio := default_gender_ratio;
     max_workers := 4; generate_only_living_patients := false |}.

Definition skewed_ratio_config : Config :=
  with_gender_ratio default_config [("M", 2%float); ("F", 2%float)].

Definition skewed_ratio_config_built : Config :=
  Eval vm_compute in
    match value_of (Config_post_init example_env skewed_ratio_config (rng_seed 0)) with
    | Ok c => c
    | Raise _ => skewed_ratio_config
    end.

Definition example_schedule : Schedule :=
  {| completion_order := [2; 0; 1]%nat;
     worker_rng := fun i => rng_seed (Z.of_nat i);
     worker_env := fun _ => example_env |}.

Lemma skewed_ratio_run :
  value_of (Config_post_init example_env skewed_ratio_config (rng_seed 0))
  = Ok skewed_ratio_config_built.
Proof. vm_compute. reflexivity. Qed.


(** A ratio whose total overflows. *)
Definition overflowing_ratio_config : Config :=
  with_gender_ratio default_config [("M", 1e308%float); ("F", 1e308%float)].

(** The surroundings of [example_env] under an interpreter whose [sum]
    is the compensated one. *)
Definition compensating_env : Env :=
  {| env_today := env_today example_env; env_now := env_now example_env;
     env_recursion_limit := env_recursion_limit example_env;
     env_cwd := env_cwd example_env; env_exists := env_exists example_env;
     env_makedirs := env_makedirs example_env;
     env_sum_compensated := true |}.

Definition zeroed_ratio_config : Config :=
  Eval vm_compute in
    match value_of (Config_post_init example_env overflowing_ratio_config
                      (rng_seed 0)) with
    | Ok c => c
    | Raise _ => overflowing_ratio_config
    end.


(** Constructing a [Config] again from the one just stored fails: the
    total of the stored values is zero. *)
Lemma zeroed_ratio_is_rejected_afterwards :
  value_of (Config_post_init example_env zeroed_ratio_config (rng_seed 0))
  = Raise ZeroDivisionError.
Proof. vm_compute. reflexivity. Qed.

(** ** The constructor of the generator *)

Section ConstructorFacts.

Context {RS : RandomSource}.

(** [m] never fails, makes exactly [n] calls into [random] and nothing
    else that is observed, and hands back a value that satisfies [P]. *)
Definition draws_exactly {A} (P : A -> Prop) (n : nat) (m : M A) : Prop :=
  forall s, exists a s', m s = (Ok a, s', repeat EvDraw n) /\ P a.

Lemma draws_exactly_ret {A} (P : A -> Prop) (a : A) :
  P a -> draws_exactly P 0 (ret a).
Proof. intros H s. exists a, s. split; [reflexivity|exact H]. Qed.

Lemma draws_exactly_bind {A B} (P : A -> Prop) (Q : B -> Prop) n k
    (m : M A) (f : A -> M B) :
  draws_exactly P n m ->
  (forall a, P a -> draws_exactly Q k (f a)) ->
  draws_exactly Q (n + k) (bind m f).
Proof.
  intros Hm Hf s.
  destruct (Hm s) as (a & s1 & E & Pa).
  destruct (Hf a Pa s1) as (b & s2 & E2 & Qb).
  exists b, s2. split; [|exact Qb].
  rewrite (bind_ok _ _ _ _ _ _ E), E2. cbn [value_of state_of trace_of fst snd].
  rewrite repeat_app. reflexivity.
Qed.

Lemma draws_exactly_choice {A} (l : list A) :
  l <> [] -> draws_exactly (fun _ => True) 1 (choice l).
Proof.
  intros N s. destruct (choice_spec l s N) as (y & s1 & E & _).
  exists y, s1. split; [exact E|exact I].
Qed.

Lemma draws_exactly_randint a b :
  a <= b -> draws_exactly (fun _ => True) 1 (randint a b).
Proof.
  intros H s. destruct (randint_spec a b s H) as (y & s1 & E & _).
  exists y, s1. split; [exact E|exact I].
Qed.

Lemma generate_organizations_draws n i :
  draws_exactly (fun orgs => List.length orgs = n) (4 * n)
    (generate_organizations n i).
Proof.
  revert i. induction n as [|k IH]; intros i.
  - apply draws_exactly_ret. reflexivity.
  - replace (4 * S k)%nat with (1 + (1 + (1 + (1 + (4 * k + 0)))))%nat by lia.
    cbn [generate_organizations].
    eapply draws_exactly_bind;
      [apply draws_exactly_choice; discriminate|intros org_type _].
    eapply draws_exactly_bind;
      [apply draws_exactly_randint; lia|intros house _].
    eapply draws_exactly_bind;
      [apply draws_exactly_randint; lia|intros area _].
    eapply draws_exactly_bind;
      [apply draws_exactly_randint; lia|intros line _].
    eapply draws_exactly_bind; [apply IH|intros rest L].
    apply draws_exactly_ret. cbn. rewrite L. reflexivity.
Qed.

Lemma generate_providers_draws specialties organizations n i :
  specialties <> [] -> organizations <> [] ->
  draws_exactly (fun _ => True) (2 * n)
    (generate_providers specialties organizations n i).
Proof.
  intros Ns No. revert i. induction n as [|k IH]; intros i.
  - apply draws_exactly_ret. exact I.
  - replace (2 * S k)%nat with (1 + (1 + (0 + (0 + (2 * k + 0)))))%nat by lia.
    cbn [generate_providers].
    eapply draws_exactly_bind;
      [apply draws_exactly_choice; exact Ns|intros specialty _].
    eapply draws_exactly_bind with (P := fun org => org <> None).
    { destruct organizations as [|o r]; [contradiction|].
      replace 1%nat with (1 + 0)%nat by reflexivity.
      eapply draws_exactly_bind;
        [apply draws_exactly_choice; discriminate|intros o' _].
      apply draws_exactly_ret. discriminate. }
    intros [o|] Ho; [|contradiction].
    eapply (draws_exactly_bind (fun _ => True));
      [apply draws_exactly_ret; exact I|intros addr _].
    eapply (draws_exactly_bind (fun _ => True));
      [apply draws_exactly_ret; exact I|intros phone _].
    eapply draws_exactly_bind; [apply IH|intros rest _].
    apply draws_exactly_ret. exact I.
Qed.

(** Building a [Generator] never fails and makes sixty calls into
    [random]: four for each of the five organizations and two for each
    of the twenty providers. *)
Lemma Generator_init_run s :
  exists pf s', Generator_init s = (Ok pf, s', repeat EvDraw 60).
Proof.
  assert (D : draws_exactly (fun _ => True) (4 * 5 + (2 * 20 + 0))
                Generator_init).
  { unfold Generator_init, ProviderFactory_init, generate_default_providers.
    cbv zeta. rewrite <- (Nat.add_0_r (4 * 5 + (2 * 20 + 0))).
    eapply (draws_exactly_bind (fun _ => True)).
    - eapply draws_exactly_bind;
        [apply generate_organizations_draws|intros orgs L].
      eapply draws_exactly_bind.
      + apply generate_providers_draws; [discriminate|].
        intros ->. discriminate L.
      + intros provs _. apply draws_exactly_ret. exact I.
    - intros generated _. apply draws_exactly_ret. exact I. }
  destruct (D s) as (pf & s' & E & _). exists pf, s'. exact E.
Qed.

(** [_generate_population] once its generator is built. *)
Lemma generate_population_run envs sched c mods s :
  exists pf s',
    Generator_init s = (Ok pf, s', repeat EvDraw 60)
    /\ generate_population envs sched c mods s
       = (let rest :=
            (if (population_size c <=? 10) || (max_workers c =? 1) then
               generate_sequential envs c mods
                 (seq 0 (Z.to_nat (population_size c)))
             else if max_workers c <=? 0 then raise ValueError
             else collect_completed sched c mods (completion_order sched) 0 [])
              s' in
          (value_of rest, state_of rest, repeat EvDraw 60 ++ trace_of rest)).
Proof.
  destruct (Generator_init_run s) as (pf & s' & E).
  exists pf, s'. split; [exact E|].
  unfold generate_population. rewrite (bind_ok _ _ _ _ _ _ E). reflexivity.
Qed.

End ConstructorFacts.

Section Failures.

Context {RS : RandomSource}.

Lemma generate_patient_rec_S d env c mods i s :
  generate_patient_rec (S d) env c mods i s
  = bind (generate_attempt env c mods i)
      (fun patient =>
         if generate_only_living_patients c && negb (is_alive patient)
         then generate_patient_rec d env c mods i
         else ret patient) s.
Proof. reflexivity. Qed.

Lemma attempt_always_die env c i s :
  valid_today env -> valid_ages env c ->
  today env + time_step_days <= date_max ->
  match seed c with
  | Some sd => 0 <= sd + Z.of_nat i < 2 ^ 32
  | None => True
  end ->
  exists p s' t,
    generate_attempt env c [always_die] i s = (Ok p, s', t)
    /\ is_alive p = false.
Proof.
  intros V A T S. unfold generate_attempt.
  set (pre := match seed c with Some _ => _ | None => ret tt end).
  assert (P : exists s0, pre s = (Ok tt, s0, [])).
  { unfold pre. destruct (seed c) as [sd|]; [|eexists; reflexivity].
    exists (rng_seed (sd + Z.of_nat i)).
    unfold np_random_seed.
    destruct (Z.leb_spec 0 (sd + Z.of_nat i)); [|lia].
    destruct (Z.ltb_spec (sd + Z.of_nat i) (2 ^ 32)); [|lia].
    reflexivity. }
  destruct P as [s0 P].
  destruct (generate_demographics_ok env c i s0 V A)
    as (p & s1 & t1 & E1 & Al & _ & B).
  destruct (run_modules_always_die env p s1 Al B T) as (p' & s2 & t2 & E2 & D).
  exists p', s2, ([] ++ t1 ++ t2). split; [|exact D].
  eapply bind_run; [exact P|].
  eapply bind_run; [exact E1|exact E2].
Qed.

(** C3, at the failing input.  With [generate_only_living_patients] and a
    module whose Death state has probability 1, [generate_patient] for
    ordinal 0 never hands back a patient: whatever the recursion limit,
    the state of the generator and the clock, the retry goes on until the
    interpreter raises [RecursionError]. *)
Theorem only_living_retry_never_completes (limit : nat) (now : Z) (s : rng) :
  value_of
    (generate_patient (with_recursion_limit (with_now example_env now) limit)
       only_living_config [always_die] 0 s)
  = Raise RecursionError.
Proof.
  unfold generate_patient.
  change (env_recursion_limit
            (with_recursion_limit (with_now example_env now) limit)) with limit.
  set (env := with_recursion_limit (with_now example_env now) limit).
  assert (V : valid_today env) by (unfold valid_today; cbn; lia).
  assert (A : valid_ages env only_living_config)
    by (unfold valid_ages; cbn; lia).
  assert (T : today env + time_step_days <= date_max)
    by (vm_compute; discriminate).
  clearbody env. revert s.
  induction limit as [|d IH]; intros s; [reflexivity|].
  rewrite generate_patient_rec_S.
  destruct (attempt_always_die env only_living_config 0 s V A T
              ltac:(cbn; lia)) as (p & s2 & t & E & D).
  rewrite (bind_ok _ _ _ _ _ _ E).
  change (generate_only_living_patients only_living_config) with true.
  rewrite D. cbn [andb negb value_of fst]. apply IH.
Qed.

(** The loop over completed futures never raises. *)
Lemma collect_completed_total sched c mods order i acc s :
  exists ps t, collect_completed sched c mods order i acc s = (Ok ps, s, t).
Proof.
  revert i acc. induction order as [|k rest IH]; intros i acc.
  - do 2 eexists. reflexivity.
  - cbn [collect_completed].
    set (task := generate_patient (worker_env sched k) c mods k).
    destruct (task (worker_rng sched k)) as [[r ws] tw] eqn:E.
    assert (W : in_worker task (worker_rng sched k) s = (Ok r, s, tw)).
    { unfold in_worker. rewrite E. reflexivity. }
    rewrite (bind_ok _ _ _ _ _ _ W).
    destruct r as [patient|e].
    + destruct (IH (S i) (acc ++ [patient])) as (ps & t & E').
      destruct (_ =? 0); [rewrite bind_emit|rewrite bind_ret];
        rewrite E'; do 2 eexists; reflexivity.
    + destruct (IH (S i) acc) as (ps & t & E').
      rewrite bind_emit, E'. do 2 eexists. reflexivity.
Qed.

(** The outcome of the task of ordinal [k] in its worker. *)
Definition worker_outcome (sched : Schedule) (c : Config)
    (mods : list ModuleDef) (k : nat) : result Patient :=
  value_of (generate_patient (worker_env sched k) c mods k (worker_rng sched k)).

Fixpoint successes (sched : Schedule) (c : Config) (mods : list ModuleDef)
    (order : list nat) : list Patient :=
  match order with
  | [] => []
  | k :: rest =>
      match worker_outcome sched c mods k with
      | Ok p => p :: successes sched c mods rest
      | Raise _ => successes sched c mods rest
      end
  end.

(** The loop over completed futures hands back the patients of the
    ordinals that succeeded, in completion order, and logs an error for
    every ordinal that failed. *)
Lemma collect_completed_result sched c mods order i acc s :
  value_of (collect_completed sched c mods order i acc s)
  = Ok (acc ++ successes sched c mods order)
  /\ forall k e,
       In k order -> worker_outcome sched c mods k = Raise e ->
       In (EvLog (LogErrorPatient e))
          (trace_of (collect_completed sched c mods order i acc s)).
Proof.
  revert i acc. induction order as [|k rest IH]; intros i acc.
  - split; [|intros k e []].
    cbn. rewrite app_nil_r. reflexivity.
  - cbn [collect_completed successes]. unfold worker_outcome at 1.
    set (task := generate_patient (worker_env sched k) c mods k).
    destruct (task (worker_rng sched k)) as [[r ws] tw] eqn:E.
    assert (W : in_worker task (worker_rng sched k) s = (Ok r, s, tw)).
    { unfold in_worker. rewrite E. reflexivity. }
    assert (O : worker_outcome sched c mods k = r).
    { unfold worker_outcome. fold task. rewrite E. reflexivity. }
    rewrite (bind_ok _ _ _ _ _ _ W). cbn [value_of trace_of fst snd].
    destruct r as [patient|e0].
    + destruct (IH (S i) (acc ++ [patient])) as [V L].
      rewrite <- app_assoc in V. cbn [app] in V.
      assert (X : forall (m : M unit),
                 (m = emit (EvLog (LogInfoProgress (Z.of_nat i + 1)
                                     (population_size c)))
                  \/ m = ret tt) ->
                 value_of (bind m (fun _ =>
                   collect_completed sched c mods rest (S i)
                     (acc ++ [patient])) s)
                 = Ok (acc ++ patient :: successes sched c mods rest)
                 /\ forall k0 e,
                      In k0 rest -> worker_outcome sched c mods k0 = Raise e ->
                      In (EvLog (LogErrorPatient e))
                        (trace_of (bind m (fun _ =>
                           collect_completed sched c mods rest (S i)
                             (acc ++ [patient])) s))).
      { intros m [-> | ->].
        - rewrite bind_emit. split; [exact V|].
          intros k0 e Hk He. right. exact (L k0 e Hk He).
        - rewrite bind_ret. split; [exact V|exact L]. }
      destruct (X (if (Z.of_nat i + 1) mod Z.max 1 (population_size c / 10) =? 0
                   then emit (EvLog (LogInfoProgress (Z.of_nat i + 1)
                                       (population_size c)))
                   else ret tt)) as [V' L'].
      { destruct (_ =? 0); auto. }
      split; [exact V'|].
      intros k0 e [<- | Hk] He.
      * rewrite O in He. discriminate He.
      * apply in_or_app. right. exact (L' k0 e Hk He).
    + destruct (IH (S i) acc) as [V L].
      rewrite bind_emit. split; [exact V|].
      intros k0 e [<- | Hk] He.
      * rewrite O in He. inversion He; subst.
        apply in_or_app. right. left. reflexivity.
      * apply in_or_app. right. right. exact (L k0 e Hk He).
Qed.

(** In the pooled path a failing ordinal is logged and dropped, and the
    run goes on. *)
Lemma pooled_population_never_raises envs sched c mods s :
  10 < population_size c -> 1 < max_workers c ->
  exists ps t,
    generate_population envs sched c mods s
    = (Ok ps, state_of (Generator_init s), t).
Proof.
  intros H1 H2.
  destruct (generate_population_run envs sched c mods s) as (pf & s' & G & E).
  rewrite E, G. cbv zeta. cbn [state_of fst snd].
  destruct (Z.leb_spec (population_size c) 10); [lia|].
  destruct (Z.eqb_spec (max_workers c) 1); [lia|].
  destruct (Z.leb_spec (max_workers c) 0); [lia|].
  cbn [orb].
  destruct (collect_completed_total sched c mods (completion_order sched)
              0%nat [] s') as (ps & t & C).
  rewrite C. do 2 eexists. reflexivity.
Qed.

(** C2, at the failing input.  With a population of 3 (at most 10, hence
    generated sequentially) and age bounds that make every patient fail,
    [_generate_population] raises the [ValueError] of ordinal 0.  All that
    happens before is the sixty draws of the generator's constructor and
    the two draws (gender, race) of ordinal 0: nothing is logged, nothing
    is dropped, ordinals 1 and 2 are never tried. *)
Theorem sequential_population_aborts_on_failure (sched : Schedule) (s : rng) :
  value_of (generate_population (fun _ => example_env) sched
              inverted_ages_config [] s)
  = Raise ValueError
  /\ trace_of (generate_population (fun _ => example_env) sched
                 inverted_ages_config [] s)
     = repeat EvDraw 60 ++ [EvDraw; EvDraw].
Proof.
  destruct (generate_population_run (fun _ => example_env) sched
              inverted_ages_config [] s) as (pf & s0 & _ & P).
  rewrite P. clear P. cbv zeta.
  change (population_size inverted_ages_config <=? 10) with true.
  cbn [orb].
  change (seq 0 (Z.to_nat (population_size inverted_ages_config)))
    with [0; 1; 2]%nat.
  cbn [generate_sequential]. unfold generate_patient.
  change (env_recursion_limit example_env) with (S 999).
  destruct (generate_demographics_inverted example_env inverted_ages_config
              0 s0 ltac:(cbn; lia)) as (s' & E).
  assert (A : generate_attempt example_env inverted_ages_config [] 0 s0
              = (Raise ValueError, s', [EvDraw; EvDraw])).
  { unfold generate_attempt.
    change (seed inverted_ages_config) with (@None Z). cbv iota.
    rewrite bind_ret. apply bind_raise. exact E. }
  assert (G : generate_patient_rec (S 999) example_env inverted_ages_config [] 0 s0
              = (Raise ValueError, s', [EvDraw; EvDraw])).
  { rewrite generate_patient_rec_S. apply bind_raise. exact A. }
  rewrite (bind_raise _ _ _ _ _ _ G). split; reflexivity.
Qed.

(** C9 (as amended).  A configuration whose output format is not one of
    fhir, json and csv is rejected by [Config.__post_init__]: with
    [ValueError] when the output directory could be made, and with the
    [OSError] of [os.makedirs], which is called first, when it could
    not.  Either way the run ends there, before any module is loaded and
    before any draw is made, whatever the age bounds. *)
Theorem unsupported_format_rejected_before_generation
    env envs sched dir c s :
  supported_format (output_format c) = false ->
  value_of (simulate env envs sched dir c s)
  = Raise (if env_makedirs env (absolute env (output_dir c))
           then ValueError else OSError)
  /\ trace_of (simulate env envs sched dir c s) = [].
Proof.
  intros H. unfold simulate.
  pose proof (Config_post_init_value env c s) as V.
  pose proof (Config_post_init_trace env c s) as T.
  rewrite H in V. cbn [negb] in V.
  destruct (Config_post_init env c s) as [[r s1] t] eqn:E.
  unfold value_of, trace_of in V, T. cbn [fst snd] in V, T. subst t.
  destruct (env_makedirs env (absolute env (output_dir c)));
    cbn [negb] in V; subst r;
    rewrite (bind_raise _ _ _ _ _ _ E); split; reflexivity.
Qed.

(** Age bounds are not looked at by [Config.__post_init__]. *)
Lemma Config_post_init_ignores_ages env c s lo hi :
  result_map gender_ratio (value_of (Config_post_init env c s))
  = result_map gender_ratio
      (value_of (Config_post_init env
         {| population_size := population_size c; min_age := lo;
            max_age := hi; seed := seed c; modules_dir := modules_dir c;
            output_dir := output_dir c; output_format := output_format c;
            gender_ratio := gender_ratio c; max_workers := max_workers c;
            generate_only_living_patients := generate_only_living_patients c |} s)).
Proof.
  rewrite !Config_post_init_value.
  cbn [seed output_format gender_ratio modules_dir output_dir].
  destruct (negb (env_makedirs _ _)); [reflexivity|].
  destruct (negb (supported_format _)); [reflexivity|].
  cbv zeta. destruct (needs_normalizing _); [|reflexivity].
  destruct (normalize_ratio _ _); reflexivity.
Qed.

End Failures.

(** A configuration with [min_age > max_age] passes construction; the
    run starts generating patient 0 and fails there, after the draws for
    gender and race. *)
Lemma inverted_ages_fail_during_generation :
  min_age inverted_ages_config > max_age inverted_ages_config
  /\ is_ok (value_of (Config_post_init example_env inverted_ages_config
                        (rng_seed 0))) = true
  /\ value_of (simulate example_env (fun _ => example_env) example_schedule []
                 inverted_ages_config (rng_seed 0))
     = Raise ValueError
  /\ draws (trace_of (simulate example_env (fun _ => example_env)
                        example_schedule [] inverted_ages_config (rng_seed 0)))
     = (60 + 2)%nat.
Proof. vm_compute. auto. Qed.

Lemma unsupported_format_rejected_before_generation_witness :
  supported_format (output_format unsupported_format_config) = false
  /\ env_makedirs example_env
       (absolute example_env (output_dir unsupported_format_config)) = true
  /\ value_of (simulate example_env (fun _ => example_env) example_schedule []
                 unsupported_format_config (rng_seed 0))
     = Raise ValueError
  /\ trace_of (simulate example_env (fun _ => example_env) example_schedule []
                 unsupported_format_config (rng_seed 0))
     = [].
Proof.
  assert (H : supported_format (output_format unsupported_format_config) = false)
    by reflexivity.
  split; [exact H|]. split; [reflexivity|].
  exact (unsupported_format_rejected_before_generation example_env
           (fun _ => example_env) example_schedule [] unsupported_format_config
           (rng_seed 0) H).
Defined.

(** ** Reproducibility *)

(** The patient with its construction instant erased. *)
Definition without_created_at (p : Patient) : Patient := set_created_at 0 p.

Section Reproducibility.

Context {RS : RandomSource}.

Definition mmap {A B} (f : A -> B) (m : M A) : M B :=
  fun s => match m s with (r, s', t) => (result_map f r, s', t) end.

Lemma mmap_bind {A B C} (f : B -> C) (m : M A) (k : A -> M B) s :
  mmap f (bind m k) s = bind m (fun a => mmap f (k a)) s.
Proof.
  unfold mmap, bind. destruct (m s) as [[[a|e] s1] t1]; [|reflexivity].
  destruct (k a s1) as [[r s2] t2]. reflexivity.
Qed.

Lemma bind_mmap {A B C} (f : A -> B) (m : M A) (k : B -> M C) s :
  bind (mmap f m) k s = bind m (fun a => k (f a)) s.
Proof.
  unfold mmap, bind. destruct (m s) as [[[a|e] s1] t1]; reflexivity.
Qed.

Lemma bind_ext {A B} (m : M A) (k1 k2 : A -> M B) s :
  (forall a s', k1 a s' = k2 a s') -> bind m k1 s = bind m k2 s.
Proof.
  intros H. unfold bind. destruct (m s) as [[[a|e] s1] t1]; [|reflexivity].
  rewrite H. reflexivity.
Qed.

Lemma bind_ext_l {A B} (m1 m2 : M A) (k : A -> M B) s :
  m1 s = m2 s -> bind m1 k s = bind m2 k s.
Proof. intros H. unfold bind. rewrite H. reflexivity. Qed.

(** The simulation never reads [created_at]: changing it in the patient
    given to a function changes it in the patient handed back, and
    nothing else. *)
Lemma process_states_created_at a n sts p d s :
  process_states n sts (set_created_at a p) d s
  = mmap (set_created_at a) (process_states n sts p d) s.
Proof.
  revert s. induction sts as [|st rest IH]; intros s; [reflexivity|].
  cbn [process_states].
  destruct (String.eqb (state_type st) "Death"); [|apply IH].
  rewrite mmap_bind. apply bind_ext. intros x s'.
  destruct (Qltb x (death_prob st)); [reflexivity|apply IH].
Qed.

Lemma process_module_created_at a m p d s :
  process_module m (set_created_at a p) d s
  = mmap (set_created_at a) (process_module m p d) s.
Proof.
  unfold process_module. destruct (m_states m); [|reflexivity].
  apply process_states_created_at.
Qed.

Lemma eval_modules_created_at a mods p ac d s :
  eval_modules mods (set_created_at a p) ac d s
  = mmap (set_created_at a) (eval_modules mods p ac d) s.
Proof.
  revert p s. induction mods as [|m rest IH]; intros p s; [reflexivity|].
  cbn [eval_modules].
  change (should_run_module m (set_created_at a p) ac)
    with (should_run_module m p ac).
  rewrite mmap_bind. apply bind_ext. intros run s1.
  rewrite mmap_bind. apply bind_ext. intros _ s2.
  rewrite mmap_bind.
  destruct run.
  - rewrite (bind_ext_l _ _ _ _ (process_module_created_at a m p d s2)).
    rewrite bind_mmap. apply bind_ext. intros p1 s3. apply IH.
  - rewrite !bind_ret. apply IH.
Qed.

Definition stamp_snd (a : Z) (cp : date * Patient) : date * Patient :=
  (fst cp, set_created_at a (snd cp)).

Lemma while_loop_created_at a fuel mods end_date cur p s :
  while_loop fuel mods end_date cur (set_created_at a p) s
  = mmap (stamp_snd a) (while_loop fuel mods end_date cur p) s.
Proof.
  revert cur p s. induction fuel as [|k IH]; intros cur p s; [reflexivity|].
  cbn [while_loop].
  change (is_alive (set_created_at a p)) with (is_alive p).
  change (birth_date (set_created_at a p)) with (birth_date p).
  destruct ((cur <=? end_date) && is_alive p); [|reflexivity].
  destruct (cur - birth_date p <? 0).
  - rewrite mmap_bind. apply bind_ext. intros d s1. apply IH.
  - rewrite (bind_ext_l _ _ _ _ (eval_modules_created_at a mods p [] cur s)).
    rewrite bind_mmap, mmap_bind. apply bind_ext. intros p1 s1.
    rewrite mmap_bind. apply bind_ext. intros d s2. apply IH.
Qed.

Lemma run_modules_created_at a env mods p s :
  run_modules env mods (set_created_at a p) s
  = mmap (set_created_at a) (run_modules env mods p) s.
Proof.
  unfold run_modules.
  change (birth_date (set_created_at a p)) with (birth_date p).
  rewrite (bind_ext_l _ _ _ _
             (while_loop_created_at a _ _ _ _ p s)).
  rewrite bind_mmap, mmap_bind. apply bind_ext. intros [c pl] s1.
  cbn [stamp_snd fst snd].
  change (is_alive (set_created_at a pl)) with (is_alive pl).
  change (death_date (set_created_at a pl)) with (death_date pl).
  destruct (negb (is_alive pl)); [|reflexivity].
  destruct (death_date pl); [reflexivity|].
  rewrite mmap_bind. apply bind_ext. intros k s2.
  rewrite mmap_bind. apply bind_ext. intros d s3. reflexivity.
Qed.

(** [run_modules] reads the surroundings only for the calendar day. *)
Lemma run_modules_same_day env1 env2 mods p s :
  env_today env1 = env_today env2 ->
  run_modules env1 mods p s = run_modules env2 mods p s.
Proof.
  intros H. unfold run_modules, today, today_year, today_month, today_day.
  rewrite H. reflexivity.
Qed.

(** Demographics read the surroundings for the calendar day and for the
    instant stored in [created_at]. *)
Lemma generate_demographics_same_day env1 env2 c i s :
  env_today env1 = env_today env2 ->
  mmap without_created_at (generate_demographics env1 c i) s
  = mmap without_created_at (generate_demographics env2 c i) s.
Proof.
  intros H. unfold generate_demographics, today_year, today_month, today_day.
  rewrite H.
  repeat (rewrite !mmap_bind; apply bind_ext; intros; cbv zeta).
  reflexivity.
Qed.

Lemma generate_attempt_same_day env1 env2 c mods i s :
  env_today env1 = env_today env2 ->
  mmap without_created_at (generate_attempt env1 c mods i) s
  = mmap without_created_at (generate_attempt env2 c mods i) s.
Proof.
  intros H. unfold generate_attempt.
  rewrite !mmap_bind. apply bind_ext. intros _ s1.
  transitivity
    (bind (mmap without_created_at (generate_demographics env1 c i))
       (run_modules env1 mods) s1).
  - rewrite bind_mmap, mmap_bind. apply bind_ext. intros p s2.
    symmetry. apply run_modules_created_at.
  - rewrite (bind_ext_l _ _ _ _ (generate_demographics_same_day env1 env2 c i s1 H)).
    rewrite bind_mmap, mmap_bind. apply bind_ext. intros p s2.
    rewrite (run_modules_same_day env1 env2 mods _ s2 H).
    apply run_modules_created_at.
Qed.

Lemma without_created_at_alive p1 p2 :
  without_created_at p1 = without_created_at p2 -> is_alive p1 = is_alive p2.
Proof. intros H. exact (f_equal is_alive H). Qed.

(** C1 (as amended).  With a seed, two calls of [generate_patient] for the
    same ordinal on the same calendar day hand back patients that agree
    on every field except [created_at] (or raise the same exception),
    whatever the state of the generator when each call starts (the other
    patients the process generated before, in whatever order), the
    instant of the call and the recursion limit of the process. *)
Theorem seeded_generation_is_reproducible env1 env2 c mods i sd s1 s2 :
  seed c = Some sd ->
  env_today env1 = env_today env2 ->
  env_recursion_limit env1 <> 0%nat ->
  env_recursion_limit env2 <> 0%nat ->
  result_map without_created_at (value_of (generate_patient env1 c mods i s1))
  = result_map without_created_at (value_of (generate_patient env2 c mods i s2)).
Proof.
  intros Hs Hd L1 L2. unfold generate_patient.
  destruct (env_recursion_limit env1) as [|d1]; [congruence|].
  destruct (env_recursion_limit env2) as [|d2]; [congruence|].
  pose proof (generate_attempt_same_day env1 env2 c mods i s1 Hd) as Eq.
  unfold mmap in Eq.
  rewrite (seeded_attempt_ignores_state env2 c mods i sd s1 s2 Hs) in Eq.
  pose proof (seeded_retry_never_succeeds env1 c mods i sd s1) as R1.
  pose proof (seeded_retry_never_succeeds env2 c mods i sd s2) as R2.
  rewrite !generate_patient_rec_S. unfold bind at 1 2.
  destruct (generate_attempt env1 c mods i s1) as [[r1 st1] t1].
  destruct (generate_attempt env2 c mods i s2) as [[r2 st2] t2].
  inversion Eq as [[Er Es Et]]. clear Eq. subst st2 t2.
  destruct r1 as [p1|e1]; destruct r2 as [p2|e2]; try discriminate Er.
  - assert (Ep : without_created_at p1 = without_created_at p2).
    { exact (f_equal (fun r => match r with
                               | Ok x => x
                               | Raise _ => without_created_at p1
                               end) Er). }
    pose proof (without_created_at_alive p1 p2 Ep) as Al.
    destruct (generate_only_living_patients c) eqn:Ol; cbn [andb].
    + rewrite <- Al. destruct (is_alive p1) eqn:A1; cbn [negb].
      * unfold ret, value_of. simpl. f_equal. exact Ep.
      * specialize (R1 p1 d1 st1 Hs eq_refl eq_refl A1).
        specialize (R2 p2 d2 st1 Hs eq_refl eq_refl (eq_sym Al)).
        unfold value_of in R1, R2 |- *.
        destruct (generate_patient_rec d1 env1 c mods i st1) as [[x1 y1] z1].
        destruct (generate_patient_rec d2 env2 c mods i st1) as [[x2 y2] z2].
        cbn [fst] in *. subst x1 x2. reflexivity.
    + unfold ret, value_of. simpl. f_equal. exact Ep.
  - exact Er.
Qed.

End Reproducibility.

Definition seeded_config : Config :=
  {| population_size := 3; min_age := 0; max_age := 100; seed := Some 42;
     modules_dir := "/data/modules"; output_dir := "/data/output";
     output_format := "fhir"; gender_ratio := default_gender_ratio;
     max_workers := 4; generate_only_living_patients := false |}.

(** Two runs with the same seed and ordinal, one instant apart, differ in
    the field [created_at] of the patient. *)
Lemma created_at_differs_between_runs :
  value_of (generate_patient example_env seeded_config [] 0 (rng_seed 0))
  <> value_of (generate_patient (with_now example_env 1) seeded_config [] 0
                 (rng_seed 0)).
Proof. vm_compute. discriminate. Qed.

Lemma seeded_generation_is_reproducible_witness :
  seed seeded_config = Some 42
  /\ result_map without_created_at
       (value_of (generate_patient example_env seeded_config [always_die] 2
                    (rng_seed 7)))
     = result_map without_created_at
         (value_of (generate_patient
                      (with_recursion_limit (with_now example_env 1) 50)
                      seeded_config [always_die] 2 (rng_seed 11))).
Proof.
  split; [reflexivity|].
  apply (seeded_generation_is_reproducible example_env
           (with_recursion_limit (with_now example_env 1) 50)
           seeded_config [always_die] 2 42 (rng_seed 7) (rng_seed 11)).
  - reflexivity.
  - reflexivity.
  - vm_compute. discriminate.
  - vm_compute. discriminate.
Defined.

(** * Further properties of the engine *)

(** ** Patient identifiers *)

(** Reading an identifier back: the letter [p], then decimal digits. *)
Definition parse_patient_id (s : string) : option nat :=
  match s with
  | String "p" digits =>
      match digits with
      | EmptyString => None
      | _ => option_map Nat.of_uint (NilEmpty.uint_of_string digits)
      end
  | _ => None
  end.

Definition patient_id_string (patient_id : nat) : string :=
  ("p" ++ format_06d patient_id)%string.

Lemma string_length_app (a b : string) :
  String.length (a ++ b)%string = (String.length a + String.length b)%nat.
Proof. induction a as [|c a IH]; simpl; [reflexivity|]. rewrite IH. reflexivity. Qed.

Lemma zeros_length k : String.length (zeros k) = k.
Proof. induction k as [|k IH]; simpl; [reflexivity|]. rewrite IH. reflexivity. Qed.

Lemma parse_zeros k s :
  option_map Nat.of_uint (NilEmpty.uint_of_string (zeros k ++ s)%string)
  = option_map Nat.of_uint (NilEmpty.uint_of_string s).
Proof.
  induction k as [|k IH]; [reflexivity|].
  cbn [zeros append NilEmpty.uint_of_string]. rewrite <- IH.
  destruct (NilEmpty.uint_of_string (zeros k ++ s)%string); reflexivity.
Qed.

Lemma parse_str_of_nat n :
  option_map Nat.of_uint (NilEmpty.uint_of_string (str_of_nat n)) = Some n.
Proof.
  unfold str_of_nat.
  pose proof (DecimalNat.Unsigned.of_to n) as R.
  destruct (Nat.to_uint n) as [| | | | | | | | | |] eqn:E;
    try (unfold NilZero.string_of_uint; rewrite NilEmpty.usu; simpl option_map;
         rewrite R; reflexivity).
  simpl in *. rewrite <- R. reflexivity.
Qed.

Lemma str_of_nat_nonempty n : str_of_nat n <> EmptyString.
Proof.
  unfold str_of_nat.
  destruct (Nat.to_uint n); simpl; discriminate.
Qed.

(** X1.  The identifier given to ordinal [n] reads back as [n], so
    different ordinals get different identifiers; it always has at least
    six digits after the letter. *)
Theorem patient_id_round_trip (n : nat) :
  parse_patient_id (patient_id_string n) = Some n
  /\ (7 <= String.length (patient_id_string n))%nat.
Proof.
  unfold patient_id_string, format_06d. split.
  - cbn [append parse_patient_id].
    assert (N : (zeros (6 - String.length (str_of_nat n)) ++ str_of_nat n)%string
                <> EmptyString).
    { pose proof (str_of_nat_nonempty n) as Hn.
      destruct (zeros _); simpl; [exact Hn|discriminate]. }
    destruct (zeros (6 - String.length (str_of_nat n)) ++ str_of_nat n)%string
      eqn:E; [congruence|].
    rewrite <- E, parse_zeros. apply parse_str_of_nat.
  - cbn [append String.length]. rewrite string_length_app, zeros_length. lia.
Qed.

(** ** Reading results back out of the monad *)

Section Inversion.

Context {RS : RandomSource}.

Lemma bind_inv_ok {A B} (m : M A) (k : A -> M B) s b s' t :
  bind m k s = (Ok b, s', t) ->
  exists a s1 t1 t2,
    m s = (Ok a, s1, t1) /\ k a s1 = (Ok b, s', t2) /\ t = t1 ++ t2.
Proof.
  unfold bind. destruct (m s) as [[[a|e] s1] t1]; [|discriminate].
  destruct (k a s1) as [[r s2] t2] eqn:K. intros H. inversion H; subst.
  exists a, s1, t1, t2. split; [reflexivity|]. split; [exact K|reflexivity].
Qed.

Lemma bind_value_ok {A B} (m : M A) (k : A -> M B) s b :
  value_of (bind m k s) = Ok b ->
  exists a s1 t1, m s = (Ok a, s1, t1) /\ value_of (k a s1) = Ok b.
Proof.
  unfold bind. destruct (m s) as [[[a|e] s1] t1]; [|discriminate].
  destruct (k a s1) as [[r s2] t2] eqn:K. intros H.
  exists a, s1, t1. split; [reflexivity|]. rewrite K. exact H.
Qed.

Lemma ret_inv {A} (a b : A) s s' t :
  ret a s = (Ok b, s', t) -> b = a /\ s' = s /\ t = [].
Proof. unfold ret. intros H. inversion H. auto. Qed.

Lemma lift_inv {A} (r : result A) (b : A) s s' t :
  lift r s = (Ok b, s', t) -> r = Ok b /\ s' = s /\ t = [].
Proof. unfold lift. intros H. inversion H. auto. Qed.

Lemma random_inv x s s' t :
  random s = (Ok x, s', t) -> (0 <= x)%Q /\ (x < 1)%Q /\ t = [EvDraw].
Proof.
  intros H. destruct (random_spec s) as (y & s1 & E & L & U).
  rewrite E in H. inversion H; subst. auto.
Qed.

Lemma randint_inv a b x s s' t :
  randint a b s = (Ok x, s', t) -> a <= x <= b /\ t = [EvDraw].
Proof.
  intros H. destruct (Z_le_gt_dec a b) as [L|G].
  - destruct (randint_spec a b s L) as (y & s1 & E & R).
    rewrite E in H. inversion H; subst. auto.
  - rewrite randint_empty in H by lia. discriminate H.
Qed.

Lemma choice_inv {A} (l : list A) x s s' t :
  choice l s = (Ok x, s', t) -> In x l /\ t = [EvDraw].
Proof.
  intros H. destruct l as [|a l]; [discriminate H|].
  destruct (choice_spec (a :: l) s ltac:(discriminate)) as (y & s1 & E & I).
  rewrite E in H. inversion H; subst. auto.
Qed.

End Inversion.

(** ** What a generated patient looks like *)

Lemma select_cumulative_in {K} (items : list (K * float)) rnd c k :
  select_cumulative items rnd c = Some k -> In k (map fst items).
Proof.
  revert c. induction items as [|[k0 v] rest IH]; intros c; simpl.
  - discriminate.
  - destruct (Qlt_float rnd (c + v)).
    + intros [= ->]. left. reflexivity.
    + intros H. right. exact (IH _ H).
Qed.

(** The facts about a patient that [_generate_demographics] hands back
    for ordinal [i]. *)
Definition demographics_of (env : Env) (c : Config) (i : nat) (p : Patient)
  : Prop :=
  exists (g : string) (y m d inc n : Z) (loc : string * string * string),
    (In g (map fst (gender_ratio c)) \/ g = "F")
    /\ (exists rnd, (0 <= rnd)%Q /\ (rnd < 1)%Q
                    /\ g = match select_cumulative (gender_ratio c) rnd 0 with
                           | Some k => k
                           | None => "F"
                           end)
    /\ today_year env - max_age c <= y <= today_year env - min_age c
    /\ ((y = today_year env /\ 1 <= m <= today_month env
         /\ 1 <= d <= (if m =? today_month env then today_day env else 28))
        \/ (y <> today_year env /\ 1 <= m <= 12 /\ 1 <= d <= 28))
    /\ mk_date y m d = Ok (birth_date p)
    /\ gender p = (if String.eqb g "M" then MALE else FEMALE)
    /\ In (first_name p)
         (if String.eqb g "M" then DEFAULT_FIRST_NAMES_MALE
          else DEFAULT_FIRST_NAMES_FEMALE)
    /\ In (last_name p) DEFAULT_LAST_NAMES
    /\ ethnicity p = Some (get_ethnicity (race p))
    /\ income p = Some inc /\ 0 <= inc <= 100000
    /\ In loc DEFAULT_LOCATIONS
    /\ state p = Some (fst (fst loc)) /\ city p = Some (snd (fst loc))
    /\ zip_code p = Some (snd loc)
    /\ address p = Some (str_of_Z n ++ " Main St")%string /\ 100 <= n <= 9999
    /\ id p = patient_id_string i /\ created_at p = env_now env
    /\ is_alive p = true /\ death_date p = None
    /\ record_entries p = [[]; []; []; []; []].

Lemma demographics_of_fresh env c i p :
  demographics_of env c i p ->
  id p = patient_id_string i /\ created_at p = env_now env
  /\ is_alive p = true /\ death_date p = None
  /\ record_entries p = [[]; []; []; []; []].
Proof.
  intros (g & y & m & d & inc & n & loc & H).
  decompose [and] H. repeat split; assumption.
Qed.

Section DemographicsInversion.

Context {RS : RandomSource}.

Lemma randomly_select_gender_inv c g s s' t :
  randomly_select_gender c s = (Ok g, s', t) ->
  (In g (map fst (gender_ratio c)) \/ g = "F")
  /\ (exists rnd, (0 <= rnd)%Q /\ (rnd < 1)%Q
                  /\ g = match select_cumulative (gender_ratio c) rnd 0 with
                         | Some k => k
                         | None => "F"
                         end).
Proof.
  unfold randomly_select_gender. intros H.
  apply bind_inv_ok in H as (x & s1 & t1 & t2 & E & H & ->).
  apply random_inv in E as (L & U & _).
  destruct (select_cumulative (gender_ratio c) x 0) as [k|] eqn:S.
  - apply ret_inv in H as (-> & _ & _). split.
    + apply select_cumulative_in in S. left. exact S.
    + exists x. rewrite S. auto.
  - apply ret_inv in H as (-> & _ & _). split.
    + right. reflexivity.
    + exists x. rewrite S. auto.
Qed.

Lemma get_first_name_inv g n s s' t :
  get_first_name g s = (Ok n, s', t) ->
  In n (if String.eqb g "M" then DEFAULT_FIRST_NAMES_MALE
        else DEFAULT_FIRST_NAMES_FEMALE).
Proof.
  unfold get_first_name. destruct (String.eqb g "M"); intros H;
    apply choice_inv in H as [I _]; exact I.
Qed.

Lemma generate_demographics_inv env c i s p s' t :
  generate_demographics env c i s = (Ok p, s', t) ->
  demographics_of env c i p.
Proof.
  unfold generate_demographics. intros H.
  apply bind_inv_ok in H as (g & s1 & t1 & t1' & E1 & H & ->).
  apply randomly_select_gender_inv in E1 as [G1 G2].
  apply bind_inv_ok in H as (r & s2 & t2 & t2' & _ & H & ->).
  cbv zeta in H.
  apply bind_inv_ok in H as (y & s3 & t3 & t3' & E3 & H & ->).
  apply randint_inv in E3 as [Ry _].
  apply bind_inv_ok in H as (md & s4 & t4 & t4' & E4 & H & ->).
  assert (MD : (y = today_year env /\ 1 <= fst md <= today_month env
                /\ 1 <= snd md <=
                   (if fst md =? today_month env then today_day env else 28))
               \/ (y <> today_year env /\ 1 <= fst md <= 12
                   /\ 1 <= snd md <= 28)).
  { destruct (Z.eqb_spec y (today_year env)) as [Ey|Ny].
    - left. split; [exact Ey|].
      apply bind_inv_ok in E4 as (m & s5 & t5 & t5' & Em & E4 & _).
      apply randint_inv in Em as [Rm _].
      apply bind_inv_ok in E4 as (d & s6 & t6 & t6' & Ed & E4 & _).
      apply randint_inv in Ed as [Rd _].
      apply ret_inv in E4 as (-> & _ & _). simpl. auto.
    - right. split; [exact Ny|].
      apply bind_inv_ok in E4 as (m & s5 & t5 & t5' & Em & E4 & _).
      apply randint_inv in Em as [Rm _].
      apply bind_inv_ok in E4 as (d & s6 & t6 & t6' & Ed & E4 & _).
      apply randint_inv in Ed as [Rd _].
      apply ret_inv in E4 as (-> & _ & _). simpl. auto. }
  apply bind_inv_ok in H as (bd & s5 & t5 & t5' & E5 & H & ->).
  apply lift_inv in E5 as (E5 & _ & _).
  apply bind_inv_ok in H as (fn & s6 & t6 & t6' & E6 & H & ->).
  apply get_first_name_inv in E6.
  apply bind_inv_ok in H as (ln & s7 & t7 & t7' & E7 & H & ->).
  apply choice_inv in E7 as [E7 _].
  apply bind_inv_ok in H as (inc & s8 & t8 & t8' & E8 & H & ->).
  apply randint_inv in E8 as [E8 _].
  apply bind_inv_ok in H as (loc & s9 & t9 & t9' & E9 & H & ->).
  apply choice_inv in E9 as [E9 _].
  apply bind_inv_ok in H as (n & s10 & t10 & t10' & E10 & H & ->).
  apply randint_inv in E10 as [E10 _].
  apply ret_inv in H as (-> & _ & _).
  exists g, y, (fst md), (snd md), inc, n, loc.
  cbn [set_location birth_date gender first_name last_name ethnicity race
       income state city zip_code address id created_at is_alive death_date
       record_entries conditions encounters medications procedures observations].
  repeat (split; [first [assumption | reflexivity]|]).
  reflexivity.
Qed.

End DemographicsInversion.

(** ** What the simulation does to a patient *)

(** Every field but [is_alive] and [death_date] is the same. *)
Definition same_person (p p' : Patient) : Prop :=
  id p' = id p /\ created_at p' = created_at p
  /\ first_name p' = first_name p /\ last_name p' = last_name p
  /\ gender p' = gender p /\ race p' = race p /\ ethnicity p' = ethnicity p
  /\ birth_date p' = birth_date p /\ income p' = income p
  /\ address p' = address p /\ city p' = city p /\ state p' = state p
  /\ zip_code p' = zip_code p
  /\ record_entries p' = record_entries p.

Lemma same_person_refl p : same_person p p.
Proof. repeat split. Qed.

Lemma same_person_set_dead p d : same_person p (set_dead p d).
Proof. repeat split. Qed.

Lemma same_person_set_death_date p d : same_person p (set_death_date p d).
Proof. repeat split. Qed.

Section Outcome.

Context {RS : RandomSource}.

(** The loop hands back the patient it was given, or that patient with a
    death recorded on a date of the simulation. *)
Lemma while_loop_shape fuel mods end_date cur p s c' p' :
  value_of (while_loop fuel mods end_date cur p s) = Ok (c', p') ->
  p' = p
  \/ exists d, p' = set_dead p d /\ is_alive p = true
               /\ cur <= d <= end_date /\ birth_date p <= d.
Proof.
  revert cur p s. induction fuel as [|k IH]; intros cur p s.
  - unfold value_of. cbn [while_loop ret fst]. intros [= _ ->]. left. reflexivity.
  - destruct (Z.leb_spec cur end_date) as [L|L].
    2:{ rewrite while_loop_past by exact L. unfold value_of. cbn [fst].
        intros [= _ ->]. left. reflexivity. }
    destruct (is_alive p) eqn:A.
    2:{ rewrite while_loop_dead by exact A. unfold value_of. cbn [fst].
        intros [= _ ->]. left. reflexivity. }
    destruct (Z.ltb_spec cur (birth_date p)) as [B|B].
    + rewrite (while_loop_skip k mods end_date cur p s L A B).
      destruct (date_add cur time_step_days) as [d|e] eqn:D;
        [|unfold value_of; cbn [fst]; discriminate].
      apply date_add_ok in D. subst d. intros H.
      destruct (IH _ _ _ H) as [-> | (d & -> & _ & R1 & R2)];
        [left; reflexivity|right].
      exists d. unfold time_step_days in *. repeat split; try reflexivity; lia.
    + destruct (while_loop_step k mods end_date cur p s L A B)
        as (p1 & s1 & t1 & _ & O & _ & _ & E).
      rewrite E. clear E.
      destruct (date_add cur time_step_days) as [d|e] eqn:D;
        [|unfold value_of; cbn [fst]; discriminate].
      apply date_add_ok in D. subst d.
      unfold value_of at 1. cbn [fst]. intros H.
      destruct O as [[-> _] | ->].
      * destruct (IH _ _ _ H) as [-> | (d & -> & _ & R1 & R2)];
          [left; reflexivity|right].
        exists d. unfold time_step_days in *. repeat split; try reflexivity; lia.
      * rewrite while_loop_dead in H by reflexivity.
        unfold value_of in H. cbn [fst] in H. injection H as _ <-.
        right. exists cur. repeat split; try reflexivity; try assumption; lia.
Qed.

(** The three ways [_run_modules] can hand a patient back. *)
Lemma run_modules_shape env mods p s p' :
  value_of (run_modules env mods p s) = Ok p' ->
  p' = p
  \/ (exists d, p' = set_dead p d /\ is_alive p = true
                /\ birth_date p <= d <= today env)
  \/ (is_alive p = false /\ death_date p = None
      /\ exists d, p' = set_death_date p d
                   /\ birth_date p - time_step_days <= d <= birth_date p).
Proof.
  unfold run_modules. intros H.
  apply bind_value_ok in H as ([c pl] & s1 & t1 & E & H).
  cbn [fst snd] in H.
  destruct (is_alive p) eqn:A.
  - assert (V : value_of (while_loop (loop_bound (birth_date p) (today env))
                            (sorted_by_priority mods) (today env)
                            (birth_date p) p s) = Ok (c, pl))
      by (rewrite E; reflexivity).
    apply while_loop_shape in V.
    destruct V as [-> | (d & -> & _ & R1 & R2)].
    + rewrite A in H. cbn [negb] in H.
      unfold ret, value_of in H. cbn [fst] in H. injection H as <-.
      left. reflexivity.
    + cbn [is_alive set_dead negb death_date] in H.
      unfold ret, value_of in H. cbn [fst] in H. injection H as <-.
      right. left. exists d. repeat split; try reflexivity; lia.
  - rewrite while_loop_dead in E by exact A.
    injection E as <- <- _ _. rewrite A in H. cbn [negb] in H.
    destruct (death_date p) eqn:DD.
    + unfold ret, value_of in H. cbn [fst] in H. injection H as <-.
      left. reflexivity.
    + apply bind_value_ok in H as (k & s2 & t2 & Ek & H).
      apply randint_inv in Ek as [Rk _].
      apply bind_value_ok in H as (d & s3 & t3 & Ed & H).
      apply lift_inv in Ed as (Ed & _ & _). apply date_add_ok in Ed.
      unfold ret, value_of in H. cbn [fst] in H. injection H as <-.
      right. right. repeat split; try reflexivity.
      exists d. split; [reflexivity|]. lia.
Qed.

(** X2.  [_run_modules] changes nothing of a patient but [is_alive] and
    [death_date]: identity, demographics, address and the five clinical
    record lists come back as they went in, whatever the modules. *)
Theorem run_modules_keeps_the_person env mods p s p' :
  value_of (run_modules env mods p s) = Ok p' -> same_person p p'.
Proof.
  intros H. apply run_modules_shape in H.
  destruct H as [-> | [(d & -> & _) | (_ & _ & d & -> & _)]].
  - apply same_person_refl.
  - apply same_person_set_dead.
  - apply same_person_set_death_date.
Qed.

(** X3.  A patient who is alive when [_run_modules] starts comes back
    either untouched (and alive), or dead with a death date between the
    birth date and today. *)
Theorem run_modules_death_date_in_lifetime env mods p s p' :
  is_alive p = true ->
  value_of (run_modules env mods p s) = Ok p' ->
  (is_alive p' = true /\ p' = p)
  \/ (is_alive p' = false
      /\ exists d, death_date p' = Some d /\ birth_date p <= d <= today env).
Proof.
  intros A H. apply run_modules_shape in H.
  destruct H as [-> | [(d & -> & _ & R) | (A' & _)]].
  - left. auto.
  - right. split; [reflexivity|]. exists d. split; [reflexivity|exact R].
  - congruence.
Qed.

(** X4.  A patient who is already dead and has no death date when
    [_run_modules] starts is not simulated at all: no module is
    evaluated, one draw is made, and the death date assigned lies in the
    week that ends on the birth date, so never after the birth. *)
Theorem run_modules_dates_unrecorded_death_before_birth env mods p s p' :
  is_alive p = false -> death_date p = None ->
  value_of (run_modules env mods p s) = Ok p' ->
  trace_of (run_modules env mods p s) = [EvDraw]
  /\ is_alive p' = false
  /\ exists d, death_date p' = Some d
               /\ birth_date p - 7 <= d <= birth_date p.
Proof.
  intros A DD H.
  destruct (randint_spec 0 time_step_days s ltac:(unfold time_step_days; lia))
    as (k & s2 & Ek & Rk).
  assert (R : run_modules env mods p s
              = match date_add (birth_date p) (- k) with
                | Ok d => (Ok (set_death_date p d), s2, [EvDraw])
                | Raise e => (Raise e, s2, [EvDraw])
                end).
  { unfold run_modules.
    rewrite (bind_ok _ _ _ _ _ _ (while_loop_dead _ _ _ _ p s A)).
    cbn [fst snd value_of state_of trace_of app].
    rewrite A, DD. cbn [negb].
    rewrite (bind_ok _ _ _ _ _ _ Ek).
    destruct (date_add (birth_date p) (- k)) as [d|e].
    - rewrite bind_lift_ok. reflexivity.
    - rewrite bind_lift_raise. reflexivity. }
  rewrite R in *.
  destruct (date_add (birth_date p) (- k)) as [d|e] eqn:D;
    [|discriminate H].
  apply date_add_ok in D.
  unfold value_of in H. cbn [fst] in H. injection H as <-.
  split; [reflexivity|]. split; [exact A|].
  exists d. split; [reflexivity|]. unfold time_step_days in Rk. lia.
Qed.

End Outcome.

(** ** What [generate_patient] hands back *)

Section GeneratedPatient.

Context {RS : RandomSource}.

Lemma generate_attempt_inv env c mods i s p s' t :
  generate_attempt env c mods i s = (Ok p, s', t) ->
  exists p0 s1,
    demographics_of env c i p0
    /\ value_of (run_modules env mods p0 s1) = Ok p.
Proof.
  unfold generate_attempt. intros H.
  apply bind_inv_ok in H as (u & s0 & t0 & t0' & _ & H & _).
  apply bind_inv_ok in H as (p0 & s1 & t1 & t1' & E & H & _).
  exists p0, s1. split.
  - exact (generate_demographics_inv _ _ _ _ _ _ _ E).
  - rewrite H. reflexivity.
Qed.

(** A patient handed back by [generate_patient] comes from one pass of
    demographics followed by the simulation; in only-living mode that
    pass left the patient alive. *)
Lemma generate_patient_rec_inv depth env c mods i s p :
  value_of (generate_patient_rec depth env c mods i s) = Ok p ->
  exists p0 s1,
    demographics_of env c i p0
    /\ value_of (run_modules env mods p0 s1) = Ok p
    /\ (generate_only_living_patients c = true -> is_alive p = true).
Proof.
  revert s. induction depth as [|d IH]; intros s; [discriminate|].
  rewrite generate_patient_rec_S. intros H.
  apply bind_value_ok in H as (a & s1 & t1 & E & H).
  destruct (generate_only_living_patients c && negb (is_alive a)) eqn:C.
  - exact (IH _ H).
  - unfold ret, value_of in H. cbn [fst] in H. injection H as <-.
    destruct (generate_attempt_inv _ _ _ _ _ _ _ _ E) as (p0 & s0 & D & R).
    exists p0, s0. repeat split; try assumption.
    intros L. rewrite L in C. cbn [andb] in C.
    destruct (is_alive a); [reflexivity|discriminate C].
Qed.

Lemma generate_patient_inv env c mods i s p :
  value_of (generate_patient env c mods i s) = Ok p ->
  exists p0,
    demographics_of env c i p0
    /\ (p = p0
        \/ exists d, p = set_dead p0 d /\ birth_date p0 <= d <= today env)
    /\ (generate_only_living_patients c = true -> is_alive p = true).
Proof.
  unfold generate_patient. intros H.
  apply generate_patient_rec_inv in H as (p0 & s1 & D & R & L).
  exists p0. split; [exact D|]. split; [|exact L].
  assert (A : is_alive p0 = true)
    by (apply (demographics_of_fresh env c i p0 D)).
  apply run_modules_shape in R.
  destruct R as [-> | [(d & -> & _ & R) | (A' & _)]].
  - left. reflexivity.
  - right. exists d. auto.
  - congruence.
Qed.

End GeneratedPatient.

Lemma demographics_of_names env c i p :
  demographics_of env c i p ->
  In (first_name p)
     (match gender p with
      | MALE => DEFAULT_FIRST_NAMES_MALE
      | FEMALE => DEFAULT_FIRST_NAMES_FEMALE
      end)
  /\ In (last_name p) DEFAULT_LAST_NAMES
  /\ ethnicity p = Some (get_ethnicity (race p)).
Proof.
  intros (g & y & m & d & inc & n & loc & H).
  decompose [and] H.
  match goal with G : gender p = _ |- _ => rewrite G end.
  destruct (String.eqb g "M"); repeat split; assumption.
Qed.

Lemma demographics_of_gender env c i p :
  demographics_of env c i p ->
  ~ In "M" (map fst (gender_ratio c)) -> gender p = FEMALE.
Proof.
  intros (g & y & m & d & inc & n & loc & H) N.
  decompose [and] H.
  match goal with G : gender p = _ |- _ => rewrite G end.
  destruct (String.eqb_spec g "M") as [-> |_]; [|reflexivity].
  match goal with G : _ \/ _ = "F" |- _ => destruct G as [G|G] end;
    [contradiction|discriminate].
Qed.

Lemma demographics_of_contact env c i p :
  demographics_of env c i p ->
  exists loc n inc,
    In loc DEFAULT_LOCATIONS
    /\ state p = Some (fst (fst loc)) /\ city p = Some (snd (fst loc))
    /\ zip_code p = Some (snd loc)
    /\ address p = Some (str_of_Z n ++ " Main St")%string /\ 100 <= n <= 9999
    /\ income p = Some inc /\ 0 <= inc <= 100000.
Proof.
  intros (g & y & m & d & inc & n & loc & H).
  decompose [and] H. exists loc, n, inc. repeat split; assumption.
Qed.

Lemma mk_date_ok y m d bd :
  mk_date y m d = Ok bd ->
  bd = ymd2ord y m d /\ 1 <= y <= 9999 /\ 1 <= m <= 12
  /\ 1 <= d <= days_in_month y m.
Proof.
  unfold mk_date. intros H.
  destruct (Z.leb_spec 1 y); [|discriminate H].
  destruct (Z.leb_spec y 9999); [|discriminate H].
  destruct (Z.leb_spec 1 m); [|discriminate H].
  destruct (Z.leb_spec m 12); [|discriminate H].
  destruct (Z.leb_spec 1 d); [|discriminate H].
  destruct (Z.leb_spec d (days_in_month y m)); [|discriminate H].
  cbn in H. injection H as <-. repeat split; assumption.
Qed.

Lemma demographics_of_birth env c i p :
  demographics_of env c i p ->
  valid_today env -> 0 <= min_age c ->
  ymd2ord (today_year env - max_age c) 1 1 <= birth_date p <= today env.
Proof.
  intros (g & y & m & d & inc & n & loc & H) (Vy & Vm & Vd) A.
  destruct H as (_ & _ & Ry & B & K & _).
  apply mk_date_ok in K as (-> & Ky & Km & Kd).
  pose proof (days_in_month_min (today_year env) (today_month env)).
  split.
  - apply ymd2ord_le; try lia.
  - unfold today. apply ymd2ord_le; try lia.
    destruct B as [(-> & Rm & Rd) | (Ny & Rm & Rd)].
    + destruct (Z.eqb_spec m (today_month env)); lia.
    + lia.
Qed.

Definition mortality_module : ModuleDef :=
  module_with_states "mortality" [death_state (1 # 100)].

(** The patient of ordinal 5 in a seeded run with one mortality module. *)
Definition generated_example : Patient :=
  Eval vm_compute in
    match value_of (generate_patient example_env seeded_config
                      [mortality_module] 5 (rng_seed 0)) with
    | Ok p => p
    | Raise _ => example_patient
    end.

Lemma generated_example_run :
  value_of (generate_patient example_env seeded_config [mortality_module] 5
              (rng_seed 0))
  = Ok generated_example.
Proof. vm_compute. reflexivity. Qed.

Section GeneratedPatientFacts.

Context {RS : RandomSource}.

Lemma generate_patient_same_person env c mods i s p :
  value_of (generate_patient env c mods i s) = Ok p ->
  exists p0, demographics_of env c i p0 /\ same_person p0 p.
Proof.
  intros H. apply generate_patient_inv in H as (p0 & D & S & _).
  exists p0. split; [exact D|].
  destruct S as [-> | (d & -> & _)].
  - apply same_person_refl.
  - apply same_person_set_dead.
Qed.

(** X5.  Every patient handed back by [generate_patient] has the
    identifier of its ordinal, the construction instant of the call, and
    an empty clinical record: generation never adds a condition, an
    encounter, a medication, a procedure or an observation. *)
Theorem generated_patient_has_empty_record env c mods i s p :
  value_of (generate_patient env c mods i s) = Ok p ->
  id p = patient_id_string i /\ created_at p = env_now env
  /\ conditions p = [] /\ encounters p = [] /\ medications p = []
  /\ procedures p = [] /\ observations p = [].
Proof.
  intros H. apply generate_patient_same_person in H as (p0 & D & S).
  apply demographics_of_fresh in D as (I & C & _ & _ & R).
  unfold same_person in S. decompose [and] S.
  assert (R' : record_entries p = [[]; []; []; []; []]) by congruence.
  unfold record_entries in R'. injection R' as -> -> -> -> ->.
  repeat split; congruence.
Qed.

(** X6.  The first name of a generated patient comes from the table of
    the patient's gender, the last name from the table of last names,
    and the ethnicity is the one the patient's race maps to. *)
Theorem generated_names_match_gender_and_race env c mods i s p :
  value_of (generate_patient env c mods i s) = Ok p ->
  In (first_name p)
     (match gender p with
      | MALE => DEFAULT_FIRST_NAMES_MALE
      | FEMALE => DEFAULT_FIRST_NAMES_FEMALE
      end)
  /\ In (last_name p) DEFAULT_LAST_NAMES
  /\ ethnicity p = Some (get_ethnicity (race p)).
Proof.
  intros H. apply generate_patient_same_person in H as (p0 & D & S).
  apply demographics_of_names in D.
  unfold same_person in S. decompose [and] S.
  repeat match goal with E : _ p = _ p0 |- _ => rewrite E; clear E end.
  exact D.
Qed.

(** X7.  State, city and zip code of a generated patient are those of
    one row of the location table, the address is a house number between
    100 and 9999 on Main St, and the income lies between 0 and 100000. *)
Theorem generated_contact_is_consistent env c mods i s p :
  value_of (generate_patient env c mods i s) = Ok p ->
  exists loc n inc,
    In loc DEFAULT_LOCATIONS
    /\ state p = Some (fst (fst loc)) /\ city p = Some (snd (fst loc))
    /\ zip_code p = Some (snd loc)
    /\ address p = Some (str_of_Z n ++ " Main St")%string /\ 100 <= n <= 9999
    /\ income p = Some inc /\ 0 <= inc <= 100000.
Proof.
  intros H. apply generate_patient_same_person in H as (p0 & D & S).
  apply demographics_of_contact in D.
  unfold same_person in S. decompose [and] S.
  repeat match goal with E : _ p = _ p0 |- _ => rewrite E; clear E end.
  exact D.
Qed.

(** X8.  With a real calendar day and a non-negative [min_age], a
    generated patient is born no earlier than the first of January of
    the year [today.year - max_age] and no later than today. *)
Theorem generated_birth_date_within_age_bounds env c mods i s p :
  valid_today env -> 0 <= min_age c ->
  value_of (generate_patient env c mods i s) = Ok p ->
  ymd2ord (today_year env - max_age c) 1 1 <= birth_date p <= today env.
Proof.
  intros V A H. apply generate_patient_same_person in H as (p0 & D & S).
  pose proof (demographics_of_birth env c i p0 D V A) as B.
  unfold same_person in S. decompose [and] S.
  replace (birth_date p) with (birth_date p0) by congruence. exact B.
Qed.

(** X9.  A generated patient is either alive without a death date, or
    dead with a death date between the birth date and today. *)
Theorem generated_vital_status_is_consistent env c mods i s p :
  value_of (generate_patient env c mods i s) = Ok p ->
  (is_alive p = true /\ death_date p = None)
  \/ (is_alive p = false
      /\ exists d, death_date p = Some d /\ birth_date p <= d <= today env).
Proof.
  intros H. apply generate_patient_inv in H as (p0 & D & S & _).
  apply demographics_of_fresh in D as (_ & _ & A & N & _).
  destruct S as [-> | (d & -> & R)].
  - left. auto.
  - right. split; [reflexivity|]. exists d. split; [reflexivity|exact R].
Qed.

(** X10.  In only-living mode [generate_patient] never hands back a dead
    patient: what it returns is alive and has no death date. *)
Theorem only_living_returns_living_patients env c mods i s p :
  generate_only_living_patients c = true ->
  value_of (generate_patient env c mods i s) = Ok p ->
  is_alive p = true /\ death_date p = None.
Proof.
  intros L H. apply generate_patient_inv in H as (p0 & D & S & A).
  specialize (A L).
  apply demographics_of_fresh in D as (_ & _ & _ & N & _).
  destruct S as [-> | (d & -> & _)]; [auto|discriminate A].
Qed.

(** X11.  Only the key ["M"] of [gender_ratio] makes a patient male: when
    the ratio has no such key (an empty dict, or keys spelled otherwise),
    every generated patient is female. *)
Theorem gender_is_female_without_M_key env c mods i s p :
  ~ In "M" (map fst (gender_ratio c)) ->
  value_of (generate_patient env c mods i s) = Ok p ->
  gender p = FEMALE.
Proof.
  intros N H. apply generate_patient_same_person in H as (p0 & D & S).
  pose proof (demographics_of_gender env c i p0 D N) as G.
  unfold same_person in S. decompose [and] S. congruence.
Qed.

End GeneratedPatientFacts.

(** Concrete runs of the theorems above. *)

Definition died_at_birth : Patient :=
  set_dead example_patient (birth_date example_patient).

Lemma always_die_run :
  value_of (run_modules example_env [always_die] example_patient (rng_seed 0))
  = Ok died_at_birth.
Proof. vm_compute. reflexivity. Qed.

Lemma run_modules_keeps_the_person_witness :
  value_of (run_modules example_env [always_die] example_patient (rng_seed 0))
  = Ok died_at_birth
  /\ same_person example_patient died_at_birth.
Proof.
  split; [exact always_die_run|].
  exact (run_modules_keeps_the_person example_env [always_die] example_patient
           (rng_seed 0) died_at_birth always_die_run).
Defined.

Lemma run_modules_death_date_in_lifetime_witness :
  is_alive example_patient = true
  /\ ((is_alive died_at_birth = true /\ died_at_birth = example_patient)
      \/ (is_alive died_at_birth = false
          /\ exists d, death_date died_at_birth = Some d
                       /\ birth_date example_patient <= d <= today example_env)).
Proof.
  split; [reflexivity|].
  exact (run_modules_death_date_in_lifetime example_env [always_die]
           example_patient (rng_seed 0) died_at_birth eq_refl always_die_run).
Defined.

(** A patient marked dead before the simulation, without a death date. *)
Definition unrecorded_death : Patient :=
  {| id := "p000001"; created_at := 0;
     first_name := "John"; last_name := "Brown";
     gender := MALE; race := BLACK; ethnicity := Some "non-hispanic";
     birth_date := ymd2ord 1950 6 15; death_date := None;
     income := Some 30000;
     address := Some "200 Main St"; city := Some "Houston";
     state := Some "Texas"; zip_code := Some "77001";
     conditions := []; encounters := []; medications := [];
     procedures := []; observations := [];
     is_alive := false |}.

Definition unrecorded_death_dated : Patient :=
  Eval vm_compute in
    match value_of (run_modules example_env [mortality_module] unrecorded_death
                      (rng_seed 0)) with
    | Ok p => p
    | Raise _ => unrecorded_death
    end.

Lemma unrecorded_death_run :
  value_of (run_modules example_env [mortality_module] unrecorded_death
              (rng_seed 0))
  = Ok unrecorded_death_dated.
Proof. vm_compute. reflexivity. Qed.

Lemma run_modules_dates_unrecorded_death_before_birth_witness :
  is_alive unrecorded_death = false /\ death_date unrecorded_death = None
  /\ trace_of (run_modules example_env [mortality_module] unrecorded_death
                 (rng_seed 0)) = [EvDraw]
  /\ is_alive unrecorded_death_dated = false
  /\ exists d, death_date unrecorded_death_dated = Some d
               /\ birth_date unrecorded_death - 7 <= d
                  <= birth_date unrecorded_death.
Proof.
  split; [reflexivity|]. split; [reflexivity|].
  exact (run_modules_dates_unrecorded_death_before_birth example_env
           [mortality_module] unrecorded_death (rng_seed 0)
           unrecorded_death_dated eq_refl eq_refl unrecorded_death_run).
Defined.

Lemma example_env_valid_today : valid_today example_env.
Proof. unfold valid_today. cbn. lia. Qed.

Lemma generated_patient_has_empty_record_witness :
  value_of (generate_patient example_env seeded_config [mortality_module] 5
              (rng_seed 0)) = Ok generated_example
  /\ id generated_example = patient_id_string 5
  /\ created_at generated_example = env_now example_env
  /\ conditions generated_example = [] /\ encounters generated_example = []
  /\ medications generated_example = [] /\ procedures generated_example = []
  /\ observations generated_example = [].
Proof.
  split; [exact generated_example_run|].
  exact (generated_patient_has_empty_record example_env seeded_config
           [mortality_module] 5 (rng_seed 0) generated_example
           generated_example_run).
Defined.

Lemma generated_names_match_gender_and_race_witness :
  value_of (generate_patient example_env seeded_config [mortality_module] 5
              (rng_seed 0)) = Ok generated_example
  /\ In (first_name generated_example)
       (match gender generated_example with
        | MALE => DEFAULT_FIRST_NAMES_MALE
        | FEMALE => DEFAULT_FIRST_NAMES_FEMALE
        end)
  /\ In (last_name generated_example) DEFAULT_LAST_NAMES
  /\ ethnicity generated_example = Some (get_ethnicity (race generated_example)).
Proof.
  split; [exact generated_example_run|].
  exact (generated_names_match_gender_and_race example_env seeded_config
           [mortality_module] 5 (rng_seed 0) generated_example
           generated_example_run).
Defined.

Lemma generated_contact_is_consistent_witness :
  value_of (generate_patient example_env seeded_config [mortality_module] 5
              (rng_seed 0)) = Ok generated_example
  /\ exists loc n inc,
       In loc DEFAULT_LOCATIONS
       /\ state generated_example = Some (fst (fst loc))
       /\ city generated_example = Some (snd (fst loc))
       /\ zip_code generated_example = Some (snd loc)
       /\ address generated_example = Some (str_of_Z n ++ " Main St")%string
       /\ 100 <= n <= 9999
       /\ income generated_example = Some inc /\ 0 <= inc <= 100000.
Proof.
  split; [exact generated_example_run|].
  exact (generated_contact_is_consistent example_env seeded_config
           [mortality_module] 5 (rng_seed 0) generated_example
           generated_example_run).
Defined.

Lemma generated_birth_date_within_age_bounds_witness :
  valid_today example_env /\ 0 <= min_age seeded_config
  /\ ymd2ord (today_year example_env - max_age seeded_config) 1 1
     <= birth_date generated_example <= today example_env.
Proof.
  assert (A : 0 <= min_age seeded_config) by (cbn; lia).
  split; [exact example_env_valid_today|]. split; [exact A|].
  exact (generated_birth_date_within_age_bounds example_env seeded_config
           [mortality_module] 5 (rng_seed 0) generated_example
           example_env_valid_today A generated_example_run).
Defined.

Lemma generated_vital_status_is_consistent_witness :
  value_of (generate_patient example_env seeded_config [mortality_module] 5
              (rng_seed 0)) = Ok generated_example
  /\ ((is_alive generated_example = true /\ death_date generated_example = None)
      \/ (is_alive generated_example = false
          /\ exists d, death_date generated_example = Some d
                       /\ birth_date generated_example <= d <= today example_env)).
Proof.
  split; [exact generated_example_run|].
  exact (generated_vital_status_is_consistent example_env seeded_config
           [mortality_module] 5 (rng_seed 0) generated_example
           generated_example_run).
Defined.

(** A run in only-living mode that succeeds: nobody dies without a
    module. *)
(** Newborns in only-living mode, without a seed: a retry goes on from
    where the generator stands. *)
Definition unseeded_only_living_config : Config :=
  {| population_size := 2; min_age := 0; max_age := 0; seed := None;
     modules_dir := "/data/modules"; output_dir := "/data/output";
     output_format := "fhir"; gender_ratio := default_gender_ratio;
     max_workers := 4; generate_only_living_patients := true |}.

(** A module whose Death state succeeds one time in twenty. *)
Definition hazard_module : ModuleDef :=
  module_with_states "mortality" [death_state (1 # 20)].

Definition only_living_example : Patient :=
  Eval vm_compute in
    match value_of (generate_patient example_env unseeded_only_living_config
                      [hazard_module] 0 (rng_seed 0)) with
    | Ok p => p
    | Raise _ => example_patient
    end.

Lemma only_living_example_run :
  value_of (generate_patient example_env unseeded_only_living_config
              [hazard_module] 0 (rng_seed 0))
  = Ok only_living_example.
Proof. vm_compute. reflexivity. Qed.

(** The first patient generated dies in the simulation; the patient
    handed back is the one of the second attempt. *)
Lemma only_living_returns_living_patients_witness :
  generate_only_living_patients unseeded_only_living_config = true
  /\ (exists D,
        In (EvDeath D "mortality")
          (trace_of (generate_patient example_env unseeded_only_living_config
                       [hazard_module] 0 (rng_seed 0))))
  /\ value_of (generate_patient example_env unseeded_only_living_config
                 [hazard_module] 0 (rng_seed 0))
     = Ok only_living_example
  /\ is_alive only_living_example = true
  /\ death_date only_living_example = None.
Proof.
  split; [reflexivity|].
  split; [eexists; find_event|].
  split; [exact only_living_example_run|].
  exact (only_living_returns_living_patients example_env
           unseeded_only_living_config [hazard_module] 0 (rng_seed 0)
           only_living_example eq_refl only_living_example_run).
Defined.

Definition spelled_out_ratio_config : Config :=
  with_gender_ratio seeded_config [("male", 0.5%float); ("female", 0.5%float)].

Definition spelled_out_example : Patient :=
  Eval vm_compute in
    match value_of (generate_patient example_env spelled_out_ratio_config []
                      3 (rng_seed 0)) with
    | Ok p => p
    | Raise _ => example_patient
    end.

Lemma spelled_out_example_run :
  value_of (generate_patient example_env spelled_out_ratio_config [] 3
              (rng_seed 0))
  = Ok spelled_out_example.
Proof. vm_compute. reflexivity. Qed.

Lemma spelled_out_ratio_has_no_M :
  ~ In "M" (map fst (gender_ratio spelled_out_ratio_config)).
Proof. cbn. intros [H|[H|[]]]; discriminate H. Qed.

Lemma gender_is_female_without_M_key_witness :
  ~ In "M" (map fst (gender_ratio spelled_out_ratio_config))
  /\ gender spelled_out_example = FEMALE.
Proof.
  split; [exact spelled_out_ratio_has_no_M|].
  exact (gender_is_female_without_M_key example_env spelled_out_ratio_config
           [] 3 (rng_seed 0) spelled_out_example spelled_out_ratio_has_no_M
           spelled_out_example_run).
Defined.

(** ** Populations *)

Section Populations.

Context {RS : RandomSource}.

Lemma load_modules_run env module_path dir s :
  load_modules env module_path dir s
  = (Ok [], s,
     if env_exists env module_path then []
     else [EvLog (LogWarningMissingPath module_path)]).
Proof.
  unfold load_modules. destruct (env_exists env module_path); reflexivity.
Qed.

Lemma generate_sequential_forall (P : nat -> Patient -> Prop) envs c mods :
  (forall i s p,
     value_of (generate_patient (envs i) c mods i s) = Ok p -> P i p) ->
  forall l s ps,
    value_of (generate_sequential envs c mods l s) = Ok ps ->
    Forall2 P l ps.
Proof.
  intros HP l. induction l as [|i rest IH]; intros s ps H.
  - unfold value_of in H. cbn in H. injection H as <-. constructor.
  - cbn [generate_sequential] in H.
    apply bind_value_ok in H as (p & s1 & t1 & E & H).
    apply bind_value_ok in H as (ps' & s2 & t2 & E' & H).
    unfold ret, value_of in H. cbn [fst] in H. injection H as <-.
    constructor.
    + apply (HP i s). rewrite E. reflexivity.
    + apply (IH s1). rewrite E'. reflexivity.
Qed.

Lemma successes_forall (P : Patient -> Prop) sched c mods :
  (forall k p, worker_outcome sched c mods k = Ok p -> P p) ->
  forall order, Forall P (successes sched c mods order).
Proof.
  intros HP order. induction order as [|k rest IH]; cbn [successes].
  - constructor.
  - destruct (worker_outcome sched c mods k) as [p|e] eqn:E.
    + constructor; [exact (HP k p E)|exact IH].
    + exact IH.
Qed.

Lemma generate_patient_id env c mods i s p :
  value_of (generate_patient env c mods i s) = Ok p ->
  id p = patient_id_string i.
Proof.
  intros H. apply generate_patient_same_person in H as (p0 & D & S).
  apply demographics_of_fresh in D as (I & _).
  destruct S as (E & _). congruence.
Qed.

Lemma ids_in_order l ps :
  Forall2 (fun i p => id p = patient_id_string i) l ps ->
  map id ps = map patient_id_string l.
Proof.
  induction 1 as [|i p l ps Hi _ IH]; [reflexivity|].
  cbn [map]. rewrite Hi, IH. reflexivity.
Qed.

(** X12.  When a population is generated in the calling process (at most
    10 patients, or one worker) and no patient fails, the list handed
    back has exactly one patient per ordinal, in ordinal order: patient
    number [k] carries the identifier of ordinal [k].  A population size
    of zero or less gives the empty list. *)
Theorem sequential_population_in_ordinal_order envs sched c mods s ps :
  population_size c <= 10 \/ max_workers c = 1 ->
  value_of (generate_population envs sched c mods s) = Ok ps ->
  map id ps
  = map patient_id_string (seq 0 (Z.to_nat (population_size c))).
Proof.
  intros C H.
  destruct (generate_population_run envs sched c mods s) as (pf & s' & _ & P).
  rewrite P in H. clear P. cbv zeta in H.
  unfold value_of at 1 in H. cbn [fst] in H.
  assert (B : (population_size c <=? 10) || (max_workers c =? 1) = true).
  { apply orb_true_iff. destruct C as [C|C]; [left|right].
    - apply Z.leb_le. exact C.
    - apply Z.eqb_eq. exact C. }
  rewrite B in H.
  apply ids_in_order.
  apply (generate_sequential_forall
           (fun i p => id p = patient_id_string i) envs c mods
           (fun i s0 p0 Hp => generate_patient_id (envs i) c mods i s0 p0 Hp)
           _ _ _ H).
Qed.


(** Without modules the simulation hands the patient back untouched. *)
Lemma while_loop_no_modules fuel end_date cur p s c' p' :
  value_of (while_loop fuel [] end_date cur p s) = Ok (c', p') -> p' = p.
Proof.
  revert cur s. induction fuel as [|k IH]; intros cur s.
  - unfold value_of. cbn [while_loop ret fst]. intros [= _ ->]. reflexivity.
  - cbn [while_loop eval_modules].
    destruct ((cur <=? end_date) && is_alive p);
      [|unfold value_of; cbn [ret fst]; intros [= _ ->]; reflexivity].
    destruct (cur - birth_date p <? 0).
    + destruct (date_add cur time_step_days) as [d|e].
      * rewrite bind_lift_ok. apply IH.
      * rewrite bind_lift_raise. discriminate.
    + rewrite bind_ret.
      destruct (date_add cur time_step_days) as [d|e].
      * rewrite bind_lift_ok. apply IH.
      * rewrite bind_lift_raise. discriminate.
Qed.

Lemma generate_patient_no_modules env c i s p :
  value_of (generate_patient env c [] i s) = Ok p ->
  is_alive p = true /\ death_date p = None.
Proof.
  unfold generate_patient. intros H.
  apply generate_patient_rec_inv in H as (p0 & s1 & D & R & _).
  apply demographics_of_fresh in D as (_ & _ & A & N & _).
  unfold run_modules in R.
  apply bind_value_ok in R as ([c0 pl] & s2 & t2 & E & R).
  assert (pl = p0).
  { apply (while_loop_no_modules (loop_bound (birth_date p0) (today env))
             (today env) (birth_date p0) p0 s1 c0 pl).
    change (sorted_by_priority []) with (@nil ModuleDef) in E.
    rewrite E. reflexivity. }
  subst pl. cbn [fst snd] in R. rewrite A in R. cbn [negb] in R.
  unfold ret, value_of in R. cbn [fst] in R. injection R as <-. auto.
Qed.

(** X14.  A run of the engine never produces a deceased patient: the
    module loader hands back no module, so every patient of the list
    returned by [Engine.run] is alive and has no death date, in the
    sequential and in the pooled path alike. *)
Theorem engine_run_patients_are_all_alive env envs sched dir c s ps :
  value_of (Engine_run env envs sched dir c s) = Ok ps ->
  Forall (fun p => is_alive p = true /\ death_date p = None) ps.
Proof.
  unfold Engine_run. intros H.
  apply bind_value_ok in H as (path & s1 & t1 & _ & H).
  rewrite (bind_ok _ _ _ _ _ _ (load_modules_run env path dir s1)) in H.
  unfold value_of in H. cbn [fst] in H.
  change (fst (fst (generate_population envs sched c [] s1)))
    with (value_of (generate_population envs sched c [] s1)) in H.
  destruct (generate_population_run envs sched c [] s1) as (pf & s2 & _ & P).
  rewrite P in H. clear P. cbv zeta in H.
  unfold value_of at 1 in H. cbn [fst] in H.
  destruct ((population_size c <=? 10) || (max_workers c =? 1)).
  - pose proof (generate_sequential_forall
                  (fun _ p => is_alive p = true /\ death_date p = None)
                  envs c []
                  (fun i s0 p0 Hp =>
                     generate_patient_no_modules (envs i) c i s0 p0 Hp)
                  _ _ _ H) as F.
    clear H. induction F; constructor; assumption.
  - destruct (max_workers c <=? 0); [discriminate H|].
    destruct (collect_completed_result sched c [] (completion_order sched)
                0 [] s2) as [V _].
    rewrite V in H. injection H as <-. cbn [app].
    apply successes_forall. intros k p Hk.
    exact (generate_patient_no_modules _ _ _ _ _ Hk).
Qed.

End Populations.



Definition small_population : list Patient :=
  Eval vm_compute in
    match value_of (generate_population (fun _ => example_env) example_schedule
                      seeded_config [mortality_module] (rng_seed 0)) with
    | Ok ps => ps
    | Raise _ => []
    end.

Lemma small_population_run :
  value_of (generate_population (fun _ => example_env) example_schedule
              seeded_config [mortality_module] (rng_seed 0))
  = Ok small_population.
Proof. vm_compute. reflexivity. Qed.

Lemma sequential_population_in_ordinal_order_witness :
  (population_size seeded_config <= 10 \/ max_workers seeded_config = 1)
  /\ map id small_population
     = map patient_id_string
         (seq 0 (Z.to_nat (population_size seeded_config))).
Proof.
  assert (C : population_size seeded_config <= 10 \/ max_workers seeded_config = 1)
    by (left; cbn; lia).
  split; [exact C|].
  exact (sequential_population_in_ordinal_order (fun _ => example_env)
           example_schedule seeded_config [mortality_module] (rng_seed 0)
           small_population C small_population_run).
Defined.


Definition engine_run_population : list Patient :=
  Eval vm_compute in
    match value_of (Engine_run example_env (fun _ => example_env)
                      example_schedule [] seeded_config (rng_seed 0)) with
    | Ok ps => ps
    | Raise _ => []
    end.

Lemma engine_run_population_run :
  value_of (Engine_run example_env (fun _ => example_env) example_schedule []
              seeded_config (rng_seed 0))
  = Ok engine_run_population.
Proof. vm_compute. reflexivity. Qed.

Lemma engine_run_patients_are_all_alive_witness :
  List.length engine_run_population = 3%nat
  /\ Forall (fun p => is_alive p = true /\ death_date p = None)
       engine_run_population.
Proof.
  split; [reflexivity|].
  exact (engine_run_patients_are_all_alive example_env (fun _ => example_env)
           example_schedule [] seeded_config (rng_seed 0)
           engine_run_population engine_run_population_run).
Defined.

(** ** Configuration and exporters *)

(** [synthmed/exporters/__init__.py]: which exporter class is built. *)
Inductive Exporter : Type :=
| FHIRExporter (output_dir : string)
| JSONExporter (output_dir : string)
| CSVExporter (output_dir : string).

(** [exporter_factory] *)
Definition exporter_factory (output_format output_dir : string)
  : result Exporter :=
  let output_format := lower output_format in
  if String.eqb output_format "fhir" then Ok (FHIRExporter output_dir)
  else if String.eqb output_format "json" then Ok (JSONExporter output_dir)
  else if String.eqb output_format "csv" then Ok (CSVExporter output_dir)
  else Raise ValueError.

Lemma exporter_factory_supported f d :
  supported_format f = true -> exists e, exporter_factory f d = Ok e.
Proof.
  unfold supported_format, exporter_factory. cbn [existsb].
  rewrite !(String.eqb_sym (lower f)).
  destruct (String.eqb "fhir" (lower f)); [eauto|].
  destruct (String.eqb "json" (lower f)); [eauto|].
  destruct (String.eqb "csv" (lower f)); [eauto|].
  discriminate.
Qed.

Section ConfigurationFacts.

Context {RS : RandomSource}.

(** X15.  A configuration that [Config] accepts always gets an exporter:
    [exporter_factory] lower-cases the format as the validation of
    [Config.__post_init__] does, so the later call in [Engine.run]
    cannot raise. *)
Theorem accepted_format_has_an_exporter env c s c' :
  value_of (Config_post_init env c s) = Ok c' ->
  exists e, exporter_factory (output_format c') (output_dir c') = Ok e.
Proof.
  rewrite Config_post_init_value. intros H.
  destruct (negb (env_makedirs _ _)); [discriminate H|].
  destruct (supported_format (output_format c)) eqn:F; [|discriminate H].
  cbn [negb] in H. cbv zeta in H.
  assert (E : output_format c' = output_format c).
  { destruct (needs_normalizing _).
    - destruct (normalize_ratio _ _); [|discriminate H].
      cbn in H. injection H as <-. reflexivity.
    - injection H as <-. reflexivity. }
  rewrite E. apply exporter_factory_supported. exact F.
Qed.

(** X17.  Where the output directory can be made and the format is
    supported, a non-empty gender ratio whose float total is zero makes
    the construction of the [Config] fail with [ZeroDivisionError]; an
    empty ratio is accepted as it is. *)
Theorem zero_total_ratio_is_rejected env c s :
  env_makedirs env (absolute env (output_dir c)) = true ->
  supported_format (output_format c) = true ->
  (ratio_total (env_sum_compensated env) (gender_ratio c) =? 0)%float = true ->
  value_of (Config_post_init env c s)
  = match gender_ratio c with
    | [] => Ok (absolute_paths env c)
    | _ :: _ => Raise ZeroDivisionError
    end.
Proof.
  intros D F Z0. rewrite Config_post_init_value, D, F. cbn [negb]. cbv zeta.
  rewrite (zero_needs_normalizing _ Z0).
  destruct (gender_ratio c) as [|[k v] rest] eqn:G.
  - cbn. f_equal. unfold with_gender_ratio, absolute_paths, with_paths.
    cbn. rewrite G. reflexivity.
  - rewrite normalize_ratio_zero; [reflexivity|exact Z0|discriminate].
Qed.

(** X18.  A configured module directory that does not exist does not stop
    the run: the engine logs one warning and goes on to generate the
    population without modules. *)
Theorem missing_modules_dir_is_only_warned_about env envs sched dir c s :
  modules_dir c <> "" ->
  env_exists env (modules_dir c) = false ->
  Engine_run env envs sched dir c s
  = (value_of (generate_population envs sched c [] s),
     state_of (generate_population envs sched c [] s),
     EvLog (LogWarningMissingPath (modules_dir c))
       :: trace_of (generate_population envs sched c [] s)).
Proof.
  intros N E. unfold Engine_run, get_modules_path.
  destruct (String.eqb_spec (modules_dir c) "") as [Z0|_]; [contradiction|].
  cbn [negb]. rewrite bind_ret.
  rewrite (bind_ok _ _ _ _ _ _
             (load_modules_run env (modules_dir c) dir s)).
  rewrite E. reflexivity.
Qed.

(** The first element of a list that satisfies a test. *)
Lemma find_first {A} (f : A -> bool) (l : list A) (x : A) :
  find f l = Some x ->
  exists before after,
    l = before ++ x :: after /\ f x = true
    /\ Forall (fun y => f y = false) before.
Proof.
  induction l as [|a r IH]; cbn [find]; [discriminate|].
  destruct (f a) eqn:Fa.
  - intros [= ->]. exists [], r. repeat split; [exact Fa|constructor].
  - intros H. destruct (IH H) as (before & after & -> & Fx & B).
    exists (a :: before), after. repeat split; [exact Fx|].
    constructor; assumption.
Qed.

Lemma find_nothing {A} (f : A -> bool) (l : list A) :
  find f l = None <-> Forall (fun y => f y = false) l.
Proof.
  induction l as [|a r IH]; cbn [find].
  - split; [constructor|reflexivity].
  - destruct (f a) eqn:Fa.
    + split; [discriminate|]. intros H. inversion H; subst. congruence.
    + rewrite IH. split.
      * intros H. constructor; assumption.
      * intros H. inversion H; assumption.
Qed.

Lemma append_assoc (a b c : string) :
  ((a ++ b) ++ c = a ++ (b ++ c))%string.
Proof. induction a as [|x a IH]; cbn; [reflexivity|]. rewrite IH. reflexivity. Qed.

Lemma ends_with_slash_append (a : string) (x : ascii) (b : string) :
  ends_with_slash (a ++ String x b) = ends_with_slash (String x b).
Proof.
  induction a as [|y a IH]; [reflexivity|].
  change ((String y a ++ String x b)%string)
    with (String y (a ++ String x b)%string).
  cbn [ends_with_slash].
  destruct (a ++ String x b)%string as [|z r] eqn:E.
  - destruct a; discriminate E.
  - exact IH.
Qed.

(** Joining a relative name to a directory whose name does not end with
    a slash. *)
Lemma os_path_join_name (a : string) (x : ascii) (b : string) :
  a <> "" -> ends_with_slash a = false -> Ascii.eqb x "/" = false ->
  os_path_join a (String x b) = (a ++ "/" ++ String x b)%string.
Proof.
  intros N E X. unfold os_path_join.
  assert (P : String.prefix "/" (String x b) = false).
  { cbn [String.prefix]. destruct (ascii_dec "/" x) as [<-|_];
      [discriminate X|reflexivity]. }
  rewrite P, E. destruct (String.eqb_spec a "") as [->|_];
    [contradiction|reflexivity].
Qed.

(** Under a working directory whose name does not end with a slash, the
    default locations are these two. *)
Lemma paths_to_check_plain env :
  env_cwd env <> "" -> ends_with_slash (env_cwd env) = false ->
  paths_to_check env
  = [(env_cwd env ++ "/synthea/src/main/resources/modules")%string;
     (env_cwd env ++ "/modules")%string].
Proof.
  intros N E. unfold paths_to_check. cbn [fold_left].
  assert (J : forall suffix x b,
             suffix = EmptyString \/ ends_with_slash suffix = false ->
             Ascii.eqb x "/" = false ->
             ends_with_slash (String x b) = false ->
             os_path_join (env_cwd env ++ suffix) (String x b)
             = (env_cwd env ++ (suffix ++ "/" ++ String x b))%string
               /\ ends_with_slash (suffix ++ "/" ++ String x b) = false).
  { intros suffix x b S X B.
    assert (N' : (env_cwd env ++ suffix)%string <> "").
    { destruct (env_cwd env); [contradiction|discriminate]. }
    assert (E' : ends_with_slash (env_cwd env ++ suffix) = false).
    { destruct suffix as [|y r].
      - replace (env_cwd env ++ "")%string with (env_cwd env); [exact E|].
        clear. induction (env_cwd env) as [|z a IH]; cbn; congruence.
      - rewrite ends_with_slash_append. destruct S as [S|S];
          [discriminate S|exact S]. }
    rewrite (os_path_join_name _ x b N' E' X), append_assoc.
    split; [reflexivity|].
    change (suffix ++ "/" ++ String x b)%string
      with (suffix ++ String "/" (String x b))%string.
    rewrite ends_with_slash_append. exact B. }
  assert (P0 : env_cwd env = (env_cwd env ++ "")%string).
  { clear. induction (env_cwd env) as [|z a IH]; cbn; congruence. }
  f_equal; [|f_equal].
  - rewrite P0 at 1.
    destruct (J "" "s"%char "ynthea") as [-> E1]; auto.
    destruct (J _ "s"%char "rc" (or_intror E1)) as [-> E2]; auto.
    destruct (J _ "m"%char "ain" (or_intror E2)) as [-> E3]; auto.
    destruct (J _ "r"%char "esources" (or_intror E3)) as [-> E4]; auto.
    destruct (J _ "m"%char "odules" (or_intror E4)) as [-> E5]; auto.
  - rewrite P0 at 1.
    destruct (J "" "m"%char "odules") as [-> E1]; auto.
Qed.

(** X19.  [get_modules_path] hands back a configured module directory
    as it is, without looking whether it exists, and without any other
    effect.  With no directory configured it hands back the first of the
    two default locations that exists, [synthea/src/main/resources/modules]
    and then [modules] under the working directory, and fails with
    [FileNotFoundError] exactly when neither does. *)
Theorem get_modules_path_fails_only_without_any_directory env c s :
  (value_of (get_modules_path env c s) = Raise FileNotFoundError
   <-> (modules_dir c = ""
        /\ Forall (fun p => env_exists env p = false) (paths_to_check env)))
  /\ (modules_dir c <> "" ->
      get_modules_path env c s = (Ok (modules_dir c), s, []))
  /\ (forall p,
        modules_dir c = "" ->
        value_of (get_modules_path env c s) = Ok p ->
        exists before after,
          paths_to_check env = before ++ p :: after
          /\ env_exists env p = true
          /\ Forall (fun q => env_exists env q = false) before)
  /\ (env_cwd env <> "" -> ends_with_slash (env_cwd env) = false ->
      paths_to_check env
      = [(env_cwd env ++ "/synthea/src/main/resources/modules")%string;
         (env_cwd env ++ "/modules")%string]).
Proof.
  split; [|split; [|split]]; [| | |apply paths_to_check_plain].
  all: unfold get_modules_path;
    destruct (String.eqb_spec (modules_dir c) "") as [Z0|N]; cbn [negb].
  - destruct (find (env_exists env) (paths_to_check env)) as [path|] eqn:F.
    + split; [discriminate|]. intros (_ & X).
      apply find_nothing in X. congruence.
    + split; [|reflexivity]. intros _. split; [exact Z0|].
      apply find_nothing. exact F.
  - split; [discriminate|]. intros (Z0 & _). contradiction.
  - intros X. contradiction.
  - intros _. reflexivity.
  - destruct (find (env_exists env) (paths_to_check env)) as [path|] eqn:F.
    + intros p _ [= <-]. exact (find_first _ _ _ F).
    + intros p _ X. discriminate X.
  - intros p Z0. contradiction.
Qed.

End ConfigurationFacts.

Lemma accepted_format_has_an_exporter_witness :
  value_of (Config_post_init example_env skewed_ratio_config (rng_seed 0))
  = Ok skewed_ratio_config_built
  /\ exists e,
       exporter_factory (output_format skewed_ratio_config_built)
         (output_dir skewed_ratio_config_built) = Ok e.
Proof.
  split; [exact skewed_ratio_run|].
  exact (accepted_format_has_an_exporter example_env skewed_ratio_config
           (rng_seed 0) skewed_ratio_config_built skewed_ratio_run).
Defined.

(** Four ratios that cancel: the compensated [sum] finds the total 0,
    the plain one finds -1. *)
Definition cancelling_ratio_config : Config :=
  with_gender_ratio default_config
    [("M", 1e16%float); ("F", 1%float); ("X", (-1e16)%float);
     ("U", (-1)%float)].

Lemma zero_total_ratio_is_rejected_witness :
  env_makedirs compensating_env
    (absolute compensating_env (output_dir cancelling_ratio_config)) = true
  /\ supported_format (output_format cancelling_ratio_config) = true
  /\ (ratio_total (env_sum_compensated compensating_env)
        (gender_ratio cancelling_ratio_config) =? 0)%float = true
  /\ value_of (Config_post_init compensating_env cancelling_ratio_config
                 (rng_seed 0))
     = Raise ZeroDivisionError.
Proof.
  assert (D : env_makedirs compensating_env
                (absolute compensating_env
                   (output_dir cancelling_ratio_config)) = true)
    by reflexivity.
  assert (F : supported_format (output_format cancelling_ratio_config) = true)
    by reflexivity.
  assert (Z0 : (ratio_total (env_sum_compensated compensating_env)
                  (gender_ratio cancelling_ratio_config) =? 0)%float = true)
    by reflexivity.
  split; [exact D|]. split; [exact F|]. split; [exact Z0|].
  exact (zero_total_ratio_is_rejected compensating_env cancelling_ratio_config
           (rng_seed 0) D F Z0).
Defined.

(** Under the plain [sum] the same ratio has the total -1 and is
    accepted: every value is divided by -1. *)
Lemma cancelling_ratio_accepted_by_plain_sum :
  ratio_total (env_sum_compensated example_env)
    (gender_ratio cancelling_ratio_config) = (-1)%float
  /\ result_map gender_ratio
       (value_of (Config_post_init example_env cancelling_ratio_config
                    (rng_seed 0)))
     = Ok [("M", (-1e16)%float); ("F", (-1)%float); ("X", 1e16%float);
           ("U", 1%float)].
Proof. vm_compute. split; reflexivity. Qed.

Definition missing_dir_config : Config :=
  with_paths seeded_config "/nowhere" "/data/output".

Lemma missing_modules_dir_is_only_warned_about_witness :
  modules_dir missing_dir_config <> ""
  /\ env_exists example_env (modules_dir missing_dir_config) = false
  /\ Engine_run example_env (fun _ => example_env) example_schedule []
       missing_dir_config (rng_seed 0)
     = (value_of (generate_population (fun _ => example_env) example_schedule
                    missing_dir_config [] (rng_seed 0)),
        state_of (generate_population (fun _ => example_env) example_schedule
                    missing_dir_config [] (rng_seed 0)),
        EvLog (LogWarningMissingPath (modules_dir missing_dir_config))
          :: trace_of (generate_population (fun _ => example_env)
                         example_schedule missing_dir_config [] (rng_seed 0))).
Proof.
  assert (N : modules_dir missing_dir_config <> "") by discriminate.
  assert (E : env_exists example_env (modules_dir missing_dir_config) = false)
    by reflexivity.
  split; [exact N|]. split; [exact E|].
  exact (missing_modules_dir_is_only_warned_about example_env
           (fun _ => example_env) example_schedule [] missing_dir_config
           (rng_seed 0) N E).
Defined.

(** ** Modules that never run, and the limits of the death probability *)

Lemma contains_tail sub c s :
  contains sub s = true -> contains sub (String c s) = true.
Proof.
  intros H. cbn [contains]. destruct (String.prefix sub (String c s));
    [reflexivity|exact H].
Qed.

(** ["male only"] is a part of ["female only"]. *)
Lemma contains_female_only_male_only s :
  contains "female only" s = true -> contains "male only" s = true.
Proof.
  induction s as [|c s IH]; [discriminate|].
  cbn [contains]. destruct (String.prefix "female only" (String c s)) eqn:P.
  - intros _. clear IH.
    cbn [String.prefix] in P.
    destruct (ascii_dec "f" c); [|discriminate P].
    destruct s as [|c2 s2]; [discriminate P|].
    cbn [String.prefix] in P.
    destruct (ascii_dec "e" c2); [|discriminate P].
    apply contains_tail, contains_tail.
    destruct s2 as [|c3 s3]; [discriminate P|].
    cbn [contains]. rewrite P. reflexivity.
  - intros H. apply contains_tail. exact (IH H).
Qed.

Definition never_runs (m : ModuleDef) : Prop :=
  (exists r, m_remarks m = Some r /\ contains "female only" (lower r) = true)
  \/ (exists x l, m_required_states m = Some (x :: l)).

(** No module ran and nobody died. *)
Definition nothing_ran (e : event) : Prop :=
  match e with
  | EvEval _ _ r => r = false
  | EvDeath _ _ => False
  | _ => True
  end.

Section NeverRuns.

Context {RS : RandomSource}.

(** X20.  A module whose remarks contain "female only" is skipped for
    every patient, female patients included: the test for "male only"
    that follows matches the same remark.  No draw is made. *)
Theorem female_only_module_never_runs m r p ac s :
  m_remarks m = Some r ->
  contains "female only" (lower r) = true ->
  should_run_module m p ac s = (Ok false, s, []).
Proof.
  intros R F. unfold should_run_module. rewrite R, F.
  rewrite (contains_female_only_male_only _ F).
  destruct (gender p); reflexivity.
Qed.

Lemma should_run_module_never m p s :
  never_runs m ->
  exists s' t,
    should_run_module m p [] s = (Ok false, s', t) /\ (t = [] \/ t = [EvDraw]).
Proof.
  intros [(r & R & F) | (x & l & Req)].
  - exists s, []. split; [|left; reflexivity].
    unfold should_run_module. rewrite R, F.
    rewrite (contains_female_only_male_only _ F).
    destruct (gender p); reflexivity.
  - unfold should_run_module. rewrite Req.
    destruct (match m_remarks m with Some _ => _ | None => false end).
    + exists s, []. split; [reflexivity|left; reflexivity].
    + destruct (m_probability m) as [pr|].
      * destruct (random_spec s) as (y & s' & E & _).
        rewrite bind_assoc, (bind_ok _ _ _ _ _ _ E), bind_ret.
        exists s', [EvDraw]. split; [|right; reflexivity].
        destruct (Qltb pr y); reflexivity.
      * rewrite bind_ret. exists s, []. split; [reflexivity|left; reflexivity].
Qed.

Lemma eval_modules_never mods p d s :
  Forall never_runs mods ->
  exists s' t,
    eval_modules mods p [] d s = (Ok p, s', t) /\ Forall nothing_ran t.
Proof.
  intros F. revert s. induction F as [|m rest Hm _ IH]; intros s.
  - exists s, []. split; [reflexivity|constructor].
  - destruct (should_run_module_never m p s Hm) as (s1 & t1 & E & T).
    destruct (IH s1) as (s2 & t2 & E2 & F2).
    exists s2, (t1 ++ EvEval d (module_name m) false :: t2). split.
    + cbn [eval_modules].
      rewrite (bind_ok _ _ _ _ _ _ E), bind_emit, bind_ret, E2. reflexivity.
    + apply Forall_app. split.
      * destruct T as [-> | ->]; repeat constructor.
      * constructor; [reflexivity|exact F2].
Qed.

Lemma while_loop_never fuel mods end_date cur p s :
  Forall never_runs mods ->
  Forall nothing_ran (trace_of (while_loop fuel mods end_date cur p s))
  /\ forall c' p',
       value_of (while_loop fuel mods end_date cur p s) = Ok (c', p') ->
       p' = p.
Proof.
  intros F. revert cur s. induction fuel as [|k IH]; intros cur s.
  - split; [constructor|].
    unfold value_of. cbn. intros c' p' [= _ ->]. reflexivity.
  - cbn [while_loop].
    destruct ((cur <=? end_date) && is_alive p).
    2:{ split; [constructor|].
        unfold value_of. cbn. intros c' p' [= _ ->]. reflexivity. }
    destruct (cur - birth_date p <? 0).
    + destruct (date_add cur time_step_days) as [d|e].
      * rewrite bind_lift_ok. apply IH.
      * rewrite bind_lift_raise. split; [constructor|discriminate].
    + destruct (eval_modules_never mods p cur s F) as (s1 & t1 & E & T).
      rewrite (bind_ok _ _ _ _ _ _ E).
      destruct (date_add cur time_step_days) as [d|e].
      * rewrite bind_lift_ok. cbn [value_of trace_of fst snd].
        destruct (IH d s1) as [T' V']. split.
        -- apply Forall_app. split; assumption.
        -- exact V'.
      * rewrite bind_lift_raise. cbn [value_of trace_of fst snd].
        rewrite app_nil_r. split; [exact T|discriminate].
Qed.

(** X21.  Modules that are marked "female only" or that declare a
    non-empty list of required states are never processed
    ([active_conditions] stays empty for the whole simulation): with
    only such modules every evaluation is a skip, nobody dies and a
    living patient comes back untouched. *)
Theorem blocked_modules_never_affect_a_patient env mods p s :
  Forall never_runs mods ->
  is_alive p = true ->
  Forall nothing_ran (trace_of (run_modules env mods p s))
  /\ forall p', value_of (run_modules env mods p s) = Ok p' -> p' = p.
Proof.
  intros F A.
  assert (F' : Forall never_runs (sorted_by_priority mods)).
  { eapply Permutation_Forall; [apply sorted_by_priority_perm|exact F]. }
  destruct (while_loop_never (loop_bound (birth_date p) (today env))
              (sorted_by_priority mods) (today env) (birth_date p) p s F')
    as [T V].
  unfold run_modules.
  destruct (while_loop _ _ _ _ p s) as [[[[c pl]|e] s1] t1] eqn:E.
  - assert (pl = p) by (apply (V c pl); reflexivity). subst pl.
    rewrite (bind_ok _ _ _ _ _ _ E). cbn [fst snd]. rewrite A. cbn [negb].
    cbn [ret value_of trace_of fst snd]. rewrite app_nil_r.
    split; [exact T|]. intros p' [= <-]. reflexivity.
  - rewrite (bind_raise _ _ _ _ _ _ E). cbn [value_of trace_of fst snd].
    split; [exact T|discriminate].
Qed.

(** X22.  A module whose Death states all have a probability of zero or
    less never kills: the patient comes back as it was, though one draw
    is still made for every Death state. *)
Theorem non_positive_death_probability_never_kills m sts p d s :
  m_states m = Some sts ->
  (forall st, In st sts -> is_death_state st = true -> (death_prob st <= 0)%Q) ->
  value_of (process_module m p d s) = Ok p
  /\ draws (trace_of (process_module m p d s)) = count_death_states m.
Proof.
  intros S H. unfold process_module, count_death_states. rewrite S. clear S.
  revert s. induction sts as [|st rest IH]; intros s; [split; reflexivity|].
  cbn [process_states filter].
  change (String.eqb (state_type st) "Death") with (is_death_state st).
  destruct (is_death_state st) eqn:Dt.
  - destruct (random_spec s) as (x & s1 & E & L & _).
    rewrite (bind_ok _ _ _ _ _ _ E).
    assert (N : Qltb x (death_prob st) = false).
    { destruct (Qltb x (death_prob st)) eqn:Q; [|reflexivity].
      apply Qltb_true_lt in Q. exfalso.
      apply (Qlt_irrefl x). eapply Qlt_le_trans; [exact Q|].
      eapply Qle_trans; [|exact L]. apply H; [left; reflexivity|exact Dt]. }
    rewrite N. cbn [value_of trace_of fst snd].
    destruct (IH (fun st' I => H st' (or_intror I)) s1) as [V T].
    split; [exact V|].
    change ([EvDraw] ++ trace_of (process_states (module_name m) rest p d s1))
      with (EvDraw :: trace_of (process_states (module_name m) rest p d s1)).
    unfold draws in *. cbn [filter is_draw List.length]. rewrite T. reflexivity.
  - apply IH. intros st' I. apply H. right. exact I.
Qed.

(** X23.  The first Death state of a module decides when its probability
    is one or more: the patient dies on the current date after exactly
    one draw, and the states after it are not looked at. *)
Theorem certain_death_probability_always_kills m pre st post p d s :
  m_states m = Some (pre ++ st :: post) ->
  (forall x, In x pre -> is_death_state x = false) ->
  is_death_state st = true ->
  (1 <= death_prob st)%Q ->
  value_of (process_module m p d s) = Ok (set_dead p d)
  /\ trace_of (process_module m p d s) = [EvDraw; EvDeath d (module_name m)].
Proof.
  intros S Hpre Dt P. unfold process_module. rewrite S. clear S.
  induction pre as [|x pre IH]; cbn [app process_states].
  - change (String.eqb (state_type st) "Death") with (is_death_state st).
    rewrite Dt.
    destruct (random_spec s) as (y & s1 & E & _ & U).
    rewrite (bind_ok _ _ _ _ _ _ E).
    rewrite (Qltb_lt y (death_prob st) (Qlt_le_trans _ _ _ U P)).
    rewrite bind_emit. split; reflexivity.
  - change (String.eqb (state_type x) "Death") with (is_death_state x).
    rewrite (Hpre x (or_introl eq_refl)).
    apply IH. intros x' I. apply Hpre. right. exact I.
Qed.

End NeverRuns.

Definition female_only_module : ModuleDef :=
  {| m_name := Some "pregnancy"; m_priority := None;
     m_remarks := Some "Female only: prenatal care";
     m_probability := None; m_required_states := None;
     m_states := Some [death_state 1] |}.

Definition dependent_module : ModuleDef :=
  {| m_name := Some "dialysis"; m_priority := Some 2; m_remarks := None;
     m_probability := Some (1 # 2)%Q;
     m_required_states := Some ["kidney_failure"];
     m_states := Some [death_state 1] |}.

Lemma female_only_module_never_runs_witness :
  m_remarks female_only_module = Some "Female only: prenatal care"
  /\ contains "female only" (lower "Female only: prenatal care") = true
  /\ gender example_patient = FEMALE
  /\ should_run_module female_only_module example_patient [] (rng_seed 0)
     = (Ok false, rng_seed 0, []).
Proof.
  assert (R : m_remarks female_only_module = Some "Female only: prenatal care")
    by reflexivity.
  assert (F : contains "female only" (lower "Female only: prenatal care") = true)
    by reflexivity.
  split; [exact R|]. split; [exact F|]. split; [reflexivity|].
  exact (female_only_module_never_runs female_only_module _ example_patient []
           (rng_seed 0) R F).
Defined.

Lemma blocked_modules_example :
  Forall never_runs [dependent_module; female_only_module].
Proof.
  constructor; [|constructor; [|constructor]].
  - right. exists "kidney_failure", []. reflexivity.
  - left. exists "Female only: prenatal care". split; reflexivity.
Qed.

Lemma blocked_modules_never_affect_a_patient_witness :
  Forall never_runs [dependent_module; female_only_module]
  /\ is_alive example_patient = true
  /\ forall p',
       value_of (run_modules example_env [dependent_module; female_only_module]
                   example_patient (rng_seed 0)) = Ok p' ->
       p' = example_patient.
Proof.
  split; [exact blocked_modules_example|]. split; [reflexivity|].
  exact (proj2 (blocked_modules_never_affect_a_patient example_env
                  [dependent_module; female_only_module] example_patient
                  (rng_seed 0) blocked_modules_example eq_refl)).
Defined.

Definition harmless_module : ModuleDef :=
  module_with_states "harmless"
    [death_state 0; weighted_state; death_state (- (1 # 2))%Q].

Lemma harmless_module_probabilities :
  forall st,
    In st [death_state 0; weighted_state; death_state (- (1 # 2))%Q] ->
    is_death_state st = true -> (death_prob st <= 0)%Q.
Proof.
  intros st [<- | [<- | [<- | []]]] D; try discriminate D;
    unfold Qle; cbn; lia.
Qed.

Lemma non_positive_death_probability_never_kills_witness :
  value_of (process_module harmless_module example_patient
              (birth_date example_patient) (rng_seed 0))
  = Ok example_patient
  /\ draws (trace_of (process_module harmless_module example_patient
                        (birth_date example_patient) (rng_seed 0)))
     = count_death_states harmless_module.
Proof.
  exact (non_positive_death_probability_never_kills harmless_module _
           example_patient (birth_date example_patient) (rng_seed 0)
           eq_refl harmless_module_probabilities).
Defined.

Definition fatal_module : ModuleDef :=
  module_with_states "fatal" [weighted_state; death_state 1; death_state 0].

Lemma certain_death_probability_always_kills_witness :
  (1 <= death_prob (death_state 1))%Q
  /\ value_of (process_module fatal_module example_patient
                 (birth_date example_patient) (rng_seed 0))
     = Ok (set_dead example_patient (birth_date example_patient))
  /\ trace_of (process_module fatal_module example_patient
                 (birth_date example_patient) (rng_seed 0))
     = [EvDraw; EvDeath (birth_date example_patient) (module_name fatal_module)].
Proof.
  assert (P : (1 <= death_prob (death_state 1))%Q) by (unfold Qle; cbn; lia).
  assert (Pre : forall x, In x [weighted_state] -> is_death_state x = false).
  { intros x [<- | []]. reflexivity. }
  split; [exact P|].
  exact (certain_death_probability_always_kills fatal_module [weighted_state]
           (death_state 1) [death_state 0] example_patient
           (birth_date example_patient) (rng_seed 0) eq_refl Pre eq_refl P).
Defined.

(** ** The [Module] class *)

(** [Module.to_dict] *)
Definition Module_to_dict (m : Module) : RawModule :=
  {| raw_name := Some (name m); raw_remarks := Some (remarks m);
     raw_states := Some (states m); raw_initial := initial_state m;
     raw_gmf_version := Some (gmf_version m) |}.

(** X24.  [Module(m.to_dict())] is [m] again, and a definition that went
    through [Module] once is a fixed point of the round trip: the
    defaults filled in by [__init__] are written out by [to_dict]. *)
Theorem Module_to_dict_round_trip (m : Module) (d : RawModule) :
  Module_init (Module_to_dict m) = m
  /\ Module_to_dict (Module_init (Module_to_dict (Module_init d)))
     = Module_to_dict (Module_init d).
Proof.
  split; [destruct m; reflexivity|].
  destruct d as [n r st i v]. destruct n, r, st, v; reflexivity.
Qed.

(** X25.  [get_state] finds a state exactly for the names listed by
    [state_names]; for any other name it returns [None]. *)
Theorem get_state_finds_exactly_the_state_names (m : Module) (n : string) :
  get_state m n = None <-> ~ In n (state_names m).
Proof.
  unfold get_state, state_names.
  induction (states m) as [|[k st] rest IH]; cbn [lookup_state map fst In].
  - split; [intros _ []|reflexivity].
  - destruct (String.eqb_spec k n) as [-> |N].
    + split; [discriminate|]. intros H. exfalso. apply H. left. reflexivity.
    + rewrite IH. split.
      * intros H [E|I]; [contradiction|exact (H I)].
      * intros H I. apply H. right. exact I.
Qed.

(** ** Edges of the timeline and of the seed *)

Section Edges.

Context {RS : RandomSource}.

(** X26.  A living patient whose birth date lies after today (a negative
    [min_age]) is not simulated: [_run_modules] evaluates nothing, draws
    nothing and hands the patient back as it was. *)
Theorem patient_born_after_today_is_not_simulated env mods p s :
  today env < birth_date p ->
  is_alive p = true ->
  run_modules env mods p s = (Ok p, s, []).
Proof.
  intros B A. unfold run_modules.
  rewrite (bind_ok _ _ _ _ _ _
             (while_loop_past _ (sorted_by_priority mods) (today env)
                (birth_date p) p s B)).
  cbn [fst snd]. rewrite A. reflexivity.
Qed.

(** X27.  With a seed, [generate_patient] seeds numpy with
    [seed + patient_id]; when that number is negative or not below
    [2 ** 32] the call fails with [ValueError] before any draw, for
    every module list. *)
Theorem seed_outside_numpy_range_fails env c mods i sd s :
  seed c = Some sd ->
  sd + Z.of_nat i < 0 \/ 2 ^ 32 <= sd + Z.of_nat i ->
  env_recursion_limit env <> 0%nat ->
  generate_patient env c mods i s
  = (Raise ValueError, rng_seed (sd + Z.of_nat i), []).
Proof.
  intros S R L. unfold generate_patient.
  destruct (env_recursion_limit env) as [|d]; [congruence|].
  rewrite generate_patient_rec_S.
  apply bind_raise. unfold generate_attempt. rewrite S.
  apply bind_raise.
  assert (N : np_random_seed (sd + Z.of_nat i) (rng_seed (sd + Z.of_nat i))
              = (Raise ValueError, rng_seed (sd + Z.of_nat i), [])).
  { unfold np_random_seed.
    destruct (Z.leb_spec 0 (sd + Z.of_nat i));
      destruct (Z.ltb_spec (sd + Z.of_nat i) (2 ^ 32));
      try reflexivity; lia. }
  unfold bind, random_seed. rewrite N. reflexivity.
Qed.

(** The loop hands back the patient it was given, or that patient with a
    death recorded a whole number of steps after the current date. *)
Lemma while_loop_grid fuel mods end_date cur p s c' p' :
  value_of (while_loop fuel mods end_date cur p s) = Ok (c', p') ->
  p' = p \/ exists k, 0 <= k /\ p' = set_dead p (cur + time_step_days * k).
Proof.
  revert cur p s. induction fuel as [|n IH]; intros cur p s.
  - unfold value_of. cbn [while_loop ret fst]. intros [= _ ->]. left. reflexivity.
  - destruct (Z.leb_spec cur end_date) as [L|L].
    2:{ rewrite while_loop_past by exact L. unfold value_of. cbn [fst].
        intros [= _ ->]. left. reflexivity. }
    destruct (is_alive p) eqn:A.
    2:{ rewrite while_loop_dead by exact A. unfold value_of. cbn [fst].
        intros [= _ ->]. left. reflexivity. }
    assert (Step : forall k, 0 <= k ->
              cur + time_step_days + time_step_days * k
              = cur + time_step_days * (k + 1))
      by (intros; unfold time_step_days; lia).
    destruct (Z.ltb_spec cur (birth_date p)) as [B|B].
    + rewrite (while_loop_skip n mods end_date cur p s L A B).
      destruct (date_add cur time_step_days) as [d|e] eqn:D;
        [|unfold value_of; cbn [fst]; discriminate].
      apply date_add_ok in D. subst d. intros H.
      destruct (IH _ _ _ H) as [-> | (k & K & ->)]; [left; reflexivity|right].
      exists (k + 1). split; [lia|]. rewrite Step by exact K. reflexivity.
    + destruct (while_loop_step n mods end_date cur p s L A B)
        as (p1 & s1 & t1 & _ & O & _ & _ & E).
      rewrite E. clear E.
      destruct (date_add cur time_step_days) as [d|e] eqn:D;
        [|unfold value_of; cbn [fst]; discriminate].
      apply date_add_ok in D. subst d.
      unfold value_of at 1. cbn [fst]. intros H.
      destruct O as [[-> _] | ->].
      * destruct (IH _ _ _ H) as [-> | (k & K & ->)]; [left; reflexivity|right].
        exists (k + 1). split; [lia|]. rewrite Step by exact K. reflexivity.
      * rewrite while_loop_dead in H by reflexivity.
        unfold value_of in H. cbn [fst] in H. injection H as _ <-.
        right. exists 0. split; [lia|]. f_equal. unfold time_step_days. lia.
Qed.

(** X28.  Death comes on the weekly grid: a patient who is alive when
    [_run_modules] starts and dead when it ends has a death date that is
    the birth date plus a whole number of weeks. *)
Theorem death_date_is_a_whole_number_of_weeks_after_birth env mods p s p' :
  is_alive p = true ->
  value_of (run_modules env mods p s) = Ok p' ->
  is_alive p' = false ->
  exists k, 0 <= k /\ death_date p' = Some (birth_date p + 7 * k).
Proof.
  intros A H D. unfold run_modules in H.
  apply bind_value_ok in H as ([c pl] & s1 & t1 & E & H).
  cbn [fst snd] in H.
  assert (V : value_of (while_loop (loop_bound (birth_date p) (today env))
                          (sorted_by_priority mods) (today env)
                          (birth_date p) p s) = Ok (c, pl))
    by (rewrite E; reflexivity).
  apply while_loop_grid in V. destruct V as [-> | (k & K & ->)].
  - rewrite A in H. cbn [negb] in H.
    unfold ret, value_of in H. cbn [fst] in H. injection H as <-. congruence.
  - cbn [is_alive set_dead negb death_date] in H.
    unfold ret, value_of in H. cbn [fst] in H. injection H as <-.
    exists k. split; [exact K|reflexivity].
Qed.

(** X29.  The simulation loop of [_run_modules] is bounded: when it
    ends, the date has passed today or the patient is dead, and it has
    run at most [(today - birth_date) / 7 + 1] times (not at all when the
    birth date is after today). *)
Theorem simulation_loop_is_bounded env mods p s c' p' :
  value_of (while_loop (loop_bound (birth_date p) (today env))
              (sorted_by_priority mods) (today env) (birth_date p) p s)
  = Ok (c', p') ->
  (c' <=? today env) && is_alive p' = false
  /\ exists k, 0 <= k /\ c' = birth_date p + time_step_days * k
               /\ (birth_date p <= today env ->
                   k <= (today env - birth_date p) / time_step_days + 1)
               /\ (today env < birth_date p -> k = 0).
Proof. apply run_modules_loop_exit. Qed.

End Edges.

Definition born_tomorrow : Patient :=
  {| id := "p000002"; created_at := 0;
     first_name := "Linda"; last_name := "Davis";
     gender := FEMALE; race := ASIAN; ethnicity := Some "non-hispanic";
     birth_date := ymd2ord 2026 11 5; death_date := None;
     income := Some 0;
     address := Some "300 Main St"; city := Some "Miami";
     state := Some "Florida"; zip_code := Some "33101";
     conditions := []; encounters := []; medications := [];
     procedures := []; observations := [];
     is_alive := true |}.

Lemma patient_born_after_today_is_not_simulated_witness :
  today example_env < birth_date born_tomorrow
  /\ is_alive born_tomorrow = true
  /\ run_modules example_env [always_die] born_tomorrow (rng_seed 0)
     = (Ok born_tomorrow, rng_seed 0, []).
Proof.
  assert (B : today example_env < birth_date born_tomorrow)
    by (vm_compute; reflexivity).
  split; [exact B|]. split; [reflexivity|].
  exact (patient_born_after_today_is_not_simulated example_env [always_die]
           born_tomorrow (rng_seed 0) B eq_refl).
Defined.

Definition negative_seed_config : Config :=
  {| population_size := 3; min_age := 0; max_age := 100; seed := Some (-1);
     modules_dir := "/data/modules"; output_dir := "/data/output";
     output_format := "fhir"; gender_ratio := default_gender_ratio;
     max_workers := 4; generate_only_living_patients := false |}.

Lemma seed_outside_numpy_range_fails_witness :
  seed negative_seed_config = Some (-1)
  /\ (-1 + Z.of_nat 0 < 0 \/ 2 ^ 32 <= -1 + Z.of_nat 0)
  /\ env_recursion_limit example_env <> 0%nat
  /\ generate_patient example_env negative_seed_config [] 0 (rng_seed 0)
     = (Raise ValueError, rng_seed (-1 + Z.of_nat 0), []).
Proof.
  assert (R : -1 + Z.of_nat 0 < 0 \/ 2 ^ 32 <= -1 + Z.of_nat 0)
    by (left; cbn; lia).
  assert (L : env_recursion_limit example_env <> 0%nat)
    by (vm_compute; discriminate).
  split; [reflexivity|]. split; [exact R|]. split; [exact L|].
  exact (seed_outside_numpy_range_fails example_env negative_seed_config []
           0 (-1) (rng_seed 0) eq_refl R L).
Defined.

Definition died_after_three_weeks : Patient :=
  set_dead born_last_month (ymd2ord 2026 10 22).

Lemma risky_module_run :
  value_of (run_modules example_env [risky_module] born_last_month
              (rng_seed 11))
  = Ok died_after_three_weeks.
Proof. vm_compute. reflexivity. Qed.

Lemma death_date_is_a_whole_number_of_weeks_after_birth_witness :
  is_alive born_last_month = true
  /\ is_alive died_after_three_weeks = false
  /\ death_date died_after_three_weeks
     = Some (birth_date born_last_month + 7 * 3)
  /\ exists k, 0 <= k
               /\ death_date died_after_three_weeks
                  = Some (birth_date born_last_month + 7 * k).
Proof.
  split; [reflexivity|]. split; [reflexivity|].
  split; [vm_compute; reflexivity|].
  exact (death_date_is_a_whole_number_of_weeks_after_birth example_env
           [risky_module] born_last_month (rng_seed 11)
           died_after_three_weeks eq_refl risky_module_run eq_refl).
Defined.

Definition loop_end_example : date * Patient :=
  Eval vm_compute in
    match value_of (while_loop
                      (loop_bound (birth_date born_last_month) (today example_env))
                      (sorted_by_priority [module_a]) (today example_env)
                      (birth_date born_last_month) born_last_month
                      (rng_seed 0)) with
    | Ok cp => cp
    | Raise _ => (0, born_last_month)
    end.

Lemma loop_end_example_run :
  value_of (while_loop
              (loop_bound (birth_date born_last_month) (today example_env))
              (sorted_by_priority [module_a]) (today example_env)
              (birth_date born_last_month) born_last_month (rng_seed 0))
  = Ok (fst loop_end_example, snd loop_end_example).
Proof. vm_compute. reflexivity. Qed.

Lemma simulation_loop_is_bounded_witness :
  (fst loop_end_example <=? today example_env)
  && is_alive (snd loop_end_example) = false
  /\ exists k, 0 <= k
       /\ fst loop_end_example
          = birth_date born_last_month + time_step_days * k
       /\ (birth_date born_last_month <= today example_env ->
           k <= (today example_env - birth_date born_last_month)
                / time_step_days + 1)
       /\ (today example_env < birth_date born_last_month -> k = 0).
Proof.
  exact (simulation_loop_is_bounded example_env [module_a] born_last_month
           (rng_seed 0) (fst loop_end_example) (snd loop_end_example)
           loop_end_example_run).
Defined.

(** ** The default providers *)

(** A provider that carries the contact data of the organization [o]. *)
Definition attached_to (o : Organization) (p : Provider) : Prop :=
  prov_address p = org_address o /\ prov_city p = org_city o
  /\ prov_state p = org_state o /\ prov_zip_code p = org_zip_code o
  /\ prov_phone p = org_phone o.

Definition organization_ids (i n : nat) : list string :=
  map (fun k => ("org" ++ format_03d k)%string) (seq i n).

Definition provider_ids (i n : nat) : list string :=
  map (fun k => ("prov" ++ format_03d k)%string) (seq i n).

Section Providers.

Context {RS : RandomSource}.

Lemma generate_organizations_inv n i s orgs s' t :
  generate_organizations n i s = (Ok orgs, s', t) ->
  map org_id orgs = organization_ids i n
  /\ Forall (fun o => org_city o = Some "Boston" /\ org_state o = Some "MA"
                      /\ org_zip_code o = Some "02108") orgs.
Proof.
  revert i s orgs s' t. induction n as [|k IH]; intros i s orgs s' t H.
  - apply ret_inv in H as (-> & _ & _). split; [reflexivity|constructor].
  - cbn [generate_organizations] in H.
    apply bind_inv_ok in H as (ty & s1 & t1 & t1' & _ & H & _).
    apply bind_inv_ok in H as (house & s2 & t2 & t2' & _ & H & _).
    apply bind_inv_ok in H as (area & s3 & t3 & t3' & _ & H & _).
    apply bind_inv_ok in H as (line & s4 & t4 & t4' & _ & H & _).
    apply bind_inv_ok in H as (rest & s5 & t5 & t5' & R & H & _).
    apply ret_inv in H as (-> & _ & _).
    apply IH in R as [Ids F].
    split.
    + unfold organization_ids in *. cbn [map seq org_id].
      rewrite Ids. reflexivity.
    + constructor; [|exact F]. cbn. auto.
Qed.

Lemma generate_providers_inv specialties orgs n i s provs s' t :
  orgs <> [] ->
  generate_providers specialties orgs n i s = (Ok provs, s', t) ->
  map prov_id provs = provider_ids i n
  /\ Forall (fun p =>
       (exists sp, prov_specialty p = Some sp /\ In sp specialties)
       /\ exists o, In o orgs /\ attached_to o p) provs.
Proof.
  intros No. revert i s provs s' t.
  induction n as [|k IH]; intros i s provs s' t H.
  - apply ret_inv in H as (-> & _ & _). split; [reflexivity|constructor].
  - cbn [generate_providers] in H.
    apply bind_inv_ok in H as (sp & s1 & t1 & t1' & Sp & H & _).
    apply choice_inv in Sp as [Sp _].
    apply bind_inv_ok in H as (org & s2 & t2 & t2' & O & H & _).
    assert (Org : exists o, org = Some o /\ In o orgs).
    { destruct orgs as [|o0 r]; [contradiction|].
      apply bind_inv_ok in O as (o & s3 & t3 & t3' & C & O & _).
      apply choice_inv in C as [C _].
      apply ret_inv in O as (-> & _ & _). exists o. auto. }
    destruct Org as (o & -> & Io).
    apply bind_inv_ok in H as (addr & s3 & t3 & t3' & A & H & _).
    apply ret_inv in A as (-> & _ & _).
    apply bind_inv_ok in H as (phone & s4 & t4 & t4' & P & H & _).
    apply ret_inv in P as (-> & _ & _).
    apply bind_inv_ok in H as (rest & s5 & t5 & t5' & R & H & _).
    apply ret_inv in H as (-> & _ & _).
    apply IH in R as [Ids F].
    split.
    + unfold provider_ids in *. cbn [map seq prov_id].
      rewrite Ids. reflexivity.
    + constructor; [|exact F]. split.
      * exists sp. split; [reflexivity|exact Sp].
      * exists o. split; [exact Io|]. repeat split.
Qed.

(** X30.  Building a [Generator] never fails.  Its provider factory ends
    up with the five organizations [org000] to [org004], all in Boston,
    and the twenty providers [prov000] to [prov019]; every provider has
    one of the default specialties and carries the address, city, state,
    zip code and phone of one of the five organizations.  Building it
    takes exactly sixty calls into [random] and logs nothing. *)
Theorem default_providers_belong_to_the_organizations s :
  exists pf s',
    Generator_init s = (Ok pf, s', repeat EvDraw 60)
    /\ pf_specialties pf = DEFAULT_SPECIALTIES
    /\ map org_id (pf_organizations pf) = organization_ids 0 5
    /\ Forall (fun o => org_city o = Some "Boston" /\ org_state o = Some "MA"
                        /\ org_zip_code o = Some "02108")
         (pf_organizations pf)
    /\ map prov_id (pf_providers pf) = provider_ids 0 20
    /\ Forall (fun p =>
         (exists sp, prov_specialty p = Some sp /\ In sp DEFAULT_SPECIALTIES)
         /\ exists o, In o (pf_organizations pf) /\ attached_to o p)
         (pf_providers pf).
Proof.
  destruct (Generator_init_run s) as (pf & s' & E).
  exists pf, s'. split; [exact E|].
  unfold Generator_init, ProviderFactory_init, generate_default_providers in E.
  cbv zeta in E.
  apply bind_inv_ok in E as (generated & s0 & t0 & t0' & G & E & _).
  apply ret_inv in E as (-> & _ & _).
  apply bind_inv_ok in G as (orgs & s1 & t1 & t1' & O & G & _).
  apply bind_inv_ok in G as (provs & s2 & t2 & t2' & P & G & _).
  apply ret_inv in G as (-> & _ & _).
  cbn [pf_specialties pf_organizations pf_providers fst snd].
  apply generate_organizations_inv in O as [Oi Of].
  assert (No : orgs <> []).
  { intros ->. discriminate Oi. }
  apply (generate_providers_inv _ _ _ _ _ _ _ _ No) in P as [Pi Pf].
  repeat split; assumption.
Qed.

End Providers.

(** ** A ratio of zeros *)

Lemma float_zero_sum (c v : float) :
  (c =? 0)%float = true -> (v =? 0)%float = true ->
  (c + v =? 0)%float = true.
Proof.
  intros Hc Hv.
  destruct (float_eqb_zero c Hc) as [-> | ->],
           (float_eqb_zero v Hv) as [-> | ->]; reflexivity.
Qed.

Lemma Qlt_float_zero (rnd : Q) (z : float) :
  (0 <= rnd)%Q -> (z =? 0)%float = true -> Qlt_float rnd z = false.
Proof.
  intros L Z.
  assert (N : Qltb rnd 0 = false).
  { unfold Qltb. apply negb_false_iff. apply Qle_bool_iff. exact L. }
  destruct (float_eqb_zero z Z) as [-> | ->]; exact N.
Qed.

Lemma select_cumulative_zeros {K} (items : list (K * float)) rnd c :
  (0 <= rnd)%Q -> (c =? 0)%float = true ->
  Forall (fun kv => (snd kv =? 0)%float = true) items ->
  select_cumulative items rnd c = None.
Proof.
  intros L. revert c. induction items as [|[k v] rest IH]; intros c Hc F.
  - reflexivity.
  - inversion F as [|x l Hv Hrest]; subst. cbn [snd] in Hv.
    cbn [select_cumulative].
    pose proof (float_zero_sum c v Hc Hv) as Z.
    rewrite (Qlt_float_zero rnd _ L Z). apply IH; assumption.
Qed.

Section ZeroRatio.

Context {RS : RandomSource}.

(** X31.  When every value of [gender_ratio] is zero, as it is once a
    total that overflowed has been divided into the values, every
    generated patient is female, whatever the keys: no draw is below a
    running total of zero, and the selection falls through to its
    default. *)
Theorem zero_ratio_makes_every_patient_female env c mods i s p :
  Forall (fun kv => (snd kv =? 0)%float = true) (gender_ratio c) ->
  value_of (generate_patient env c mods i s) = Ok p ->
  gender p = FEMALE.
Proof.
  intros Z H. apply generate_patient_same_person in H as (p0 & D & S).
  assert (G : gender p0 = FEMALE).
  { destruct D as (g & y & m & d & inc & n & loc & D).
    destruct D as (_ & (rnd & L & _ & Eg) & _ & _ & _ & G & _).
    rewrite (select_cumulative_zeros _ rnd 0%float L eq_refl Z) in Eg.
    subst g. exact G. }
  unfold same_person in S. decompose [and] S. congruence.
Qed.

End ZeroRatio.

Definition zeroed_ratio_example : Patient :=
  Eval vm_compute in
    match value_of (generate_patient example_env zeroed_ratio_config []
                      4 (rng_seed 2)) with
    | Ok p => p
    | Raise _ => example_patient
    end.

Lemma zeroed_ratio_example_run :
  value_of (generate_patient example_env zeroed_ratio_config [] 4 (rng_seed 2))
  = Ok zeroed_ratio_example.
Proof. vm_compute. reflexivity. Qed.

(** The same call with the default ratio hands back a man. *)
Lemma zero_ratio_makes_every_patient_female_witness :
  map fst (gender_ratio zeroed_ratio_config) = ["M"; "F"]
  /\ Forall (fun kv => (snd kv =? 0)%float = true)
       (gender_ratio zeroed_ratio_config)
  /\ result_map gender
       (value_of (generate_patient example_env default_config [] 4
                    (rng_seed 2)))
     = Ok MALE
  /\ gender zeroed_ratio_example = FEMALE.
Proof.
  assert (Z : Forall (fun kv => (snd kv =? 0)%float = true)
                (gender_ratio zeroed_ratio_config))
    by (repeat constructor).
  split; [reflexivity|]. split; [exact Z|].
  split; [vm_compute; reflexivity|].
  exact (zero_ratio_makes_every_patient_female example_env
           zeroed_ratio_config [] 4 (rng_seed 2) zeroed_ratio_example
           Z zeroed_ratio_example_run).
Defined.
